(** * BCC train booking CLI: pricing, seat inventory and booking lifecycle

    A shallow embedding of [BookingSystem] from [trainbooking.py]: the fare
    calculator [_calculate_discounted_price], the create path
    ([search_and_book_trains], [confirm_and_create_booking]), the per-user
    view ([view_my_bookings]) and [cancel_booking].

    Conventions of the embedding.
    - Python dictionaries with a fixed set of keys (a train, a price
      breakdown, a booking) are records; [trains_db], a dictionary from
      route keys to lists of trains, is a [gmap string (list Train)].
    - Python [int]s are [Z].  The bookkeeping (ledger, inventory, counts,
      order of the effects) carries the amounts of money as exact rationals
      ([Qc], so that [=] is numeric equality): the values of the
      expressions the program writes down when no operation rounds.  What
      the program computes for those amounts on its own numbers, [int]s
      and binary64 [float]s with their conversions and [OverflowError], is
      [Binary64]; what is stated about the value of a fare or of a refund
      is stated there.
    - Objects that the program shares by reference are addressed by their
      place in the store: the selected train by route key and position in
      the route's list, the booking being modified by its position in
      [bookings].
    - Terminal input is a list of lines consumed front to back; running out
      of lines is the [EOFError] that [input()] raises, which nothing in the
      program catches.
    - Every mutation of the ledger or of the inventory, every [_save_data]
      call and every message that a decision of the program prints is
      recorded, in program order, in the [trace] of the state. *)

From Stdlib Require Import ZArith QArith Qcanon Ascii String List Lia Floats Uint63 Sorted.
From stdpp Require Import base numbers list strings pretty gmap.

Local Open Scope string_scope.
Local Open Scope list_scope.
Local Open Scope Z_scope.

(** ** Money *)

(** A decimal literal [n/d] of the source. *)
Definition dec (n : Z) (d : positive) : Qc := Q2Qc (n # d).

(** The value of a Python [int] used in arithmetic with prices. *)
Definition num (z : Z) : Qc := Qc_of_Z z.

(** [DISCOUNT_RATES], the class attribute. *)
Inductive rate_key := CHILD | INFANT | SENIOR_CITIZEN | OFF_PEAK_SEASON.

Definition DISCOUNT_RATES (k : rate_key) : Qc :=
  match k with
  | CHILD => dec 50 100
  | INFANT => dec 100 100
  | SENIOR_CITIZEN => dec 30 100
  | OFF_PEAK_SEASON => dec 10 100
  end.

(** ** Data model *)

(** What [datetime.strptime(s, "%Y-%m-%d").date()] returns. *)
Record date := Date { year : Z; month : Z; day : Z }.

(** A train of [trains_db]. *)
Record Train := mkTrain {
  id : string;
  name : string;
  departure : string;
  arrival : string;
  price : Qc;
  seats : Z
}.

(** The ["breakdown"] sub-dictionary of a price breakdown. *)
Record Savings := mkSavings {
  infant_savings : Qc;
  child_savings : Qc;
  senior_savings : Qc;
  season_savings : Qc
}.

(** The dictionary returned by [_calculate_discounted_price]. *)
Record Pricing := mkPricing {
  final_price : Qc;
  base_price_per_ticket : Qc;
  adults_tickets : Z;
  infant_tickets : Z;
  children_tickets : Z;
  seniors_tickets : Z;
  subtotal : Qc;
  total_discount : Qc;
  breakdown : Savings
}.

(** A booking record of [bookings]. *)
Record Booking := mkBooking {
  booking_id : string;
  username : string;
  booking_time : string;
  train_details : Train;
  route_from : string;
  route_to : string;
  travel_date : string;
  num_tickets : Z;
  pricing : Pricing;
  total_price : Qc
}.

#[global] Instance Train_eq_dec : EqDecision Train.
Proof. solve_decision. Defined.
#[global] Instance Savings_eq_dec : EqDecision Savings.
Proof. solve_decision. Defined.
#[global] Instance Pricing_eq_dec : EqDecision Pricing.
Proof. solve_decision. Defined.
#[global] Instance Booking_eq_dec : EqDecision Booking.
Proof. solve_decision. Defined.


(** ** The terminal *)

(** One line typed at a prompt, as the program tells lines apart after
    [.strip()]: the text ["0"], a text that [.lower()] turns into ["y"],
    any other text that [int()] accepts (with its value), the empty text,
    and everything else. *)
Inductive line :=
| Zero
| Yes
| Int (z : Z)
| Empty
| Other.

(** [choice == '0'] *)
Definition is_zero (l : line) : bool :=
  match l with Zero => true | _ => false end.

(** [confirm == 'y'], after [.strip().lower()] *)
Definition is_y (l : line) : bool :=
  match l with Yes => true | _ => false end.

(** [int(choice)]; [None] is [ValueError]. *)
Definition int (l : line) : option Z :=
  match l with
  | Zero => Some 0
  | Int z => Some z
  | Yes | Empty | Other => None
  end.

(** [int(input(...).strip() or 0)]: the empty text counts as 0. *)
Definition int_or_0 (l : line) : option Z :=
  match l with
  | Empty => Some 0
  | _ => int l
  end.

(** How a call ended: it returned, or [input()] raised [EOFError]. *)
Inductive outcome := Returned | EOFError.

(** What the clock and the random generator supply to one booking:
    [int(time.time())], [random.randint(100, 999)] and
    [datetime.now().isoformat()]. *)
Record Env := mkEnv {
  time_time : Z;
  randint_100_999 : Z;
  now_isoformat : string
}.

(** ** Effects *)

Inductive file := USERS_FILE | TRAINS_FILE | BOOKINGS_FILE.

(** The four ticket categories, in the order of [categories] in
    [cancel_booking]; each stands for its key of the pricing dictionary. *)
Inductive category := Adult | Infant | Child | Senior.

#[global] Instance category_eq_dec : EqDecision category.
Proof. solve_decision. Defined.

(** Messages that report a decision of the program. *)
Inductive message :=
| SameStations                      (* From and To stations cannot be the same. *)
| NoTrainsFound                     (* Sorry, no trains found ... *)
| BookingCancelled                  (* Booking cancelled. *)
| MustBookAtLeastOne                (* You must book at least one ticket. *)
| ExceedsAvailableSeats (n s : Z)   (* Total tickets (n) exceeds available seats (s). *)
| InvalidCategoryNumber             (* Invalid input. Please enter a valid number for each category. *)
| InvalidTrainNumber                (* Invalid train number. *)
| InvalidInput                      (* Invalid input. Please enter a number. *)
| BookingConfirmed (bid : string)   (* Booking Confirmed! Your Booking ID is: ... *)
| NoBookingsToCancel                (* You have no bookings to cancel. *)
| ModificationAborted               (* Modification aborted. *)
| ZeroTicketsRemaining              (* This booking has 0 tickets remaining. *)
| MustBeBetween (remaining : Z)     (* Invalid input. Must be between 0 and remaining. *)
| NoSeatsSelected                   (* No seats selected for cancellation. Modification aborted. *)
| CancellationAborted               (* Cancellation aborted. *)
| CouldNotRestoreSeats              (* Error: Could not restore seat count. Please contact support. *)
| FullyCancelled (bid : string)     (* Booking ... has been fully cancelled. *)
| PartiallyCancelled (bid : string) (n : Z) (* ... partially cancelled (n seats removed). *)
| Refund (seats : Z) (gross fee net : Qc) (* Refund processed ...; gross, fee and net refund *)
| InvalidNumber.                    (* Invalid number. Please try again. *)

Inductive event :=
| Print (m : message)
| Save (f : file)                                   (* _save_data(f, ...) *)
| LedgerAppend (b : Booking)                        (* self.bookings.append(b) *)
| LedgerRemove (b : Booking)                        (* self.bookings.remove(b) *)
| LedgerSubCount (pos : nat) (c : category) (n : Z) (* p[key] -= n *)
| LedgerSetNumTickets (pos : nat) (v : Z)           (* booking['num_tickets'] = v *)
| LedgerSetTotalPrice (pos : nat) (v : Qc)          (* booking['total_price'] = v *)
| SeatsSub (route_key : string) (idx : nat) (n : Z) (* train['seats'] -= n *)
| SeatsAdd (route_key : string) (idx : nat) (n : Z). (* train['seats'] += n *)

(** ** The state of a [BookingSystem] with a user logged in *)

Record BookingSystem := mkSystem {
  bookings : list Booking;
  trains_db : gmap string (list Train);
  current_user : string;
  trace : list event
}.

Definition log (e : event) (st : BookingSystem) : BookingSystem :=
  mkSystem (bookings st) (trains_db st) (current_user st) (trace st ++ [e]).

Definition print (m : message) : BookingSystem -> BookingSystem := log (Print m).

(** [_save_data]: the write itself is outside the model; an [IOError] is
    caught inside the function and changes nothing in memory. *)
Definition _save_data (f : file) : BookingSystem -> BookingSystem := log (Save f).

Definition with_bookings (l : list Booking) (st : BookingSystem) : BookingSystem :=
  mkSystem l (trains_db st) (current_user st) (trace st).

Definition with_trains_db (db : gmap string (list Train)) (st : BookingSystem) : BookingSystem :=
  mkSystem (bookings st) db (current_user st) (trace st).

(** *** Seat inventory *)

Definition add_seats (n : Z) (t : Train) : Train :=
  mkTrain (id t) (name t) (departure t) (arrival t) (price t) (seats t + n).

(** A train object of [trains_db] as the program holds it: the route key
    and the position in the route's list. *)
Definition train_ref : Type := string * nat.

Definition deref (db : gmap string (list Train)) (r : train_ref) : option Train :=
  db !! r.1 ≫= λ trains, trains !! r.2.

(** [train['seats'] -= num_tickets] on the train object behind [r]
    (line 400). *)
Definition reserve (r : train_ref) (num_tickets : Z) (st : BookingSystem) : BookingSystem :=
  log (SeatsSub r.1 r.2 num_tickets)
    (with_trains_db (alter (alter (add_seats (- num_tickets)) r.2) r.1 (trains_db st)) st).

(** [train['seats'] += total_cancelled_seats] on the train object behind
    [r] (line 568). *)
Definition restore (r : train_ref) (total_cancelled_seats : Z) (st : BookingSystem)
    : BookingSystem :=
  log (SeatsAdd r.1 r.2 total_cancelled_seats)
    (with_trains_db (alter (alter (add_seats total_cancelled_seats) r.2) r.1 (trains_db st)) st).

(** The [try] block of lines 565-573: the first train of the route whose
    id is [train_id] gets the seats back; a missing route key is the
    [KeyError] that the [except] turns into a message. *)
Definition release (route_key train_id : string) (total_cancelled_seats : Z)
    (st : BookingSystem) : BookingSystem :=
  match trains_db st !! route_key with
  | None => print CouldNotRestoreSeats st
  | Some trains =>
      _save_data TRAINS_FILE
        match list_find (λ train, id train = train_id) trains with
        | Some (idx, _) => restore (route_key, idx) total_cancelled_seats st
        | None => st
        end
  end.

(** *** Booking ledger *)

(** [self.bookings.append(booking_record)] *)
Definition ledger_append (b : Booking) (st : BookingSystem) : BookingSystem :=
  log (LedgerAppend b) (with_bookings (bookings st ++ [b]) st).

(** [list.remove]: drops the first element equal to [b]. *)
Fixpoint list_remove (b : Booking) (l : list Booking) : list Booking :=
  match l with
  | [] => []
  | x :: l' => if decide (x = b) then l' else x :: list_remove b l'
  end.

(** [self.bookings.remove(booking_to_modify)] *)
Definition ledger_remove (b : Booking) (st : BookingSystem) : BookingSystem :=
  log (LedgerRemove b) (with_bookings (list_remove b (bookings st)) st).

(** [p.get(key, 0)] / [p[key]] *)
Definition count (c : category) (p : Pricing) : Z :=
  match c with
  | Adult => adults_tickets p
  | Infant => infant_tickets p
  | Child => children_tickets p
  | Senior => seniors_tickets p
  end.

(** [p[key] = v] *)
Definition set_count (c : category) (v : Z) (p : Pricing) : Pricing :=
  match c with
  | Adult =>
      mkPricing (final_price p) (base_price_per_ticket p)
        v (infant_tickets p) (children_tickets p) (seniors_tickets p)
        (subtotal p) (total_discount p) (breakdown p)
  | Infant =>
      mkPricing (final_price p) (base_price_per_ticket p)
        (adults_tickets p) v (children_tickets p) (seniors_tickets p)
        (subtotal p) (total_discount p) (breakdown p)
  | Child =>
      mkPricing (final_price p) (base_price_per_ticket p)
        (adults_tickets p) (infant_tickets p) v (seniors_tickets p)
        (subtotal p) (total_discount p) (breakdown p)
  | Senior =>
      mkPricing (final_price p) (base_price_per_ticket p)
        (adults_tickets p) (infant_tickets p) (children_tickets p) v
        (subtotal p) (total_discount p) (breakdown p)
  end.

Definition with_pricing (p : Pricing) (b : Booking) : Booking :=
  mkBooking (booking_id b) (username b) (booking_time b) (train_details b)
    (route_from b) (route_to b) (travel_date b) (num_tickets b) p (total_price b).

Definition with_num_tickets (v : Z) (b : Booking) : Booking :=
  mkBooking (booking_id b) (username b) (booking_time b) (train_details b)
    (route_from b) (route_to b) (travel_date b) v (pricing b) (total_price b).

Definition with_total_price (v : Qc) (b : Booking) : Booking :=
  mkBooking (booking_id b) (username b) (booking_time b) (train_details b)
    (route_from b) (route_to b) (travel_date b) (num_tickets b) (pricing b) v.

(** [p[key] -= count] on the booking object at position [pos]. *)
Definition sub_count (c : category) (n : Z) (b : Booking) : Booking :=
  with_pricing (set_count c (count c (pricing b) - n) (pricing b)) b.

Definition ledger_sub_count (pos : nat) (c : category) (n : Z) (st : BookingSystem)
    : BookingSystem :=
  log (LedgerSubCount pos c n)
    (with_bookings (alter (sub_count c n) pos (bookings st)) st).

(** [booking_to_modify['num_tickets'] = v] *)
Definition ledger_set_num_tickets (pos : nat) (v : Z) (st : BookingSystem) : BookingSystem :=
  log (LedgerSetNumTickets pos v)
    (with_bookings (alter (with_num_tickets v) pos (bookings st)) st).

(** [booking_to_modify['total_price'] = v] *)
Definition ledger_set_total_price (pos : nat) (v : Qc) (st : BookingSystem) : BookingSystem :=
  log (LedgerSetTotalPrice pos v)
    (with_bookings (alter (with_total_price v) pos (bookings st)) st).

(** [[b for b in self.bookings if b['username'] == current_user]]: each
    booking object with its position in [bookings]. *)
Definition user_bookings (st : BookingSystem) : list (nat * Booking) :=
  filter (λ ib, username ib.2 = current_user st) (imap pair (bookings st)).

Section Engine.

(** [datetime.strptime(travel_date_str, "%Y-%m-%d").date()], with [None]
    for the [ValueError] it raises on text that is not such a date. *)
Variable strptime : string -> option date.

(** [_calculate_discounted_price], lines 223-268, with every amount the
    exact value of its expression; the doubles that the code computes are
    those of [Binary64._calculate_discounted_price] below. *)
Definition _calculate_discounted_price (base_price : Qc) (travel_date_str : string)
    (num_adults num_infants num_children num_seniors : Z) : Pricing :=
  let price_adults := (base_price * num num_adults)%Qc in
  let infant_discount_rate := DISCOUNT_RATES INFANT in
  let price_infants := (base_price * num num_infants * (1 - infant_discount_rate))%Qc in
  let infant_savings := (base_price * num num_infants * infant_discount_rate)%Qc in
  let child_discount_rate := DISCOUNT_RATES CHILD in
  let price_children := (base_price * num num_children * (1 - child_discount_rate))%Qc in
  let child_savings := (base_price * num num_children * child_discount_rate)%Qc in
  let senior_discount_rate := DISCOUNT_RATES SENIOR_CITIZEN in
  let price_seniors := (base_price * num num_seniors * (1 - senior_discount_rate))%Qc in
  let senior_savings := (base_price * num num_seniors * senior_discount_rate)%Qc in
  let subtotal := (price_adults + price_infants + price_children + price_seniors)%Qc in
  let total_category_discount := (infant_savings + child_savings + senior_savings)%Qc in
  let season_savings :=
    match strptime travel_date_str with
    | Some travel_date =>
        if bool_decide (month travel_date ∈ [1; 2])
        then (subtotal * DISCOUNT_RATES OFF_PEAK_SEASON)%Qc
        else 0%Qc
    | None => 0%Qc
    end in
  let final_total_price := (subtotal - season_savings)%Qc in
  let total_discount := (total_category_discount + season_savings)%Qc in
  {| final_price := final_total_price;
     base_price_per_ticket := base_price;
     adults_tickets := num_adults;
     infant_tickets := num_infants;
     children_tickets := num_children;
     seniors_tickets := num_seniors;
     subtotal := subtotal;
     total_discount := total_discount;
     breakdown := {| infant_savings := infant_savings;
                     child_savings := child_savings;
                     senior_savings := senior_savings;
                     season_savings := season_savings |} |}.


(** *** Create path *)

(** Lines 382-407 of [confirm_and_create_booking]: the booking itself,
    once confirmed.  [train] is the selected train object and [r] its place
    in [trains_db].  The [except] of lines 402-403 has nothing to catch: the
    subtraction cannot fail, and [_save_data] handles its own [IOError]. *)
Definition create_booking (env : Env) (r : train_ref) (train : Train)
    (from_stn to_stn date_str : string) (num_tickets : Z) (pricing_details : Pricing)
    (st : BookingSystem) : BookingSystem :=
  let final_total_price := final_price pricing_details in
  let booking_id := "BCC" +:+ pretty (time_time env) +:+ pretty (randint_100_999 env) in
  let booking_record :=
    {| booking_id := booking_id;
       username := current_user st;
       booking_time := now_isoformat env;
       train_details := train;
       route_from := from_stn;
       route_to := to_stn;
       travel_date := date_str;
       num_tickets := num_tickets;
       pricing := pricing_details;
       total_price := final_total_price |} in
  let st := ledger_append booking_record st in
  let st := _save_data BOOKINGS_FILE st in
  let st := reserve r num_tickets st in
  let st := _save_data TRAINS_FILE st in
  print (BookingConfirmed booking_id) st.

(** [confirm_and_create_booking], lines 351-409. *)
Definition confirm_and_create_booking (env : Env) (r : train_ref) (train : Train)
    (from_stn to_stn date_str : string) (num_tickets : Z) (pricing_details : Pricing)
    (st : BookingSystem) (input : list line) : BookingSystem * outcome :=
  match input with
  | [] => (st, EOFError)
  | confirm :: _ =>
      if is_y confirm
      then (create_booking env r train from_stn to_stn date_str num_tickets pricing_details st,
            Returned)
      else (print BookingCancelled st, Returned)
  end.

(** The [while True] loop of [search_and_book_trains], lines 302-349. *)
Fixpoint select_train (env : Env) (from_stn to_stn date_str route_key : string)
    (results : list Train) (st : BookingSystem) (input : list line)
    : BookingSystem * outcome :=
  let again := select_train env from_stn to_stn date_str route_key results in
  match input with
  | [] => (st, EOFError)
  | choice :: input =>
  if is_zero choice then (print BookingCancelled st, Returned) else
  match int choice with
  | None => again (print InvalidInput st) input
  | Some choice =>
  let choice_index := choice - 1 in
  match (if bool_decide (0 ≤ choice_index)%Z then results !! Z.to_nat choice_index else None) with
  | None => again (print InvalidTrainNumber st) input
  | Some selected_train =>
  match input with [] => (st, EOFError) | adults :: input =>
  match int_or_0 adults with
  | None => again (print InvalidCategoryNumber st) input
  | Some num_adults =>
  match input with [] => (st, EOFError) | infants :: input =>
  match int_or_0 infants with
  | None => again (print InvalidCategoryNumber st) input
  | Some num_infants =>
  match input with [] => (st, EOFError) | children :: input =>
  match int_or_0 children with
  | None => again (print InvalidCategoryNumber st) input
  | Some num_children =>
  match input with [] => (st, EOFError) | seniors :: input =>
  match int_or_0 seniors with
  | None => again (print InvalidCategoryNumber st) input
  | Some num_seniors =>
  let num_tickets := num_adults + num_infants + num_children + num_seniors in
  if bool_decide (num_tickets = 0) then again (print MustBookAtLeastOne st) input
  else if negb (bool_decide (1 ≤ num_tickets ≤ seats selected_train)%Z) then
    again (print (ExceedsAvailableSeats num_tickets (seats selected_train)) st) input
  else
    let pricing_details :=
      _calculate_discounted_price (price selected_train) date_str
        num_adults num_infants num_children num_seniors in
    confirm_and_create_booking env (route_key, Z.to_nat choice_index) selected_train
      from_stn to_stn date_str num_tickets pricing_details st input
  end end end end end end end end end end end.

(** [search_and_book_trains], lines 270-349, from the point where the two
    stations and the validated date have been read. *)
Definition search_and_book_trains (env : Env) (from_stn to_stn date_str : string)
    (st : BookingSystem) (input : list line) : BookingSystem * outcome :=
  if bool_decide (from_stn = to_stn) then (print SameStations st, Returned) else
  let route_key := from_stn +:+ "::" +:+ to_stn in
  let results := default [] (trains_db st !! route_key) in
  if bool_decide (results = []) then (print NoTrainsFound st, Returned) else
  select_train env from_stn to_stn date_str route_key results st input.

(** *** Per-user view *)

(** The sort key [(b['travel_date'], b['booking_time'])] and Python's [<]
    on such pairs of strings. *)
Definition key_lt (b1 b2 : Booking) : bool :=
  String.ltb (travel_date b1) (travel_date b2)
  || (String.eqb (travel_date b1) (travel_date b2)
      && String.ltb (booking_time b1) (booking_time b2)).

(** [list.sort(key=...)] is stable: a booking goes in front of the first
    one whose key is greater. *)
Fixpoint insert_by_key (b : Booking) (l : list Booking) : list Booking :=
  match l with
  | [] => [b]
  | x :: l' => if key_lt b x then b :: x :: l' else x :: insert_by_key b l'
  end.

Definition sort_by_key (l : list Booking) : list Booking :=
  foldl (λ sorted b, insert_by_key b sorted) [] l.

(** [view_my_bookings], lines 411-445: the bookings it displays, in the
    order it displays them. *)
Definition view_my_bookings (st : BookingSystem) : list Booking :=
  sort_by_key (snd <$> user_bookings st).

(** *** Cancel path *)

(** The inner [while True] loop of lines 499-523 for one category: the
    count it accepts and the input left, or [None] for [EOFError]. *)
Fixpoint ask_cancel_count (remaining : Z) (st : BookingSystem) (input : list line)
    : BookingSystem * option (Z * list line) :=
  match input with
  | [] => (st, None)
  | l :: input =>
      match int_or_0 l with
      | None => ask_cancel_count remaining (print InvalidInput st) input
      | Some cancel_count =>
          if bool_decide (0 ≤ cancel_count ≤ remaining)%Z then (st, Some (cancel_count, input))
          else ask_cancel_count remaining (print (MustBeBetween remaining) st) input
      end
  end.

(** [categories], lines 484-489. *)
Definition categories : list category := [Adult; Infant; Child; Senior].

(** The price paid for one ticket of a category, lines 509-516, as an
    exact value; on doubles it is [Binary64.ticket_paid_price]. *)
Definition ticket_paid_price (key : category) (base_price : Qc) : Qc :=
  match key with
  | Adult => (base_price * dec 10 10)%Qc
  | Infant => dec 0 10
  | Child => (base_price * (dec 10 10 - DISCOUNT_RATES CHILD))%Qc
  | Senior => (base_price * (dec 10 10 - DISCOUNT_RATES SENIOR_CITIZEN))%Qc
  end.

(** The locals that the [for] loop of lines 496-525 builds up;
    [cancellations] keeps the insertion order of the dictionary. *)
Record Tally := mkTally {
  cancellations : list (category * Z);
  total_cancelled_seats : Z;
  total_refund_gross : Qc
}.

(** The [for] loop of lines 496-525 over the categories still to ask. *)
Fixpoint ask_categories (keys : list category) (p : Pricing) (t : Tally)
    (st : BookingSystem) (input : list line) : BookingSystem * option (Tally * list line) :=
  match keys with
  | [] => (st, Some (t, input))
  | key :: keys =>
      let remaining := count key p in
      if bool_decide (remaining > 0)%Z then
        match ask_cancel_count remaining st input with
        | (st, None) => (st, None)
        | (st, Some (cancel_count, input)) =>
            let base_price := base_price_per_ticket p in
            ask_categories keys p
              {| cancellations := cancellations t ++ [(key, cancel_count)];
                 total_cancelled_seats := total_cancelled_seats t + cancel_count;
                 total_refund_gross :=
                   (total_refund_gross t + num cancel_count * ticket_paid_price key base_price)%Qc |}
              st input
        end
      else
        ask_categories keys p
          {| cancellations := cancellations t ++ [(key, 0)];
             total_cancelled_seats := total_cancelled_seats t;
             total_refund_gross := total_refund_gross t |}
          st input
  end.

(** Lines 544-546, as exact values; on doubles they are the fee and the
    net refund of [Binary64.refund]. *)
Definition cancellation_fee_rate : Qc := dec 10 100.

Definition cancellation_fee (total_refund_gross : Qc) : Qc :=
  (total_refund_gross * cancellation_fee_rate)%Qc.

Definition net_refund (total_refund_gross : Qc) : Qc :=
  (total_refund_gross - cancellation_fee total_refund_gross)%Qc.

(** Lines 544-583 of [cancel_booking]: the cancellation itself, once the
    counts of [t] have been confirmed.  [booking_to_modify] is the selected
    booking object and [pos] its position in [bookings]. *)
Definition commit_cancellation (pos : nat) (booking_to_modify : Booking) (t : Tally)
    (st : BookingSystem) : BookingSystem :=
  let current_tickets := num_tickets booking_to_modify in
  let gross := total_refund_gross t in
  let new_tickets := current_tickets - total_cancelled_seats t in
  let new_total_price := (total_price booking_to_modify - net_refund gross)%Qc in
  let st :=
    if bool_decide (new_tickets = 0) then ledger_remove booking_to_modify st
    else
      let st := foldl (λ st kc, ledger_sub_count pos kc.1 kc.2 st) st (cancellations t) in
      let st := ledger_set_num_tickets pos new_tickets st in
      ledger_set_total_price pos new_total_price st in
  let train_id := id (train_details booking_to_modify) in
  let route_key := route_from booking_to_modify +:+ "::" +:+ route_to booking_to_modify in
  let st := release route_key train_id (total_cancelled_seats t) st in
  let st := _save_data BOOKINGS_FILE st in
  let st :=
    print (if bool_decide (new_tickets = 0)
           then FullyCancelled (booking_id booking_to_modify)
           else PartiallyCancelled (booking_id booking_to_modify) (total_cancelled_seats t)) st in
  print (Refund (total_cancelled_seats t) gross (cancellation_fee gross) (net_refund gross)) st.

(** The locals [cancellations], [total_cancelled_seats] and
    [total_refund_gross] as lines 483-492 set them up. *)
Definition no_cancellations : Tally := mkTally [] 0 (dec 0 10).

(** Lines 476-583 of [cancel_booking]: what happens to the selected
    booking object once it is known to have tickets left. *)
Definition cancel_selected (pos : nat) (booking_to_modify : Booking)
    (st : BookingSystem) (input : list line) : BookingSystem * outcome :=
  let p := pricing booking_to_modify in
  match ask_categories categories p no_cancellations st input with
  | (st, None) => (st, EOFError)
  | (st, Some (t, input)) =>
      if bool_decide (total_cancelled_seats t = 0) then (print NoSeatsSelected st, Returned)
      else
        match input with
        | [] => (st, EOFError)
        | confirm :: _ =>
            if negb (is_y confirm) then (print CancellationAborted st, Returned)
            else (commit_cancellation pos booking_to_modify t st, Returned)
        end
  end.

(** The [while True] loop of lines 465-587 that selects the booking. *)
Fixpoint select_booking (user_bookings : list (nat * Booking)) (st : BookingSystem)
    (input : list line) : BookingSystem * outcome :=
  match input with
  | [] => (st, EOFError)
  | choice_str :: input =>
  if is_zero choice_str then (print ModificationAborted st, Returned) else
  match int choice_str with
  | None => select_booking user_bookings (print InvalidInput st) input
  | Some choice =>
  let choice_index := choice - 1 in
  match (if bool_decide (0 ≤ choice_index)%Z
         then user_bookings !! Z.to_nat choice_index else None) with
  | None => select_booking user_bookings (print InvalidNumber st) input
  | Some (pos, booking_to_modify) =>
      if bool_decide (num_tickets booking_to_modify = 0)
      then select_booking user_bookings (print ZeroTicketsRemaining st) input
      else cancel_selected pos booking_to_modify st input
  end end end.

(** [cancel_booking], lines 447-587. *)
Definition cancel_booking (st : BookingSystem) (input : list line) : BookingSystem * outcome :=
  let user_bookings := user_bookings st in
  if bool_decide (user_bookings = []) then (print NoBookingsToCancel st, Returned)
  else select_booking user_bookings st input.

End Engine.

(** ** A date parser for the examples *)

Definition digit (a : ascii) : option Z :=
  let n := Z.of_N (N_of_ascii a) in
  if bool_decide (48 ≤ n ≤ 57)%Z then Some (n - 48) else None.

Fixpoint digits (acc : Z) (s : string) : option Z :=
  match s with
  | EmptyString => Some acc
  | String a s' => d ← digit a; digits (10 * acc + d) s'
  end.

Definition is_leap (y : Z) : bool :=
  bool_decide (y mod 4 = 0) && (negb (bool_decide (y mod 100 = 0)) || bool_decide (y mod 400 = 0)).

Definition days_in_month (y m : Z) : Z :=
  if bool_decide (m = 2) then (if is_leap y then 29 else 28)
  else if bool_decide (m ∈ [4; 6; 9; 11]) then 30 else 31.

(** [%m] as CPython's [_strptime] matches it, [1[0-2]|0[1-9]|[1-9]]: one
    or two digits that make a number from 1 to 12. *)
Definition month_text (t : string) : option Z :=
  m ← digits 0 t;
  if bool_decide ((String.length t = 1 ∨ String.length t = 2)%nat ∧ (1 ≤ m ≤ 12)%Z)
  then Some m else None.

(** [%d], [3[0-1]|[1-2]\d|0[1-9]|[1-9]| [1-9]]: one or two digits that make
    a number from 1 to 31, or a space and a digit from 1 to 9. *)
Definition day_text (t : string) : option Z :=
  match t with
  | String " "%char t' =>
      d ← digits 0 t';
      if bool_decide (String.length t' = 1%nat ∧ (1 ≤ d ≤ 9)%Z) then Some d else None
  | _ =>
      d ← digits 0 t;
      if bool_decide ((String.length t = 1 ∨ String.length t = 2)%nat ∧ (1 ≤ d ≤ 31)%Z)
      then Some d else None
  end.

(** [datetime.strptime(s, "%Y-%m-%d").date()] on ASCII text: four digits,
    a hyphen, a month, a hyphen, a day and nothing more, as the pattern that
    [_strptime] compiles for this format has it; then the date has to
    exist, from year 1 on.  ([\d] also takes the decimal digits of other
    scripts, which are left out here.) *)
Definition strptime_ymd (s : string) : option date :=
  if bool_decide (String.get 4 s = Some "-"%char) then
    let rest := substring 5 (String.length s - 5) s in
    match index 0 "-" rest with
    | Some n =>
        y ← digits 0 (substring 0 4 s);
        m ← month_text (substring 0 n rest);
        d ← day_text (substring (S n) (String.length rest - S n) rest);
        if bool_decide (1 ≤ y ∧ d ≤ days_in_month y m)%Z then Some (Date y m d) else None
    | None => None
    end
  else None.

(** * The amounts on IEEE 754 doubles *)

(** What [_calculate_discounted_price] and the refund of [cancel_booking]
    compute on Python's numbers: the base price and the counts are [int]s,
    the rates are [float]s (binary64), a product of two [int]s is an [int],
    and an [int] that meets a [float] is converted first, which raises
    [OverflowError] when it is too large.  The model above carries the same
    amounts as exact rationals, the values of these expressions when no
    operation rounds; this module is the code's own arithmetic. *)
Module Binary64.

(** [float(z)], also the conversion of an [int] operand of a mixed
    operation: the nearest double, ties to even; [None] is the
    [OverflowError] of an [int] that rounds to 2^1024 or beyond. *)
Definition of_int (z : Z) : option float :=
  let f := SF2Prim (binary_normalize prec emax z 0 false) in
  match Prim2SF f with
  | S754_infinity _ | S754_nan => None
  | _ => Some f
  end.

(** [z * x] and [z + x] for an [int] [z] and a [float] [x]. *)
Definition int_mul (z : Z) (x : float) : option float := f ← of_int z; Some (f * x)%float.

Definition int_add (z : Z) (x : float) : option float := f ← of_int z; Some (f + x)%float.

(** The literals of [DISCOUNT_RATES], lines 24-29: the doubles nearest to
    0.50, 1.00, 0.30 and 0.10. *)
Definition DISCOUNT_RATES (k : rate_key) : float :=
  match k with
  | CHILD => 0.5
  | INFANT => 1
  | SENIOR_CITIZEN => 0x1.3333333333333p-2
  | OFF_PEAK_SEASON => 0x1.999999999999ap-4
  end%float.

Record Savings := mkSavings {
  infant_savings : float;
  child_savings : float;
  senior_savings : float;
  season_savings : float
}.

Record Pricing := mkPricing {
  final_price : float;
  base_price_per_ticket : Z;
  adults_tickets : Z;
  infant_tickets : Z;
  children_tickets : Z;
  seniors_tickets : Z;
  subtotal : float;
  total_discount : float;
  breakdown : Savings
}.

(** [_calculate_discounted_price], lines 223-268; [None] is an
    [OverflowError]. *)
Definition _calculate_discounted_price (strptime : string → option date)
    (base_price : Z) (travel_date_str : string)
    (num_adults num_infants num_children num_seniors : Z) : option Pricing :=
  let price_adults := base_price * num_adults in
  let infant_discount_rate := DISCOUNT_RATES INFANT in
  price_infants ← int_mul (base_price * num_infants) (1 - infant_discount_rate);
  infant_savings ← int_mul (base_price * num_infants) infant_discount_rate;
  let child_discount_rate := DISCOUNT_RATES CHILD in
  price_children ← int_mul (base_price * num_children) (1 - child_discount_rate);
  child_savings ← int_mul (base_price * num_children) child_discount_rate;
  let senior_discount_rate := DISCOUNT_RATES SENIOR_CITIZEN in
  price_seniors ← int_mul (base_price * num_seniors) (1 - senior_discount_rate);
  senior_savings ← int_mul (base_price * num_seniors) senior_discount_rate;
  adults_and_infants ← int_add price_adults price_infants;
  let subtotal := (adults_and_infants + price_children + price_seniors)%float in
  let total_category_discount := (infant_savings + child_savings + senior_savings)%float in
  let season_savings :=
    match strptime travel_date_str with
    | Some travel_date =>
        if bool_decide (month travel_date ∈ [1; 2])
        then (subtotal * DISCOUNT_RATES OFF_PEAK_SEASON)%float
        else 0%float
    | None => 0%float
    end in
  let final_total_price := (subtotal - season_savings)%float in
  let total_discount := (total_category_discount + season_savings)%float in
  Some {| final_price := final_total_price;
          base_price_per_ticket := base_price;
          adults_tickets := num_adults;
          infant_tickets := num_infants;
          children_tickets := num_children;
          seniors_tickets := num_seniors;
          subtotal := subtotal;
          total_discount := total_discount;
          breakdown := {| infant_savings := infant_savings;
                          child_savings := child_savings;
                          senior_savings := senior_savings;
                          season_savings := season_savings |} |}.

(** The price paid for one ticket of a category, lines 509-516. *)
Definition ticket_paid_price (key : category) (base_price : Z) : option float :=
  match key with
  | Adult => int_mul base_price 1
  | Infant => Some 0%float
  | Child => int_mul base_price (1 - DISCOUNT_RATES CHILD)
  | Senior => int_mul base_price (1 - DISCOUNT_RATES SENIOR_CITIZEN)
  end.

(** One turn of the [for] loop of lines 496-525 for a count that the
    inner loop accepted: a category of which the booking holds no ticket
    is not asked and adds nothing, not even a zero. *)
Definition add_refund (base_price : Z) (remaining : category → Z)
    (total_refund_gross : option float) (kc : category * Z) : option float :=
  gross ← total_refund_gross;
  if bool_decide (remaining kc.1 > 0) then
    ticket_paid_price ← ticket_paid_price kc.1 base_price;
    refund ← int_mul kc.2 ticket_paid_price;
    Some (gross + refund)%float
  else Some gross.

(** [total_refund_gross] after the loop, from the 0.0 of line 492, for the
    counts accepted, in the order of [categories]. *)
Definition total_refund_gross (base_price : Z) (remaining : category → Z)
    (cancelled : list (category * Z)) : option float :=
  foldl (add_refund base_price remaining) (Some 0%float) cancelled.

(** Lines 544-546: gross refund, fee and net refund. *)
Definition refund (base_price : Z) (remaining : category → Z)
    (cancelled : list (category * Z)) : option (float * float * float) :=
  total_refund_gross ← total_refund_gross base_price remaining cancelled;
  let cancellation_fee_rate := 0x1.999999999999ap-4%float in
  let cancellation_fee := (total_refund_gross * cancellation_fee_rate)%float in
  let net_refund := (total_refund_gross - cancellation_fee)%float in
  Some (total_refund_gross, cancellation_fee, net_refund).

End Binary64.

(** * Accounts *)

(** [register], [login] and [logout]: the part of [BookingSystem] that
    holds [users] and [current_user].  A user record, the dictionary
    [{"password": p}], is the password itself.  Input is the list of texts
    that [input(...).strip()] and [getpass.getpass(...).strip()] return, in
    order. *)
Module Accounts.

Inductive message :=
| UsernameEmpty             (* Username cannot be empty. *)
| UsernameExists            (* Username already exists. Please try another. *)
| PasswordEmpty             (* Password cannot be empty. *)
| PasswordsDoNotMatch       (* Passwords do not match. Registration failed. *)
| Registered (u : string)   (* User '...' registered successfully! *)
| Welcome (u : string)      (* Welcome, ...! *)
| InvalidLogin              (* Invalid username or password. *)
| LoggingOut (u : string)   (* Logging out ... *)
| LoggedOut.                (* You have been logged out. *)

Inductive event :=
| Print (m : message)
| Save (f : file).

Record State := mkState {
  users : gmap string string;
  current_user : option string;
  trace : list event
}.

Definition log (e : event) (st : State) : State :=
  mkState (users st) (current_user st) (trace st ++ [e]).

Definition print (m : message) : State → State := log (Print m).

Definition _save_data (f : file) : State → State := log (Save f).

(** [register], lines 106-125. *)
Definition register (st : State) (input : list string) : State * outcome :=
  match input with
  | [] => (st, EOFError)
  | username :: input =>
  if bool_decide (username = "") then (print UsernameEmpty st, Returned) else
  if bool_decide (is_Some (users st !! username)) then (print UsernameExists st, Returned) else
  match input with
  | [] => (st, EOFError)
  | password :: input =>
  match input with
  | [] => (st, EOFError)
  | password_confirm :: _ =>
  if bool_decide (password = "") then (print PasswordEmpty st, Returned) else
  if bool_decide (password ≠ password_confirm) then (print PasswordsDoNotMatch st, Returned) else
  let st := mkState (<[username := password]> (users st)) (current_user st) (trace st) in
  let st := _save_data USERS_FILE st in
  (print (Registered username) st, Returned)
  end end end.

(** [login], lines 127-136. *)
Definition login (st : State) (input : list string) : State * outcome :=
  match input with
  | [] => (st, EOFError)
  | username :: input =>
  match input with
  | [] => (st, EOFError)
  | password :: _ =>
  let user := users st !! username in
  if bool_decide (user = Some password)
  then (print (Welcome username) (mkState (users st) (Some username) (trace st)), Returned)
  else (print InvalidLogin st, Returned)
  end end.

(** [logout], lines 138-142; [None] is the [TypeError] of
    [self.current_user['username']] when nobody is logged in. *)
Definition logout (st : State) : option State :=
  match current_user st with
  | Some username =>
      let st := print (LoggingOut username) st in
      let st := mkState (users st) None (trace st) in
      Some (print LoggedOut st)
  | None => None
  end.

End Accounts.

(** * The train database *)

(** [STATIONS], lines 10-14. *)
Definition STATIONS : list string :=
  ["Mumbai"; "Delhi"; "Bangalore"; "Hyderabad"; "Chennai";
   "Kolkata"; "Pune"; "Ahmedabad"; "Jaipur"; "Lucknow";
   "Kanpur"; "Nagpur"; "Patna"; "Bhopal"; "Chandigarh"].

(** What [random] supplies to [_create_train_database]: the [k]-th draw
    of the program takes the number [raw k], whatever it is, into the range
    asked for, so that every run of the generator is the run for some
    [raw]. *)
Definition randint (raw : nat → Z) (k : nat) (a b : Z) : Z := a + raw k mod (b - a + 1).

(** [random.choice] from a list that is not empty, of which [d] is an
    element. *)
Definition choice {A} (raw : nat → Z) (k : nat) (l : list A) (d : A) : A :=
  default d (l !! Z.to_nat (raw k mod Z.of_nat (length l))).

(** [str.upper] on ASCII text. *)
Definition upper_ascii (a : ascii) : ascii :=
  let n := N_of_ascii a in
  if bool_decide (97 ≤ n ≤ 122)%N then ascii_of_N (n - 32) else a.

Fixpoint upper (s : string) : string :=
  match s with
  | EmptyString => EmptyString
  | String a s' => String (upper_ascii a) (upper s')
  end.

(** The format [:02d]. *)
Definition fmt02 (z : Z) : string :=
  if bool_decide (0 ≤ z < 10) then "0" +:+ pretty z else pretty z.

(** The body of the innermost loop, lines 75-101: one train of the route,
    from the draws [k], [k+1], ...; the last draw is the one inside the
    dictionary literal. *)
Definition new_train (raw : nat → Z) (from_stn to_stn : string) (k : nat) : Train :=
  let train_prefixes := ["Rajdhani"; "Shatabdi"; "Duronto"; "Garib Rath"; "Superfast"] in
  let train_name_base := choice raw k train_prefixes "Rajdhani" in
  let train_id :=
    upper (substring 0 2 from_stn) +:+ upper (substring 0 2 to_stn)
    +:+ pretty (randint raw (k + 1) 100 999) in
  let dep_hour := randint raw (k + 2) 0 23 in
  let dep_min := choice raw (k + 3) [0; 15; 30; 45] 0 in
  let departure := fmt02 dep_hour +:+ ":" +:+ fmt02 dep_min in
  let travel_hours := randint raw (k + 4) 4 28 in
  let arr_hour := (dep_hour + travel_hours) `mod` 24 in
  let arr_min := choice raw (k + 5) [0; 15; 30; 45] 0 in
  let arrival_day :=
    if bool_decide (24 ≤ dep_hour + travel_hours)
    then " (D+" +:+ pretty ((dep_hour + travel_hours) `div` 24) +:+ ")"
    else "" in
  let arrival := fmt02 arr_hour +:+ ":" +:+ fmt02 arr_min +:+ arrival_day in
  let price := randint raw (k + 6) 300 5000 `div` 10 * 10 in
  let seats := randint raw (k + 7) 10 200 in
  {| id := train_id;
     name := train_name_base +:+ " " +:+ choice raw (k + 8) ["Express"; "Special"] "Express";
     departure := departure;
     arrival := arrival;
     price := num price;
     seats := seats |}.

(** [for i in range(n)], lines 74-101: [n] trains appended to
    [route_trains], nine draws each. *)
Fixpoint new_trains (raw : nat → Z) (from_stn to_stn : string) (n : nat) (k : nat)
    : list Train :=
  match n with
  | O => []
  | S n => new_train raw from_stn to_stn k :: new_trains raw from_stn to_stn n (k + 9)
  end.

(** The loop over [to_stn], lines 67-103, for one [from_stn]: the database
    and the number of draws so far. *)
Fixpoint new_routes_from (raw : nat → Z) (from_stn : string) (to_stns : list string)
    (db : gmap string (list Train)) (k : nat) : gmap string (list Train) * nat :=
  match to_stns with
  | [] => (db, k)
  | to_stn :: to_stns =>
      if bool_decide (from_stn = to_stn) then new_routes_from raw from_stn to_stns db k
      else
        let route_key := from_stn +:+ "::" +:+ to_stn in
        let n := Z.to_nat (randint raw k 2 6) in
        let route_trains := new_trains raw from_stn to_stn n (k + 1) in
        new_routes_from raw from_stn to_stns (<[route_key := route_trains]> db)
          (k + 1 + 9 * n)
  end.

(** The loop over [from_stn], lines 66-103. *)
Fixpoint new_routes (raw : nat → Z) (from_stns to_stns : list string)
    (db : gmap string (list Train)) (k : nat) : gmap string (list Train) * nat :=
  match from_stns with
  | [] => (db, k)
  | from_stn :: from_stns =>
      let (db, k) := new_routes_from raw from_stn to_stns db k in
      new_routes raw from_stns to_stns db k
  end.

(** [_create_train_database], lines 62-104. *)
Definition _create_train_database (raw : nat → Z) : gmap string (list Train) :=
  (new_routes raw STATIONS STATIONS ∅ 0).1.

(** * The prompts of [search_and_book_trains] *)

(** [_get_station_choice], [_get_validated_date] and the whole of
    [search_and_book_trains], which asks for two stations and a date before
    it looks for trains.  A line typed is what the program asks of it after
    [.strip()]: its text, [str.isdigit()] and [int()] ([None] for
    [ValueError]).  [choice.lower() in ['0', 'c']] holds of the texts "0",
    "c" and "C", [date_str.lower() == 'c'] of "c" and "C", and
    [confirm.lower() == 'y'] of "y" and "Y". *)
Module Prompts.

Record typed := Typed {
  text : string;
  isdigit : bool;
  to_int : option Z
}.

(** The line as the loops of the create path tell lines apart. *)
Definition classify (l : typed) : line :=
  if bool_decide (text l = "0") then Zero
  else if bool_decide (text l = "y" ∨ text l = "Y") then Yes
  else if bool_decide (text l = "") then Empty
  else match to_int l with
       | Some z => Int z
       | None => Other
       end.

Inductive message :=
| InvalidStationNumber   (* Invalid number. Please try again. *)
| InvalidStationInput    (* Invalid input. Please enter a number from the list. *)
| InvalidDateFormat      (* Invalid date format. Please use YYYY-MM-DD. *)
| DateInPast.            (* Date cannot be in the past. Please enter a valid date. *)

(** What a prompt hands back: the messages printed so far and, unless
    [input()] raised [EOFError], its result and the input left. *)
Definition prompted (A : Type) : Type := list message * option (A * list typed).

(** [_get_station_choice], lines 191-206. *)
Fixpoint _get_station_choice (said : list message) (input : list typed)
    : prompted (option string) :=
  match input with
  | [] => (said, None)
  | choice :: input =>
      if bool_decide (text choice = "0" ∨ text choice = "c" ∨ text choice = "C")
      then (said, Some (None, input))
      else if negb (isdigit choice)
      then _get_station_choice (said ++ [InvalidStationNumber]) input
      else match to_int choice with
           | None => _get_station_choice (said ++ [InvalidStationInput]) input
           | Some n =>
               if negb (bool_decide (1 ≤ n ≤ Z.of_nat (length STATIONS)))
               then _get_station_choice (said ++ [InvalidStationNumber]) input
               else match STATIONS !! Z.to_nat (n - 1) with
                    | Some station => (said, Some (Some station, input))
                    | None => _get_station_choice (said ++ [InvalidStationInput]) input
                    end
           end
  end.

(** [chosen_date < date.today()] *)
Definition date_lt (d1 d2 : date) : bool :=
  bool_decide (year d1 < year d2
               ∨ (year d1 = year d2
                  ∧ (month d1 < month d2 ∨ (month d1 = month d2 ∧ day d1 < day d2)))).

(** [_get_validated_date], lines 208-221; [today] is [date.today()]. *)
Fixpoint _get_validated_date (strptime : string → option date) (today : date)
    (said : list message) (input : list typed) : prompted (option string) :=
  match input with
  | [] => (said, None)
  | line :: input =>
      let date_str := text line in
      if bool_decide (date_str = "c" ∨ date_str = "C") then (said, Some (None, input))
      else match strptime date_str with
           | None => _get_validated_date strptime today (said ++ [InvalidDateFormat]) input
           | Some chosen_date =>
               if date_lt chosen_date today
               then _get_validated_date strptime today (said ++ [DateInPast]) input
               else (said, Some (Some date_str, input))
           end
  end.

(** [search_and_book_trains], lines 270-349, in full: the messages of the
    prompts, then the state and the outcome. *)
Definition search_and_book_trains (strptime : string → option date) (today : date)
    (env : Env) (st : BookingSystem) (input : list typed)
    : list message * (BookingSystem * outcome) :=
  match _get_station_choice [] input with
  | (said, None) => (said, (st, EOFError))
  | (said, Some (None, _)) => (said, (st, Returned))
  | (said, Some (Some from_stn, input)) =>
  if bool_decide (from_stn = "") then (said, (st, Returned)) else
  match _get_station_choice said input with
  | (said, None) => (said, (st, EOFError))
  | (said, Some (None, _)) => (said, (st, Returned))
  | (said, Some (Some to_stn, input)) =>
  if bool_decide (to_stn = "") then (said, (st, Returned)) else
  if bool_decide (from_stn = to_stn) then (said, (print SameStations st, Returned)) else
  match _get_validated_date strptime today said input with
  | (said, None) => (said, (st, EOFError))
  | (said, Some (None, _)) => (said, (st, Returned))
  | (said, Some (Some date_str, input)) =>
  if bool_decide (date_str = "") then (said, (st, Returned)) else
  (said,
   search_and_book_trains strptime env from_stn to_stn date_str st (classify <$> input))
  end end end.

End Prompts.

(** * The earlier program, [train2.py] *)

(** [src/train2.py] is the program before ticket categories: a booking is
    a number of tickets at the price of the train, and a cancellation takes
    a whole booking.  Its create and cancel paths are embedded here on a
    state of their own, with the trains, the terminal lines and the clock of
    the model above. *)
Module Train2.

Record Booking := mkBooking {
  booking_id : string;
  username : string;
  booking_time : string;
  train_details : Train;
  route_from : string;
  route_to : string;
  travel_date : string;
  num_tickets : Z;
  total_price : Qc
}.

#[global] Instance Booking_eq_dec : EqDecision Booking.
Proof. solve_decision. Defined.

Inductive message :=
| SameStations                   (* From and To stations cannot be the same. *)
| NoTrainsFound                  (* Sorry, no trains found ... *)
| BookingCancelled               (* Booking cancelled. *)
| MustBeBetween (seats : Z)      (* Invalid number. Must be between 1 and seats. *)
| InvalidInput                   (* Invalid input. Please enter a number. *)
| InvalidTrainNumber             (* Invalid train number. *)
| BookingConfirmed (bid : string) (* Booking Confirmed! Your Booking ID is: ... *)
| NoBookingsToCancel             (* You have no bookings to cancel. *)
| CancellationAborted            (* Cancellation aborted. *)
| CouldNotRestoreSeats           (* Error: Could not restore seat count. Please contact support. *)
| Cancelled (bid : string) (n : Z) (* Booking ... has been successfully cancelled. n seats have been restored. *)
| InvalidNumber.                 (* Invalid number. Please try again. *)

Inductive event :=
| Print (m : message)
| Save (f : file).

Record System := mkSystem {
  bookings : list Booking;
  trains_db : gmap string (list Train);
  current_user : string;
  trace : list event
}.

Definition log (e : event) (st : System) : System :=
  mkSystem (bookings st) (trains_db st) (current_user st) (trace st ++ [e]).

Definition print (m : message) : System → System := log (Print m).

Definition _save_data (f : file) : System → System := log (Save f).

Definition with_bookings (l : list Booking) (st : System) : System :=
  mkSystem l (trains_db st) (current_user st) (trace st).

Definition with_trains_db (db : gmap string (list Train)) (st : System) : System :=
  mkSystem (bookings st) db (current_user st) (trace st).

(** Lines 375-403 of [confirm_and_create_booking]: the booking itself,
    once confirmed.  [train] is the selected train object and [r] its place
    in [trains_db]; the record keeps a copy of the train as it is before the
    seats are taken. *)
Definition create_booking (env : Env) (r : train_ref) (train : Train)
    (from_stn to_stn date_str : string) (num_tickets : Z) (st : System) : System :=
  let total_price := (price train * num num_tickets)%Qc in
  let booking_id := "BCC" +:+ pretty (time_time env) +:+ pretty (randint_100_999 env) in
  let booking_record :=
    {| booking_id := booking_id;
       username := current_user st;
       booking_time := now_isoformat env;
       train_details := train;
       route_from := from_stn;
       route_to := to_stn;
       travel_date := date_str;
       num_tickets := num_tickets;
       total_price := total_price |} in
  let st := with_bookings (bookings st ++ [booking_record]) st in
  let st := _save_data BOOKINGS_FILE st in
  let st :=
    with_trains_db (alter (alter (add_seats (- num_tickets)) r.2) r.1 (trains_db st)) st in
  let st := _save_data TRAINS_FILE st in
  print (BookingConfirmed booking_id) st.

(** [confirm_and_create_booking], lines 359-406. *)
Definition confirm_and_create_booking (env : Env) (r : train_ref) (train : Train)
    (from_stn to_stn date_str : string) (num_tickets : Z)
    (st : System) (input : list line) : System * outcome :=
  match input with
  | [] => (st, EOFError)
  | confirm :: _ =>
      if is_y confirm
      then (create_booking env r train from_stn to_stn date_str num_tickets st, Returned)
      else (print BookingCancelled st, Returned)
  end.

(** The [while True] loop of [search_and_book_trains], lines 322-357. *)
Fixpoint select_train (env : Env) (from_stn to_stn date_str route_key : string)
    (results : list Train) (st : System) (input : list line) : System * outcome :=
  let again := select_train env from_stn to_stn date_str route_key results in
  match input with
  | [] => (st, EOFError)
  | choice :: input =>
  if is_zero choice then (print BookingCancelled st, Returned) else
  match int choice with
  | None => again (print InvalidInput st) input
  | Some choice =>
  let choice_index := choice - 1 in
  match (if bool_decide (0 ≤ choice_index)%Z then results !! Z.to_nat choice_index else None) with
  | None => again (print InvalidTrainNumber st) input
  | Some selected_train =>
  match input with [] => (st, EOFError) | num_tickets_str :: input =>
  match int num_tickets_str with
  | None => again (print InvalidInput st) input
  | Some num_tickets =>
  if negb (bool_decide (1 ≤ num_tickets ≤ seats selected_train)%Z)
  then again (print (MustBeBetween (seats selected_train)) st) input
  else
    confirm_and_create_booking env (route_key, Z.to_nat choice_index) selected_train
      from_stn to_stn date_str num_tickets st input
  end end end end end.

(** [search_and_book_trains], lines 273-357, from the point where the two
    stations and the validated date have been read. *)
Definition search_and_book_trains (env : Env) (from_stn to_stn date_str : string)
    (st : System) (input : list line) : System * outcome :=
  if bool_decide (from_stn = to_stn) then (print SameStations st, Returned) else
  let route_key := from_stn +:+ "::" +:+ to_stn in
  let results := default [] (trains_db st !! route_key) in
  if bool_decide (results = []) then (print NoTrainsFound st, Returned) else
  select_train env from_stn to_stn date_str route_key results st input.

(** [list.remove]: drops the first element equal to [b]. *)
Fixpoint list_remove (b : Booking) (l : list Booking) : list Booking :=
  match l with
  | [] => []
  | x :: l' => if decide (x = b) then l' else x :: list_remove b l'
  end.

(** The [for] loop of lines 479-482: the first train of the route whose id
    is [train_id] gets the seats; [None] is the [KeyError] of a route key
    that [trains_db] does not have. *)
Definition restore_seats (route_key train_id : string) (num_tickets : Z)
    (db : gmap string (list Train)) : option (gmap string (list Train)) :=
  match db !! route_key with
  | None => None
  | Some trains =>
      Some match list_find (λ train, id train = train_id) trains with
           | Some (idx, _) => alter (alter (add_seats num_tickets) idx) route_key db
           | None => db
           end
  end.

(** Lines 472-495 of [cancel_booking]: the cancellation itself, once
    confirmed.  The seats go back first; when that fails the function
    returns and the booking stays. *)
Definition cancel_confirmed (booking_to_cancel : Booking) (st : System) : System :=
  let num_tickets := num_tickets booking_to_cancel in
  let train_id := id (train_details booking_to_cancel) in
  let route_key := route_from booking_to_cancel +:+ "::" +:+ route_to booking_to_cancel in
  match restore_seats route_key train_id num_tickets (trains_db st) with
  | None => print CouldNotRestoreSeats st
  | Some db =>
      let st := with_trains_db db st in
      let st := _save_data TRAINS_FILE st in
      let st := with_bookings (list_remove booking_to_cancel (bookings st)) st in
      let st := _save_data BOOKINGS_FILE st in
      print (Cancelled (booking_id booking_to_cancel) num_tickets) st
  end.

(** The [while True] loop of lines 455-503 that selects the booking. *)
Fixpoint select_booking (user_bookings : list Booking) (st : System) (input : list line)
    : System * outcome :=
  match input with
  | [] => (st, EOFError)
  | choice_str :: input =>
  if is_zero choice_str then (print CancellationAborted st, Returned) else
  match int choice_str with
  | None => select_booking user_bookings (print InvalidInput st) input
  | Some choice =>
  let choice_index := choice - 1 in
  match (if bool_decide (0 ≤ choice_index)%Z
         then user_bookings !! Z.to_nat choice_index else None) with
  | None => select_booking user_bookings (print InvalidNumber st) input
  | Some booking_to_cancel =>
      match input with
      | [] => (st, EOFError)
      | confirm :: _ =>
          if is_y confirm then (cancel_confirmed booking_to_cancel st, Returned)
          else (print CancellationAborted st, Returned)
      end
  end end end.

(** [[b for b in self.bookings if b['username'] == current_user]] *)
Definition user_bookings (st : System) : list Booking :=
  filter (λ b, username b = current_user st) (bookings st).

(** [cancel_booking], lines 434-503. *)
Definition cancel_booking (st : System) (input : list line) : System * outcome :=
  let user_bookings := user_bookings st in
  if bool_decide (user_bookings = []) then (print NoBookingsToCancel st, Returned)
  else select_booking user_bookings st input.

End Train2.

(** * Vocabulary of the properties *)

(** ** Amounts as the specification writes them *)

(** The subtotal as the specification writes it. *)
Definition spec_subtotal (p : Qc) (adult infant child senior : Z) : Qc :=
  (p * num adult + 0 * num infant + p * dec 5 10 * num child + p * dec 7 10 * num senior)%Qc.

(** The gross refund as the specification writes it: per category, the
    cancel count times the price of one ticket of the category. *)
Definition spec_gross (base : Qc) (adult infant child senior : Z) : Qc :=
  (num adult * base + num infant * 0 + num child * (dec 5 10 * base)
   + num senior * (dec 7 10 * base))%Qc.

(** ** Runs *)

(** [st'] is [st] after some messages were printed. *)
Definition only_prints (st st' : BookingSystem) : Prop :=
  ∃ ms, st' = foldl (λ s m, print m s) st ms.

(** The seats of a list of per-category cancel counts. *)
Definition seats_of (cs : list (category * Z)) : Z :=
  foldr (λ kc acc, kc.2 + acc) 0 cs.

(** The gross refund of such a list, at the price paid per ticket. *)
Definition gross_of (base_price : Qc) (cs : list (category * Z)) : Qc :=
  foldr (λ kc acc, (num kc.2 * ticket_paid_price kc.1 base_price + acc)%Qc) 0%Qc cs.

(** [t] holds the counts the loop over the four categories accepts for a
    booking priced [p]: one count per category, none negative, none above
    what is left of its category, with their total and their gross
    refund. *)
Definition accepted (p : Pricing) (t : Tally) (ca ci cc cs : Z) : Prop :=
  cancellations t = [(Adult, ca); (Infant, ci); (Child, cc); (Senior, cs)]
  ∧ (0 ≤ ca ≤ Z.max 0 (adults_tickets p) ∧ 0 ≤ ci ≤ Z.max 0 (infant_tickets p)
     ∧ 0 ≤ cc ≤ Z.max 0 (children_tickets p) ∧ 0 ≤ cs ≤ Z.max 0 (seniors_tickets p))
  ∧ total_cancelled_seats t = ca + ci + cc + cs
  ∧ total_refund_gross t = spec_gross (base_price_per_ticket p) ca ci cc cs.

(** ** Sessions *)

(** What a logged-in user can do to the ledger and the inventory. *)
Inductive command :=
| Book (env : Env) (from_stn to_stn date_str : string) (input : list line)
| Cancel (input : list line).

Definition run (strptime : string → option date) (st : BookingSystem) (c : command)
    : BookingSystem :=
  match c with
  | Book env from_stn to_stn date_str input =>
      (search_and_book_trains strptime env from_stn to_stn date_str st input).1
  | Cancel input => (cancel_booking st input).1
  end.

Definition run_all (strptime : string → option date) (st : BookingSystem)
    (cs : list command) : BookingSystem :=
  foldl (run strptime) st cs.

(** ** Outcomes of a cancellation *)

(** The record that a partial cancellation leaves in place of [x]. *)
Definition partially_cancelled (ca ci cc cs : Z) (new_tickets : Z) (new_total_price : Qc)
    (x : Booking) : Booking :=
  with_total_price new_total_price
    (with_num_tickets new_tickets
       (sub_count Senior cs (sub_count Child cc (sub_count Infant ci (sub_count Adult ca x))))).

(** The inventory after [release]: it depends on the inventory alone. *)
Definition released (route_key train_id : string) (n : Z) (db : gmap string (list Train))
    : gmap string (list Train) :=
  match db !! route_key with
  | None => db
  | Some trains =>
      match list_find (λ train, id train = train_id) trains with
      | Some (idx, _) => alter (alter (add_seats n) idx) route_key db
      | None => db
      end
  end.

(** ** Invariants *)

(** The sum of the four stored category counts. *)
Definition counts_total (p : Pricing) : Z :=
  adults_tickets p + infant_tickets p + children_tickets p + seniors_tickets p.

(** The booking invariant: [num_tickets] is the sum of the four stored
    category counts. *)
Definition ticket_total_ok (b : Booking) : Prop :=
  num_tickets b = counts_total (pricing b).

Definition ledger_ok (st : BookingSystem) : Prop :=
  Forall ticket_total_ok (bookings st).

(** The reservation invariant: no train of the inventory has a negative
    number of seats. *)
Definition seats_ok (db : gmap string (list Train)) : Prop :=
  ∀ route_key trains, db !! route_key = Some trains → Forall (λ train, 0 ≤ seats train) trains.

(** ** Requests and confirmed cancellations *)

(** The user, on the route from [from_stn] to [to_stn] with the trains
    [trains], picks the train at position [idx] and asks for [a] adult,
    [i] infant, [c] child and [s] senior tickets. *)
Definition requests (st : BookingSystem) (from_stn to_stn : string) (trains : list Train)
    (idx : nat) (train : Train) (choice adults infants children seniors : line)
    (a i c s : Z) : Prop :=
  from_stn ≠ to_stn
  ∧ trains_db st !! (from_stn +:+ "::" +:+ to_stn) = Some trains
  ∧ trains !! idx = Some train
  ∧ is_zero choice = false
  ∧ int choice = Some (Z.of_nat idx + 1)
  ∧ int_or_0 adults = Some a ∧ int_or_0 infants = Some i
  ∧ int_or_0 children = Some c ∧ int_or_0 seniors = Some s.

(** The user picks the booking [b], number [k] of their list and at
    position [pos] of the ledger, with tickets left; the loop over the
    categories accepts the counts of [t] from [input], leaving the state
    [st1]; at least one ticket is cancelled and the user confirms. *)
Definition cancels (st : BookingSystem) (k pos : nat) (b : Booking) (choice : line)
    (input : list line) (st1 : BookingSystem) (t : Tally) : Prop :=
  user_bookings st !! k = Some (pos, b)
  ∧ is_zero choice = false
  ∧ int choice = Some (Z.of_nat k + 1)
  ∧ num_tickets b ≠ 0
  ∧ (∃ confirm rest,
       ask_categories categories (pricing b) no_cancellations st input
         = (st1, Some (t, confirm :: rest))
       ∧ is_y confirm = true)
  ∧ total_cancelled_seats t ≠ 0.


(** Whether "Could not restore seat count" was printed. *)
Definition warned (st : BookingSystem) : bool :=
  existsb (λ e, match e with Print CouldNotRestoreSeats => true | _ => false end) (trace st).

(** ** Order of the effects *)

(** A mutation touches the ledger or the inventory. *)
Inductive effect := OnLedger | OnInventory.

Definition effect_of (e : event) : option effect :=
  match e with
  | LedgerAppend _ | LedgerRemove _ | LedgerSubCount _ _ _
  | LedgerSetNumTickets _ _ | LedgerSetTotalPrice _ _ => Some OnLedger
  | SeatsSub _ _ _ | SeatsAdd _ _ _ => Some OnInventory
  | Print _ | Save _ => None
  end.

(** The mutations among the events, in order. *)
Definition effects (evs : list event) : list effect := omap effect_of evs.

(** What [st'] has recorded since [st]. *)
Definition since (st st' : BookingSystem) : list event :=
  drop (length (trace st)) (trace st').

(** "Seats are taken before the booking is appended to the ledger." *)
Definition reserves_before_append (evs : list event) : Prop :=
  ∃ (i j : nat) route_key idx n b,
    evs !! i = Some (SeatsSub route_key idx n) ∧ evs !! j = Some (LedgerAppend b) ∧ (i < j)%nat.

(** ** Outcomes of a booking *)

(** The record that [confirm_and_create_booking] builds for the user
    [user], lines 384-394. *)
Definition booking_record (strptime : string → option date) (env : Env) (user : string)
    (train : Train) (from_stn to_stn date_str : string) (a i c s : Z) : Booking :=
  let pricing_details :=
    _calculate_discounted_price strptime (price train) date_str a i c s in
  {| booking_id := "BCC" +:+ pretty (time_time env) +:+ pretty (randint_100_999 env);
     username := user;
     booking_time := now_isoformat env;
     train_details := train;
     route_from := from_stn;
     route_to := to_stn;
     travel_date := date_str;
     num_tickets := a + i + c + s;
     pricing := pricing_details;
     total_price := final_price pricing_details |}.

(** Ledger and inventory of [st'] are those of [st]. *)
Definition same_data (st st' : BookingSystem) : Prop :=
  bookings st' = bookings st ∧ trains_db st' = trains_db st
  ∧ current_user st' = current_user st.

(** Between [st] and [st'] one booking was made: for the train at position
    [idx] of the route, for [a], [i], [c] and [s] tickets that total
    between 1 and the seats of the train; its record is the last of the
    ledger and its seats are off that train and no other. *)
Definition booked (strptime : string → option date) (env : Env)
    (from_stn to_stn date_str : string) (st st' : BookingSystem) : Prop :=
  ∃ idx trains train a i c s,
    from_stn ≠ to_stn
    ∧ trains_db st !! (from_stn +:+ "::" +:+ to_stn) = Some trains
    ∧ trains !! idx = Some train
    ∧ 1 ≤ a + i + c + s ≤ seats train
    ∧ bookings st' =
      bookings st ++ [booking_record strptime env (current_user st) train
                        from_stn to_stn date_str a i c s]
    ∧ trains_db st' =
      <[from_stn +:+ "::" +:+ to_stn := <[idx := add_seats (- (a + i + c + s)) train]> trains]>
        (trains_db st)
    ∧ current_user st' = current_user st.

(** Between [st] and [st'] one cancellation was committed: counts accepted
    for a booking of the current user with tickets left, at least one
    ticket in all; the record is removed when no ticket is left and
    updated in place otherwise, and the seats go back to the first train
    with the id of the booking on its route, if the route and such a train
    are there. *)
Definition cancelled (st st' : BookingSystem) : Prop :=
  ∃ pos b t ca ci cc cs,
    bookings st !! pos = Some b
    ∧ username b = current_user st
    ∧ num_tickets b ≠ 0
    ∧ accepted (pricing b) t ca ci cc cs
    ∧ total_cancelled_seats t ≠ 0
    ∧ bookings st' =
      (if bool_decide (num_tickets b - total_cancelled_seats t = 0)
       then list_remove b (bookings st)
       else alter (partially_cancelled ca ci cc cs (num_tickets b - total_cancelled_seats t)
                     (total_price b - net_refund (total_refund_gross t))%Qc) pos (bookings st))
    ∧ trains_db st' =
      released (route_from b +:+ "::" +:+ route_to b) (id (train_details b))
        (total_cancelled_seats t) (trains_db st)
    ∧ current_user st' = current_user st.

(** The bookings of everybody but [user]. *)
Definition others (user : string) (l : list Booking) : list Booking :=
  filter (λ b, username b ≠ user) l.

(** No category count of the booking is negative. *)
Definition counts_nonneg (b : Booking) : Prop :=
  0 ≤ adults_tickets (pricing b) ∧ 0 ≤ infant_tickets (pricing b)
  ∧ 0 ≤ children_tickets (pricing b) ∧ 0 ≤ seniors_tickets (pricing b).

(** ** Capacity *)

(** The seats of the trains of a route, of the whole inventory, and the
    tickets of the whole ledger. *)
Definition route_seats (trains : list Train) : Z :=
  foldr (λ train acc, seats train + acc) 0 trains.

Definition total_seats (db : gmap string (list Train)) : Z :=
  map_fold (λ _ trains acc, route_seats trains + acc) 0 db.

Definition total_tickets (l : list Booking) : Z :=
  foldr (λ b acc, num_tickets b + acc) 0 l.

(** Seats still free plus tickets held. *)
Definition capacity (st : BookingSystem) : Z :=
  total_seats (trains_db st) + total_tickets (bookings st).

(** ** Unsaved changes *)

(** Which of the ledger and the inventory (in this order) has been changed
    in memory since its file was last written. *)
Definition unsaved_step (d : bool * bool) (e : event) : bool * bool :=
  match e with
  | LedgerAppend _ | LedgerRemove _ | LedgerSubCount _ _ _
  | LedgerSetNumTickets _ _ | LedgerSetTotalPrice _ _ => (true, d.2)
  | SeatsSub _ _ _ | SeatsAdd _ _ _ => (d.1, true)
  | Save BOOKINGS_FILE => (false, d.2)
  | Save TRAINS_FILE => (d.1, false)
  | Save USERS_FILE | Print _ => d
  end.

Definition unsaved (evs : list event) : bool * bool := foldl unsaved_step (false, false) evs.

(** ** Order of the view *)

(** Python's [<=] on the sort keys: [b2]'s key is not less than [b1]'s. *)
Definition key_le (b1 b2 : Booking) : Prop := key_lt b2 b1 = false.

(** The order of the sort keys as a three-way comparison. *)
Definition key_compare (b1 b2 : Booking) : comparison :=
  match String.compare (travel_date b1) (travel_date b2) with
  | Eq => String.compare (booking_time b1) (booking_time b2)
  | c => c
  end.

(** ** The generated database *)

(** A train as the generator makes them: 10 to 200 seats and a price that
    is a multiple of 10 from 300 to 5000. *)
Definition generated_train (train : Train) : Prop :=
  10 ≤ seats train ≤ 200
  ∧ ∃ z, price train = num z ∧ 300 ≤ z ≤ 5000 ∧ z `mod` 10 = 0.

(** A route as the generator makes them: two to six such trains. *)
Definition generated_route (trains : list Train) : Prop :=
  (2 ≤ length trains ≤ 6)%nat ∧ Forall generated_train trains.

(** The route keys of all ordered pairs of different stations. *)
Definition route_keys_from (from_stn : string) (to_stns : list string) : list string :=
  (λ to_stn, from_stn +:+ "::" +:+ to_stn) <$> filter (λ to_stn, from_stn ≠ to_stn) to_stns.

Definition route_keys (from_stns to_stns : list string) : list string :=
  from_stns ≫= λ from_stn, route_keys_from from_stn to_stns.

(** ** The earlier program *)

(** The record that [train2.py] writes for [n] tickets of [train]. *)
Definition train2_record (env : Env) (user : string) (train : Train)
    (from_stn to_stn date_str : string) (n : Z) : Train2.Booking :=
  {| Train2.booking_id := "BCC" +:+ pretty (time_time env) +:+ pretty (randint_100_999 env);
     Train2.username := user;
     Train2.booking_time := now_isoformat env;
     Train2.train_details := train;
     Train2.route_from := from_stn;
     Train2.route_to := to_stn;
     Train2.travel_date := date_str;
     Train2.num_tickets := n;
     Train2.total_price := (price train * num n)%Qc |}.

Definition train2_same_data (st st' : Train2.System) : Prop :=
  Train2.bookings st' = Train2.bookings st ∧ Train2.trains_db st' = Train2.trains_db st
  ∧ Train2.current_user st' = Train2.current_user st.

(** Between [st] and [st'] one booking was made: [n] tickets, between 1
    and the seats of the train at position [idx] of the route, at [n] times
    the price of the train. *)
Definition train2_booked (env : Env) (from_stn to_stn date_str : string)
    (st st' : Train2.System) : Prop :=
  ∃ idx trains train n,
    from_stn ≠ to_stn
    ∧ Train2.trains_db st !! (from_stn +:+ "::" +:+ to_stn) = Some trains
    ∧ trains !! idx = Some train
    ∧ 1 ≤ n ≤ seats train
    ∧ Train2.bookings st' =
      Train2.bookings st
      ++ [train2_record env (Train2.current_user st) train from_stn to_stn date_str n]
    ∧ Train2.trains_db st' =
      <[from_stn +:+ "::" +:+ to_stn := <[idx := add_seats (- n) train]> trains]>
        (Train2.trains_db st)
    ∧ Train2.current_user st' = Train2.current_user st.

(** Between [st] and [st'] one booking of the current user was cancelled:
    its route is in the inventory, its tickets went back to the first train
    with its id on that route, if there is one, and its record is off the
    ledger. *)
Definition train2_cancelled (st st' : Train2.System) : Prop :=
  ∃ b,
    b ∈ Train2.bookings st
    ∧ Train2.username b = Train2.current_user st
    ∧ is_Some (Train2.trains_db st !! (Train2.route_from b +:+ "::" +:+ Train2.route_to b))
    ∧ Train2.bookings st' = Train2.list_remove b (Train2.bookings st)
    ∧ Train2.trains_db st' =
      released (Train2.route_from b +:+ "::" +:+ Train2.route_to b)
        (id (Train2.train_details b)) (Train2.num_tickets b) (Train2.trains_db st)
    ∧ Train2.current_user st' = Train2.current_user st.

(** ** Amounts as the code computes them *)

(** The formula of the specification for the subtotal,
    [p*adult + 0*infant + p*0.5*child + p*0.7*senior], as the code
    evaluates it on doubles: [A], [I], [C] and [S] are the products of the
    price with the four counts, taken on [int]s and converted, each is
    multiplied with its rate, and the sum is taken from the left.  The
    last factor is the double of [1 - 0.30]. *)
Definition binary64_subtotal (A I C S : float) : float :=
  (A + I * 0 + C * 0.5 + S * 0x1.6666666666666p-1)%float.

(** The formula of the specification for the gross refund,
    [ca*base + ci*0 + cc*(0.5*base) + cs*(0.7*base)], as the code evaluates
    it on doubles: [B] is the base price and [Na], [Ni], [Nc] and [Ns] the
    four counts, converted; the sum is taken from 0.0 in the order of the
    categories, over the categories of which the booking [held] a
    ticket. *)
Definition binary64_gross (held : category → bool) (B Na Ni Nc Ns : float) : float :=
  let gross := 0%float in
  let gross := if held Adult then (gross + Na * (B * 1))%float else gross in
  let gross := if held Infant then (gross + Ni * 0)%float else gross in
  let gross := if held Child then (gross + Nc * (B * 0.5))%float else gross in
  if held Senior then (gross + Ns * (B * 0x1.6666666666666p-1))%float else gross.

(** * Example data *)

Definition ex_t1 : Train :=
  mkTrain "MUDE123" "Rajdhani Express" "08:15" "20:30" (num 1000) 50.

Definition ex_t2 : Train :=
  mkTrain "MUDE456" "Duronto Special" "09:15" "21:30" (num 500) 10.

Definition ex_db : gmap string (list Train) := {[ "Mumbai::Delhi" := [ex_t1; ex_t2] ]}.

(** Alice is logged in; nothing is booked yet. *)
Definition ex_st0 : BookingSystem := mkSystem [] ex_db "alice" [].

Definition ex_env : Env := mkEnv 1700000000 123 "2025-01-01T10:00:00".

(** Train 1; two adults, an infant, a child and a senior; confirmed. *)
Definition ex_book : list line := [Int 1; Int 2; Int 1; Int 1; Int 1; Yes].

Definition ex_pricing : Pricing :=
  _calculate_discounted_price strptime_ymd (num 1000) "2025-06-15" 2 1 1 1.

Definition ex_b : Booking :=
  {| booking_id := "BCC1700000000123";
     username := "alice";
     booking_time := "2025-01-01T10:00:00";
     train_details := ex_t1;
     route_from := "Mumbai";
     route_to := "Delhi";
     travel_date := "2025-06-15";
     num_tickets := 5;
     pricing := ex_pricing;
     total_price := final_price ex_pricing |}.

(** The state after that booking. *)
Definition ex_booked : BookingSystem :=
  (search_and_book_trains strptime_ymd ex_env "Mumbai" "Delhi" "2025-06-15" ex_st0 ex_book).1.

(** Booking 1; one adult ticket; confirmed. *)
Definition ex_cancel_one : list line := [Int 1; Int 1; Zero; Zero; Zero; Yes].

(** Booking 1; all five tickets; confirmed. *)
Definition ex_cancel_all : list line := [Int 1; Int 2; Int 1; Int 1; Int 1; Yes].

(** The same ledger over an inventory that was generated anew: the route
    is there, the train of the booking is not. *)
Definition ex_regenerated : BookingSystem :=
  mkSystem [ex_b] {[ "Mumbai::Delhi" := [ex_t2] ]} "alice" [].

(** The same ledger over an inventory without the route. *)
Definition ex_no_route : BookingSystem :=
  mkSystem [ex_b] {[ "Delhi::Mumbai" := [ex_t2] ]} "alice" [].

(** The state and the locals after the loop over the categories of [ex_b]
    has read the counts typed in [input]. *)
Definition ex_asked (input : list line) : BookingSystem * option (Tally * list line) :=
  ask_categories categories (pricing ex_b) no_cancellations ex_booked input.

Definition ex_tally (input : list line) : Tally :=
  match (ex_asked input).2 with
  | Some (t, _) => t
  | None => no_cancellations
  end.

(** A route on which two trains carry the same id. *)
Definition ex_twins : BookingSystem :=
  mkSystem [] {[ "Mumbai::Delhi" := [ex_t1; add_seats 30 ex_t1] ]} "alice" [].

(** A booking, a partial cancellation, a second booking and a full
    cancellation of the first. *)
Definition ex_session : list command :=
  [Book ex_env "Mumbai" "Delhi" "2025-06-15" ex_book;
   Cancel ex_cancel_one;
   Book ex_env "Mumbai" "Delhi" "2025-01-15" [Int 2; Int 10; Zero; Zero; Zero; Yes];
   Cancel [Int 1; Int 1; Int 1; Int 1; Int 1; Yes]].

(** A line that is neither a number nor "y". *)
Definition ex_unconfirmed : list line := [Int 1; Int 2; Int 1; Int 1; Int 1; Other].

(** Train 1; three adults and minus one infant; confirmed. *)
Definition ex_book_signed : list line := [Int 1; Int 3; Int (-1); Zero; Zero; Yes].

(** Nobody is registered and nobody is logged in. *)
Definition ex_accounts : Accounts.State := Accounts.mkState ∅ None [].

(** Alice is registered. *)
Definition ex_registered : Accounts.State :=
  (Accounts.register ex_accounts ["alice"; "secret"; "secret"]).1.

(** Typed at a station prompt: a name, a number off the list, and 7. *)
Definition ex_station_typed : list Prompts.typed :=
  [Prompts.Typed "pune" false None; Prompts.Typed "16" true (Some 16);
   Prompts.Typed "7" true (Some 7); Prompts.Typed "2" true (Some 2)].

Definition ex_today : date := Date 2025 1 1.

(** Typed at the date prompt: a word, yesterday, and a day in June. *)
Definition ex_date_typed : list Prompts.typed :=
  [Prompts.Typed "tomorrow" false None; Prompts.Typed "2024-12-31" false None;
   Prompts.Typed "2025-06-15" false None; Prompts.Typed "1" true (Some 1)].

(** One sequence of draws. *)
Definition ex_raw (k : nat) : Z := Z.of_nat k * 7919 + 104729.

(** The earlier program with Alice logged in and nothing booked. *)
Definition ex2_st0 : Train2.System := Train2.mkSystem [] ex_db "alice" [].

(** Its ledger with one booking whose route is not in the inventory. *)
Definition ex2_b : Train2.Booking :=
  train2_record ex_env "alice" ex_t1 "Delhi" "Mumbai" "2025-06-15" 5.

Definition ex2_no_route : Train2.System := Train2.mkSystem [ex2_b] ex_db "alice" [].

(** The counts of a booking of three seniors, and of one adult, one child
    and one senior. *)
Definition ex_three_seniors (key : category) : Z :=
  match key with Senior => 3 | _ => 0 end.

Definition ex_one_each (key : category) : Z :=
  match key with Infant => 0 | _ => 1 end.

(** The draws that are all the least of their range, and the inventory
    that [_create_train_database] makes of them, with Alice logged in and
    nothing booked. *)
Definition ex_least_draws (k : nat) : Z := 0.

Definition ex_generated : BookingSystem :=
  mkSystem [] (_create_train_database ex_least_draws) "alice" [].

(** * Properties *)

(** ** Arithmetic of the rates *)

(** Closed equations between rationals are settled by evaluation. *)
Ltac qc_eval := apply Qc_is_canon; vm_compute; reflexivity.




Lemma dec_one : dec 10 10 = 1%Qc.
Proof. qc_eval. Qed.

Lemma dec_zero : dec 0 10 = 0%Qc.
Proof. qc_eval. Qed.

Lemma child_pays_1 : (dec 10 10 - DISCOUNT_RATES CHILD)%Qc = dec 5 10.
Proof. qc_eval. Qed.

Lemma senior_pays_1 : (dec 10 10 - DISCOUNT_RATES SENIOR_CITIZEN)%Qc = dec 7 10.
Proof. qc_eval. Qed.

Lemma keeps_nine_tenths : (1 - cancellation_fee_rate)%Qc = dec 90 100.
Proof. qc_eval. Qed.

(** ** Fare calculator *)

Section Fare.

Variable strptime : string -> option date.




End Fare.

(** ** Prompts only print *)

Lemma only_prints_refl st : only_prints st st.
Proof. by exists []. Qed.

Lemma only_prints_step m st st' : only_prints (print m st) st' → only_prints st st'.
Proof. intros [ms ->]. by exists (m :: ms). Qed.

Lemma only_prints_trans st1 st2 st3 :
  only_prints st1 st2 → only_prints st2 st3 → only_prints st1 st3.
Proof. intros [ms1 ->] [ms2 ->]. exists (ms1 ++ ms2). by rewrite foldl_app. Qed.

Lemma only_prints_data st st' :
  only_prints st st' →
  bookings st' = bookings st ∧ trains_db st' = trains_db st
  ∧ current_user st' = current_user st
  ∧ ∃ ms, trace st' = trace st ++ (Print <$> ms).
Proof.
  intros [ms ->]. revert st. induction ms as [|m ms IH]; intros st; simpl.
  - repeat split; try done. exists []. by rewrite app_nil_r.
  - destruct (IH (print m st)) as (-> & -> & -> & ms' & ->).
    repeat split; try done. exists (m :: ms'). simpl. by rewrite <- app_assoc.
Qed.

Lemma ask_cancel_count_spec remaining st input st' res :
  ask_cancel_count remaining st input = (st', res) →
  only_prints st st'
  ∧ ∀ cancel_count rest, res = Some (cancel_count, rest) → (0 ≤ cancel_count ≤ remaining)%Z.
Proof.
  revert st. induction input as [|l input IH]; intros st; simpl.
  - intros [= <- <-]. split; [apply only_prints_refl | done].
  - destruct (int_or_0 l) as [c|].
    + case_bool_decide as Hc.
      * intros [= <- <-]. split; [apply only_prints_refl|]. by intros ? ? [= <- <-].
      * intros [Hp ?]%IH. split; [by eapply only_prints_step | done].
    + intros [Hp ?]%IH. split; [by eapply only_prints_step | done].
Qed.

(** ** Refunds *)

Lemma seats_of_app cs1 cs2 : seats_of (cs1 ++ cs2) = seats_of cs1 + seats_of cs2.
Proof. induction cs1 as [|kc cs1 IH]; simpl; lia. Qed.

Lemma gross_of_app base cs1 cs2 :
  gross_of base (cs1 ++ cs2) = (gross_of base cs1 + gross_of base cs2)%Qc.
Proof. induction cs1 as [|kc cs1 IH]; simpl; [ring | rewrite IH; ring]. Qed.

Lemma num_0 : num 0 = 0%Qc.
Proof. qc_eval. Qed.

(** What the loop over the categories adds to the locals: one count per
    category asked, each between 0 and what is left of the category. *)
Lemma ask_categories_spec keys p t st input st' res :
  ask_categories keys p t st input = (st', res) →
  only_prints st st'
  ∧ ∀ t' rest, res = Some (t', rest) →
    ∃ cs, cancellations t' = cancellations t ++ cs
      ∧ cs.*1 = keys
      ∧ Forall (λ kc, 0 ≤ kc.2 ∧ (kc.2 ≤ count kc.1 p ∨ kc.2 = 0))%Z cs
      ∧ total_cancelled_seats t' = total_cancelled_seats t + seats_of cs
      ∧ total_refund_gross t' =
        (total_refund_gross t + gross_of (base_price_per_ticket p) cs)%Qc.
Proof.
  revert t st input. induction keys as [|key keys IH]; intros t st input; simpl.
  - intros [= <- <-]. split; [apply only_prints_refl|].
    intros t' rest [= <- <-]. exists []. rewrite app_nil_r. simpl.
    repeat split; [done | lia | ring].
  - case_bool_decide as Hrem.
    + destruct (ask_cancel_count _ st input) as [st1 [[c input1]|]] eqn:Hask;
        apply ask_cancel_count_spec in Hask as [Hp Hc].
      * specialize (Hc _ _ eq_refl).
        intros [Hp' Hres]%IH. split; [by eapply only_prints_trans|].
        intros t' rest Ht'. destruct (Hres _ _ Ht') as (cs & Hcs & Hk & Hall & Hs & Hg).
        exists ((key, c) :: cs). split_and!.
        -- rewrite Hcs. simpl. by rewrite <- app_assoc.
        -- by rewrite fmap_cons, Hk.
        -- constructor; [simpl; lia | done].
        -- rewrite Hs. simpl. lia.
        -- rewrite Hg. simpl. ring.
      * intros [= <- <-]. split; [done | done].
    + intros [Hp' Hres]%IH. split; [done|].
      intros t' rest Ht'. destruct (Hres _ _ Ht') as (cs & Hcs & Hk & Hall & Hs & Hg).
      exists ((key, 0) :: cs). split_and!.
      * rewrite Hcs. simpl. by rewrite <- app_assoc.
      * by rewrite fmap_cons, Hk.
      * constructor; [simpl; lia | done].
      * rewrite Hs. simpl. lia.
      * rewrite Hg. simpl. rewrite num_0. ring.
Qed.

Lemma net_refund_formula gross : net_refund gross = (gross * dec 90 100)%Qc.
Proof.
  unfold net_refund, cancellation_fee. rewrite <- keeps_nine_tenths. ring.
Qed.

Lemma cancellation_fee_formula gross : cancellation_fee gross = (gross * dec 10 100)%Qc.
Proof. reflexivity. Qed.

(** The loop over all four categories, from the initial locals. *)
Lemma ask_all_categories p st input st' t rest :
  ask_categories categories p no_cancellations st input = (st', Some (t, rest)) →
  only_prints st st' ∧ ∃ ca ci cc cs, accepted p t ca ci cc cs.
Proof.
  intros [Hp Hres]%ask_categories_spec. split; [done|].
  destruct (Hres _ _ eq_refl) as (cs & Hcs & Hk & Hall & Hs & Hg).
  destruct cs as [|[k1 ca] [|[k2 ci] [|[k3 cc] [|[k4 cs] [|? ?]]]]]; try done.
  injection Hk as -> -> -> ->.
  apply Forall_cons in Hall as [? Hall]. apply Forall_cons in Hall as [? Hall].
  apply Forall_cons in Hall as [? Hall]. apply Forall_cons in Hall as [? Hall].
  cbn [fst snd count] in *.
  exists ca, ci, cc, cs. split_and!; try done; try lia.
  - rewrite Hs. simpl. lia.
  - rewrite Hg. unfold spec_gross, no_cancellations.
    cbn [gross_of foldr ticket_paid_price fst snd total_refund_gross].
    rewrite child_pays_1, senior_pays_1, dec_one, dec_zero. ring.
Qed.

(** A cancellation that is confirmed goes through [commit_cancellation]. *)
Lemma cancel_selected_confirmed pos b st input st1 t confirm rest :
  ask_categories categories (pricing b) no_cancellations st input
    = (st1, Some (t, confirm :: rest)) →
  total_cancelled_seats t ≠ 0 →
  is_y confirm = true →
  cancel_selected pos b st input = (commit_cancellation pos b t st1, Returned).
Proof.
  intros Hask Hn Hy. unfold cancel_selected. rewrite Hask.
  rewrite bool_decide_eq_false_2 by done. by rewrite Hy.
Qed.

Lemma commit_cancellation_last pos b t st :
  last (trace (commit_cancellation pos b t st))
  = Some (Print (Refund (total_cancelled_seats t) (total_refund_gross t)
                   (cancellation_fee (total_refund_gross t))
                   (net_refund (total_refund_gross t)))).
Proof. unfold commit_cancellation, print, log; simpl. by rewrite last_snoc. Qed.

(** ** Reasoning rules for the two interactive loops *)

Section Rules.

Variable strptime : string -> option date.

(** A rule for [select_train]: an invariant [I] that the messages
    preserve, and a postcondition [Q] that holds wherever the loop is left
    without a booking and after every booking it can make.  A booking is
    only made for a train of [results], for counts whose total [n]
    satisfies [1 <= n <= seats]. *)
Lemma select_train_rule (I Q : BookingSystem → Prop)
    env from_stn to_stn date_str route_key results :
  (∀ m st, I st → I (print m st)) →
  (∀ st, I st → Q st) →
  (∀ st idx train a i c s,
     results !! idx = Some train →
     1 ≤ a + i + c + s ≤ seats train →
     I st →
     Q (create_booking env (route_key, idx) train from_stn to_stn date_str (a + i + c + s)
          (_calculate_discounted_price strptime (price train) date_str a i c s) st)) →
  ∀ input st, I st →
  Q (select_train strptime env from_stn to_stn date_str route_key results st input).1.
Proof.
  intros Hprint Hexit Hcreate input.
  remember (length input) as n eqn:Hn. revert input Hn.
  induction n as [n IH] using lt_wf_ind. intros input -> st HI.
  assert (Hagain : ∀ m input', (length input' < length input)%nat →
            Q (select_train strptime env from_stn to_stn date_str route_key results
                 (print m st) input').1).
  { intros m input' Hlt. eapply IH; [exact Hlt | done | by apply Hprint]. }
  assert (Hleave : ∀ m, Q (print m st)) by (intros m; by apply Hexit, Hprint).
  clear IH.
  destruct input as [|choice input]; [by apply Hexit|]. simpl.
  destruct (is_zero choice); [by apply Hleave|].
  destruct (int choice) as [ch|]; [|apply Hagain; simpl; lia].
  destruct (if bool_decide (0 ≤ ch - 1) then results !! Z.to_nat (ch - 1) else None)
    as [selected_train|] eqn:Hsel; [|apply Hagain; simpl; lia].
  case_bool_decide; [|done].
  destruct input as [|la input]; [by apply Hexit|].
  destruct (int_or_0 la) as [a|]; [|apply Hagain; simpl; lia].
  destruct input as [|li input]; [by apply Hexit|].
  destruct (int_or_0 li) as [i|]; [|apply Hagain; simpl; lia].
  destruct input as [|lc input]; [by apply Hexit|].
  destruct (int_or_0 lc) as [c|]; [|apply Hagain; simpl; lia].
  destruct input as [|ls input]; [by apply Hexit|].
  destruct (int_or_0 ls) as [s|]; [|apply Hagain; simpl; lia].
  case_bool_decide; [apply Hagain; simpl; lia|].
  case_bool_decide; simpl; [|apply Hagain; simpl; lia].
  unfold confirm_and_create_booking.
  destruct input as [|confirm input]; [by apply Hexit|].
  destruct (is_y confirm); simpl; [by apply Hcreate | by apply Hleave].
Qed.

(** The same for the whole of [search_and_book_trains]: the train booked
    is a train of the route's list in [trains_db]. *)
Lemma search_and_book_trains_rule (P : BookingSystem → Prop) env from_stn to_stn date_str :
  (∀ m st, P st → P (print m st)) →
  (∀ st idx trains train a i c s,
     trains_db st !! (from_stn +:+ "::" +:+ to_stn) = Some trains →
     trains !! idx = Some train →
     1 ≤ a + i + c + s ≤ seats train →
     P st →
     P (create_booking env (from_stn +:+ "::" +:+ to_stn, idx) train from_stn to_stn date_str
          (a + i + c + s)
          (_calculate_discounted_price strptime (price train) date_str a i c s) st)) →
  ∀ input st, P st →
  P (search_and_book_trains strptime env from_stn to_stn date_str st input).1.
Proof.
  intros Hprint Hcreate input st HP. unfold search_and_book_trains.
  case_bool_decide; [by apply Hprint|].
  case_bool_decide as Hres; [by apply Hprint|].
  destruct (trains_db st !! (from_stn +:+ "::" +:+ to_stn)) as [trains|] eqn:Hdb; [|done].
  simpl in *.
  apply (select_train_rule
           (λ st', P st' ∧ trains_db st' !! (from_stn +:+ "::" +:+ to_stn) = Some trains) P);
    [| | |done].
  - intros m st' [? ?]. split; [by apply Hprint | done].
  - by intros st' [? ?].
  - intros st' idx train a i c s Hidx Hn [HP' Hdb']. by eapply Hcreate.
Qed.

End Rules.

Lemma only_prints_preserves (P : BookingSystem → Prop) st st' :
  (∀ m st, P st → P (print m st)) → only_prints st st' → P st → P st'.
Proof.
  intros Hprint [ms ->]. revert st. induction ms as [|m ms IH]; intros st HP; simpl; [done|].
  by apply IH, Hprint.
Qed.

(** The bookings offered for cancellation are the ledger's own records of
    the user, each with its position. *)
Lemma user_bookings_lookup st k pos b :
  user_bookings st !! k = Some (pos, b) →
  bookings st !! pos = Some b ∧ username b = current_user st.
Proof.
  intros Hk%list_elem_of_lookup_2. unfold user_bookings in Hk.
  apply list_elem_of_filter in Hk as [Hu Hk]. simpl in Hu.
  apply elem_of_lookup_imap in Hk as (i & x & [= -> ->] & Hi). done.
Qed.

(** A rule for [cancel_selected]: an invariant [I] that the messages
    preserve, and a postcondition [Q] that holds wherever the function is
    left without a cancellation and after every cancellation it commits. *)
Lemma cancel_selected_rule (I Q : BookingSystem → Prop) pos b :
  (∀ m st, I st → I (print m st)) →
  (∀ st, I st → Q st) →
  (∀ st t ca ci cc cs,
     accepted (pricing b) t ca ci cc cs →
     total_cancelled_seats t ≠ 0 →
     I st →
     Q (commit_cancellation pos b t st)) →
  ∀ input st, I st → Q (cancel_selected pos b st input).1.
Proof.
  intros Hprint Hexit Hcommit input st HI. unfold cancel_selected.
  destruct (ask_categories _ _ _ st input) as [st1 [[t rest]|]] eqn:Hask.
  - destruct (ask_all_categories _ _ _ _ _ _ Hask) as (Hp & ca & ci & cc & cs & Hacc).
    assert (I st1) by by eapply only_prints_preserves.
    case_bool_decide; [by apply Hexit, Hprint|].
    destruct rest as [|confirm rest]; [by apply Hexit|].
    destruct (is_y confirm); simpl; [by eapply Hcommit | by apply Hexit, Hprint].
  - apply ask_categories_spec in Hask as [Hp _]. by eapply Hexit, only_prints_preserves.
Qed.

(** The same for the loop that selects the booking. *)
Lemma select_booking_rule (I Q : BookingSystem → Prop) ubs :
  (∀ m st, I st → I (print m st)) →
  (∀ st, I st → Q st) →
  (∀ st k pos b t ca ci cc cs,
     ubs !! k = Some (pos, b) →
     num_tickets b ≠ 0 →
     accepted (pricing b) t ca ci cc cs →
     total_cancelled_seats t ≠ 0 →
     I st →
     Q (commit_cancellation pos b t st)) →
  ∀ input st, I st → Q (select_booking ubs st input).1.
Proof.
  intros Hprint Hexit Hcommit input.
  induction input as [|choice input IH]; intros st HI; simpl; [by apply Hexit|].
  destruct (is_zero choice); [by apply Hexit, Hprint|].
  destruct (int choice) as [ch|]; [|by apply IH, Hprint].
  destruct (if bool_decide (0 ≤ ch - 1) then ubs !! Z.to_nat (ch - 1) else None)
    as [[pos b]|] eqn:Hsel; [|by apply IH, Hprint].
  case_bool_decide; [|done].
  case_bool_decide; [by apply IH, Hprint|].
  apply (cancel_selected_rule I Q); [done | done | | done].
  intros. by eapply Hcommit.
Qed.

(** A rule for [cancel_booking]: the booking cancelled is a record of the
    ledger, owned by the current user, with tickets left. *)
Lemma cancel_booking_rule (P : BookingSystem → Prop) :
  (∀ m st, P st → P (print m st)) →
  (∀ st pos b t ca ci cc cs,
     bookings st !! pos = Some b →
     username b = current_user st →
     num_tickets b ≠ 0 →
     accepted (pricing b) t ca ci cc cs →
     total_cancelled_seats t ≠ 0 →
     P st →
     P (commit_cancellation pos b t st)) →
  ∀ input st, P st → P (cancel_booking st input).1.
Proof.
  intros Hprint Hcommit input st HP. unfold cancel_booking.
  case_bool_decide; [by apply Hprint|].
  apply (select_booking_rule
           (λ s, P s ∧ bookings s = bookings st ∧ current_user s = current_user st) P);
    [| | |done].
  - intros m s (? & ? & ?). split; [by apply Hprint | done].
  - by intros s (? & ? & ?).
  - intros s k pos b t ca ci cc cs Hk Hn Hacc Ht (HPs & Hbs & Hus).
    destruct (user_bookings_lookup _ _ _ _ Hk) as [Hpos Huser].
    eapply Hcommit; try done; congruence.
Qed.

(** ** What the commits do to the ledger and to the inventory *)

Lemma bookings_release route_key train_id n st :
  bookings (release route_key train_id n st) = bookings st.
Proof.
  unfold release. destruct (trains_db st !! route_key) as [trains|]; [|done].
  by destruct (list_find _ trains) as [[idx ?]|].
Qed.

Lemma trains_db_foldl_sub_count pos cs st :
  trains_db (foldl (λ st kc, ledger_sub_count pos kc.1 kc.2 st) st cs) = trains_db st.
Proof. revert st. induction cs as [|kc cs IH]; intros st; simpl; [done | by rewrite IH]. Qed.

(** The ledger after a cancellation: the booking is removed when no ticket
    is left, and updated in place otherwise. *)
Lemma bookings_commit_cancellation pos b t st ca ci cc cs :
  cancellations t = [(Adult, ca); (Infant, ci); (Child, cc); (Senior, cs)] →
  bookings (commit_cancellation pos b t st) =
  if bool_decide (num_tickets b - total_cancelled_seats t = 0)
  then list_remove b (bookings st)
  else alter (partially_cancelled ca ci cc cs (num_tickets b - total_cancelled_seats t)
                (total_price b - net_refund (total_refund_gross t))%Qc) pos (bookings st).
Proof.
  intros Hc. unfold commit_cancellation. cbn [bookings print log _save_data].
  rewrite bookings_release. case_bool_decide; [done|].
  rewrite Hc. cbn. by rewrite !list_alter_alter_eq.
Qed.

Lemma trains_db_release route_key train_id n st :
  trains_db (release route_key train_id n st) = released route_key train_id n (trains_db st).
Proof.
  unfold release, released. destruct (trains_db st !! route_key) as [trains|]; [|done].
  by destruct (list_find _ trains) as [[idx ?]|].
Qed.

(** The inventory after a cancellation. *)
Lemma trains_db_commit_cancellation pos b t st :
  trains_db (commit_cancellation pos b t st) =
  released (route_from b +:+ "::" +:+ route_to b) (id (train_details b))
    (total_cancelled_seats t) (trains_db st).
Proof.
  unfold commit_cancellation. cbn [trains_db print log _save_data].
  rewrite trains_db_release. f_equal.
  case_bool_decide; [done|]. cbn. apply trains_db_foldl_sub_count.
Qed.

(** ** The ticket total of a booking *)

Lemma Forall_list_remove (P : Booking → Prop) b l : Forall P l → Forall P (list_remove b l).
Proof.
  induction 1 as [|x l Hx Hl IH]; simpl; [done|].
  case_decide; [done | by constructor].
Qed.

Lemma partially_cancelled_ok ca ci cc cs v x :
  ticket_total_ok x →
  ticket_total_ok (partially_cancelled ca ci cc cs (num_tickets x - (ca + ci + cc + cs)) v x).
Proof. unfold ticket_total_ok, counts_total. simpl. lia. Qed.

Lemma ledger_ok_create strptime env r train from_stn to_stn date_str p a i c s st :
  ledger_ok st →
  ledger_ok (create_booking env r train from_stn to_stn date_str (a + i + c + s)
               (_calculate_discounted_price strptime p date_str a i c s) st).
Proof.
  intros Hok. unfold ledger_ok, create_booking. cbn.
  apply Forall_app. split; [done|]. by repeat constructor.
Qed.

Lemma ledger_ok_commit pos b t st ca ci cc cs :
  bookings st !! pos = Some b →
  accepted (pricing b) t ca ci cc cs →
  ledger_ok st →
  ledger_ok (commit_cancellation pos b t st).
Proof.
  intros Hpos (Hc & _ & Hs & _) Hok. unfold ledger_ok.
  rewrite (bookings_commit_cancellation _ _ _ _ _ _ _ _ Hc). case_bool_decide.
  - by apply Forall_list_remove.
  - apply Forall_alter; [done|]. intros x Hx Hokx.
    assert (x = b) as -> by congruence. rewrite Hs. by apply partially_cancelled_ok.
Qed.

Lemma ledger_ok_book strptime env from_stn to_stn date_str st input :
  ledger_ok st →
  ledger_ok (search_and_book_trains strptime env from_stn to_stn date_str st input).1.
Proof.
  intros Hok. apply search_and_book_trains_rule; [done | | done].
  intros. by apply ledger_ok_create.
Qed.

Lemma ledger_ok_cancel st input : ledger_ok st → ledger_ok (cancel_booking st input).1.
Proof.
  intros Hok. apply cancel_booking_rule; [done | | done].
  intros. by eapply ledger_ok_commit.
Qed.

(** The invariant along a whole session. *)
Lemma ticket_total_session strptime cs st :
  ledger_ok st → ledger_ok (run_all strptime st cs).
Proof.
  revert st. induction cs as [|c cs IH]; intros st Hok; [done|].
  apply IH. destruct c; simpl; [by apply ledger_ok_book | by apply ledger_ok_cancel].
Qed.

(** C3. If every booking of the ledger has [num_tickets] equal to the sum
    of its four stored category counts, then so has every booking of the
    ledger after [search_and_book_trains] (whatever is typed, a booking
    created or not) and after [cancel_booking] (whatever is typed, the
    booking removed, partially cancelled or left alone): a partial
    cancellation lowers the counts and the total by the same amount. *)
Theorem ticket_total_preserved strptime st :
  ledger_ok st →
  (∀ env from_stn to_stn date_str input,
     ledger_ok (search_and_book_trains strptime env from_stn to_stn date_str st input).1)
  ∧ (∀ input, ledger_ok (cancel_booking st input).1).
Proof.
  intros Hok. split.
  - intros. by apply ledger_ok_book.
  - intros. by apply ledger_ok_cancel.
Qed.

(** ** Seats *)

Lemma seats_ok_alter db route_key idx n trains train :
  db !! route_key = Some trains →
  trains !! idx = Some train →
  0 ≤ seats train + n →
  seats_ok db →
  seats_ok (alter (alter (add_seats n) idx) route_key db).
Proof.
  intros Hdb Hidx Hn Hok k trains'. rewrite lookup_alter. case_decide as Hk.
  - subst k. rewrite Hdb. intros [= <-]. apply Forall_alter; [by eapply Hok|].
    intros x Hx _. assert (x = train) as -> by congruence. done.
  - apply Hok.
Qed.

Lemma seats_ok_released route_key train_id n db :
  0 ≤ n → seats_ok db → seats_ok (released route_key train_id n db).
Proof.
  intros Hn Hok. unfold released.
  destruct (db !! route_key) as [trains|] eqn:Hdb; [|done].
  destruct (list_find _ trains) as [[idx train]|] eqn:Hfind; [|done].
  apply list_find_Some in Hfind as (Hidx & _ & _).
  eapply seats_ok_alter; [done | done | | done].
  assert (0 ≤ seats train); [|lia].
  by eapply (Forall_lookup_1 (λ train, 0 ≤ seats train) trains); [eapply Hok|].
Qed.

Lemma seats_ok_step strptime c st :
  seats_ok (trains_db st) → seats_ok (trains_db (run strptime st c)).
Proof.
  intros Hok. destruct c as [env from_stn to_stn date_str input|input]; simpl.
  - apply (search_and_book_trains_rule _ (λ st, seats_ok (trains_db st))); [done | | done].
    intros st' idx trains train a i c s Hdb Hidx Hn Hok'. cbn.
    eapply seats_ok_alter; [done | done | simpl; lia | done].
  - apply (cancel_booking_rule (λ st, seats_ok (trains_db st))); [done | | done].
    intros st' pos b t ca ci cc cs _ _ _ (_ & Hb & Hs & _) _ Hok'.
    rewrite trains_db_commit_cancellation. apply seats_ok_released; [lia | done].
Qed.

(** C4. Starting from an inventory without negative seat counts, no train
    has a negative seat count after any sequence of bookings (which take
    seats) and cancellations (which give seats back), whatever is typed. *)
Theorem seats_never_negative strptime cs st :
  seats_ok (trains_db st) → seats_ok (trains_db (run_all strptime st cs)).
Proof.
  revert st. induction cs as [|c cs IH]; intros st Hok; [done|].
  by apply IH, seats_ok_step.
Qed.

Lemma add_seats_back n train : add_seats n (add_seats (- n) train) = train.
Proof. destruct train. unfold add_seats. simpl. f_equal. lia. Qed.

(** Where the release reaches the train the seats were taken from, that
    is, where no train earlier in the route's list carries the same id,
    taking [n] seats ([reserve], through the reference to the train object)
    and at once giving [n] seats back ([release], which looks the train up
    by route key and id) leaves the inventory, and so the [seats] of the
    train, exactly as it was. *)
Theorem reserve_release_round_trip route_key idx n st trains train :
  trains_db st !! route_key = Some trains →
  trains !! idx = Some train →
  (∀ j other, trains !! j = Some other → (j < idx)%nat → id other ≠ id train) →
  let st' := release route_key (id train) n (reserve (route_key, idx) n st) in
  trains_db st' = trains_db st ∧ deref (trains_db st') (route_key, idx) = Some train.
Proof.
  intros Hdb Hidx Hfirst.
  assert (trains_db (release route_key (id train) n (reserve (route_key, idx) n st))
          = trains_db st) as Heq.
  { rewrite trains_db_release. unfold released, reserve. cbn.
    rewrite lookup_alter_eq, Hdb. cbn.
    assert (list_find (λ t, id t = id train) (alter (add_seats (- n)) idx trains)
            = Some (idx, add_seats (- n) train)) as ->.
    { apply list_find_Some. split_and!.
      - by rewrite list_lookup_alter_eq, Hidx.
      - done.
      - intros j y Hj Hlt. rewrite list_lookup_alter_ne in Hj by lia.
        by eapply Hfirst. }
    rewrite alter_alter_eq. apply alter_id. intros x Hx.
    assert (x = trains) as -> by congruence. cbn.
    rewrite list_alter_alter_eq. apply list_eq. intros j.
    destruct (decide (j = idx)) as [->|Hne].
    - rewrite list_lookup_alter_eq, Hidx. cbn. by rewrite add_seats_back.
    - by rewrite list_lookup_alter_ne. }
  split; [done|]. cbv zeta. rewrite Heq. unfold deref. cbn. by rewrite Hdb.
Qed.

(** ** Rejected requests *)

Lemma requests_select strptime env st from_stn to_stn date_str trains idx train
    choice la li lc ls a i c s rest :
  requests st from_stn to_stn trains idx train choice la li lc ls a i c s →
  search_and_book_trains strptime env from_stn to_stn date_str st
    (choice :: la :: li :: lc :: ls :: rest) =
  let route_key := from_stn +:+ "::" +:+ to_stn in
  let again := select_train strptime env from_stn to_stn date_str route_key trains in
  let num_tickets := a + i + c + s in
  if bool_decide (num_tickets = 0) then again (print MustBookAtLeastOne st) rest
  else if bool_decide (1 ≤ num_tickets ≤ seats train) then
    confirm_and_create_booking env (route_key, idx) train from_stn to_stn date_str num_tickets
      (_calculate_discounted_price strptime (price train) date_str a i c s) st rest
  else again (print (ExceedsAvailableSeats num_tickets (seats train)) st) rest.
Proof.
  intros (Hne & Hdb & Hidx & Hz & Hch & Ha & Hi & Hc & Hs).
  unfold search_and_book_trains.
  rewrite bool_decide_eq_false_2 by done. rewrite Hdb.
  change (default [] (Some trains)) with trains.
  rewrite bool_decide_eq_false_2 by (intros ->; done).
  cbn [select_train]. rewrite Hz, Hch.
  replace (Z.of_nat idx + 1 - 1) with (Z.of_nat idx) by lia.
  rewrite bool_decide_eq_true_2 by lia. rewrite Nat2Z.id, Hidx, Ha, Hi, Hc, Hs.
  cbv zeta. case_bool_decide; [done|]. by case_bool_decide.
Qed.

(** C6. A request for no ticket at all is turned down with "You must book
    at least one ticket", and a request for more tickets than the train
    has seats with "Total tickets exceeds available seats"; in both cases
    nothing but the message is added to the state, so the ledger and the
    inventory are as before, and the program asks for a train again. *)
Theorem create_rejected strptime env st from_stn to_stn date_str trains idx train
    choice la li lc ls a i c s rest :
  requests st from_stn to_stn trains idx train choice la li lc ls a i c s →
  0 ≤ seats train →
  let route_key := from_stn +:+ "::" +:+ to_stn in
  let again := select_train strptime env from_stn to_stn date_str route_key trains in
  let run := search_and_book_trains strptime env from_stn to_stn date_str st
               (choice :: la :: li :: lc :: ls :: rest) in
  let rejected m :=
    run = again (print m st) rest
    ∧ bookings (print m st) = bookings st ∧ trains_db (print m st) = trains_db st in
  (a + i + c + s = 0 → rejected MustBookAtLeastOne)
  ∧ (seats train < a + i + c + s →
     rejected (ExceedsAvailableSeats (a + i + c + s) (seats train))).
Proof.
  intros Hreq Hseats route_key again run rejected. subst run rejected again route_key.
  cbv beta. rewrite (requests_select _ _ _ _ _ _ _ _ _ _ _ _ _ _ _ _ _ _ _ Hreq). cbv zeta.
  split; intros Hn.
  - by rewrite bool_decide_eq_true_2.
  - rewrite bool_decide_eq_false_2 by lia. by rewrite bool_decide_eq_false_2 by lia.
Qed.

(** ** Confirmed cancellations *)

Lemma cancels_commit st k pos b choice input st1 t :
  cancels st k pos b choice input st1 t →
  cancel_booking st (choice :: input) = (commit_cancellation pos b t st1, Returned)
  ∧ only_prints st st1
  ∧ bookings st !! pos = Some b
  ∧ username b = current_user st
  ∧ ∃ ca ci cc cs, accepted (pricing b) t ca ci cc cs.
Proof.
  intros (Hk & Hz & Hch & Hn & (confirm & rest & Hask & Hy) & Ht).
  destruct (user_bookings_lookup _ _ _ _ Hk) as [Hpos Hu].
  destruct (ask_all_categories _ _ _ _ _ _ Hask) as [Hp Hacc].
  split_and!; try done.
  unfold cancel_booking. rewrite bool_decide_eq_false_2 by (by intros Hnil; rewrite Hnil in Hk).
  cbn [select_booking]. rewrite Hz, Hch.
  replace (Z.of_nat k + 1 - 1) with (Z.of_nat k) by lia.
  rewrite bool_decide_eq_true_2 by lia. rewrite Nat2Z.id, Hk.
  rewrite bool_decide_eq_false_2 by done.
  by eapply cancel_selected_confirmed.
Qed.

(** ** What [list.remove] and the view keep *)

Lemma list_remove_first b l pos :
  l !! pos = Some b →
  (∀ j, l !! j = Some b → j = pos) →
  list_remove b l = delete pos l.
Proof.
  revert pos. induction l as [|x l IH]; intros pos Hpos Hfirst; [done|].
  simpl. case_decide as Hx.
  - subst x. by rewrite <- (Hfirst 0%nat eq_refl).
  - destruct pos as [|pos]; [by injection Hpos|]. simpl. f_equal.
    apply IH; [done|]. intros j Hj. by specialize (Hfirst (S j) Hj) as [= ->].
Qed.

Lemma insert_by_key_perm b l : insert_by_key b l ≡ₚ b :: l.
Proof.
  induction l as [|x l IH]; simpl; [done|].
  destruct (key_lt b x); [done|]. by rewrite IH, Permutation_swap.
Qed.

Lemma sort_by_key_perm l : sort_by_key l ≡ₚ l.
Proof.
  unfold sort_by_key. change l with ([] ++ l) at 2. generalize (@nil Booking) as acc.
  induction l as [|b l IH]; intros acc; simpl; [by rewrite app_nil_r|].
  rewrite IH, insert_by_key_perm. simpl. apply Permutation_middle.
Qed.

(** The view shows bookings of the ledger only. *)
Lemma view_my_bookings_elem st b :
  b ∈ view_my_bookings st → b ∈ bookings st ∧ username b = current_user st.
Proof.
  unfold view_my_bookings. rewrite sort_by_key_perm.
  intros ([pos b'] & -> & [k Hk]%list_elem_of_lookup)%list_elem_of_fmap.
  apply user_bookings_lookup in Hk as [Hpos Hu]. split; [by eapply list_elem_of_lookup_2 | done].
Qed.

(** ** Partial cancellation *)

Lemma num_sub x y : num (x - y) = (num x - num y)%Qc.
Proof. apply Z2Qc_inj_sub. Qed.








(** ** Seats that cannot be given back *)

(** The route key of the booking is no longer in the inventory: the
    [KeyError] is caught and reported. *)
Lemma release_missing_route route_key train_id n st :
  trains_db st !! route_key = None →
  release route_key train_id n st = print CouldNotRestoreSeats st.
Proof. intros Hdb. unfold release. by rewrite Hdb. Qed.

(** The route is there but none of its trains has the id of the booking:
    the loop ends without a match, nothing is raised and nothing is
    reported; the inventory is saved as it is. *)
Lemma release_missing_train route_key train_id n st trains :
  trains_db st !! route_key = Some trains →
  (∀ train, train ∈ trains → id train ≠ train_id) →
  release route_key train_id n st = _save_data TRAINS_FILE st.
Proof.
  intros Hdb Hnone. unfold release. rewrite Hdb.
  destruct (list_find _ trains) as [[idx train]|] eqn:Hfind; [|done].
  apply list_find_Some in Hfind as (Hidx & Hid & _).
  by destruct (Hnone train); [eapply list_elem_of_lookup_2|].
Qed.

(** In both cases the ledger side of the cancellation is committed and the
    inventory is left as it was; only the missing route is reported. *)
Lemma cancel_without_train pos b t st ca ci cc cs :
  cancellations t = [(Adult, ca); (Infant, ci); (Child, cc); (Senior, cs)] →
  let route_key := route_from b +:+ "::" +:+ route_to b in
  (trains_db st !! route_key = None
   ∨ ∃ trains, trains_db st !! route_key = Some trains
       ∧ ∀ train, train ∈ trains → id train ≠ id (train_details b)) →
  let st' := commit_cancellation pos b t st in
  trains_db st' = trains_db st
  ∧ bookings st' =
    (if bool_decide (num_tickets b - total_cancelled_seats t = 0)
     then list_remove b (bookings st)
     else alter (partially_cancelled ca ci cc cs (num_tickets b - total_cancelled_seats t)
                   (total_price b - net_refund (total_refund_gross t))%Qc) pos (bookings st)).
Proof.
  intros Hcs route_key Hmissing st'. subst st' route_key. split.
  - rewrite trains_db_commit_cancellation. unfold released.
    destruct Hmissing as [->|(trains & -> & Hnone)]; [done|].
    destruct (list_find _ trains) as [[idx train]|] eqn:Hfind; [|done].
    apply list_find_Some in Hfind as (Hidx & Hid & _).
    by destruct (Hnone train); [eapply list_elem_of_lookup_2|].
  - by apply bookings_commit_cancellation.
Qed.

(** ** Order of the effects *)

Lemma trace_create_booking env r train from_stn to_stn date_str n p st :
  ∃ b bid,
    trace (create_booking env r train from_stn to_stn date_str n p st) =
    trace st ++ [LedgerAppend b; Save BOOKINGS_FILE; SeatsSub r.1 r.2 n; Save TRAINS_FILE;
                 Print (BookingConfirmed bid)].
Proof.
  eexists _, _. unfold create_booking. cbn. by rewrite <- !app_assoc.
Qed.

Lemma trace_release route_key train_id n st :
  ∃ evs, trace (release route_key train_id n st) = trace st ++ evs
         ∧ (effects evs = [] ∨ effects evs = [OnInventory]).
Proof.
  unfold release. destruct (trains_db st !! route_key) as [trains|].
  - destruct (list_find _ trains) as [[idx train]|].
    + eexists [_; _]. cbn. rewrite <- app_assoc. split; [done | by right].
    + eexists [_]. cbn. split; [done | by left].
  - eexists [_]. cbn. split; [done | by left].
Qed.

Lemma trace_commit_cancellation pos b t st ca ci cc cs :
  cancellations t = [(Adult, ca); (Infant, ci); (Child, cc); (Senior, cs)] →
  ∃ ledger inventory rest,
    trace (commit_cancellation pos b t st) = trace st ++ ledger ++ inventory ++ rest
    ∧ (effects ledger = [OnLedger] ∨ effects ledger = replicate 6 OnLedger)
    ∧ (effects inventory = [] ∨ effects inventory = [OnInventory])
    ∧ effects rest = [].
Proof.
  intros Hcs. unfold commit_cancellation.
  match goal with |- context [release ?k ?i ?n ?s] =>
    destruct (trace_release k i n s) as (inv & Hinv & Heff); set (st2 := s) in * end.
  assert (∃ ledger, trace st2 = trace st ++ ledger
            ∧ (effects ledger = [OnLedger] ∨ effects ledger = replicate 6 OnLedger))
    as (ledger & Hl & Hleff).
  { subst st2. case_bool_decide.
    - eexists [_]. split; [done | by left].
    - rewrite Hcs. eexists [_; _; _; _; _; _]. cbn. rewrite <- !app_assoc.
      split; [done | by right]. }
  eexists ledger, inv, [_; _; _]. cbn. rewrite Hinv, Hl, <- !app_assoc. by split_and!.
Qed.

Lemma since_app st st' evs : trace st' = trace st ++ evs → since st st' = evs.
Proof. intros Htr. unfold since. rewrite Htr. apply drop_app_length. Qed.

Lemma effects_app evs1 evs2 : effects (evs1 ++ evs2) = effects evs1 ++ effects evs2.
Proof. apply omap_app. Qed.

(** A request within the seats of the train, confirmed, is booked. *)
Lemma requests_create strptime env st from_stn to_stn date_str trains idx train
    choice la li lc ls a i c s confirm rest :
  requests st from_stn to_stn trains idx train choice la li lc ls a i c s →
  1 ≤ a + i + c + s ≤ seats train →
  is_y confirm = true →
  search_and_book_trains strptime env from_stn to_stn date_str st
    (choice :: la :: li :: lc :: ls :: confirm :: rest) =
  (create_booking env (from_stn +:+ "::" +:+ to_stn, idx) train from_stn to_stn date_str
     (a + i + c + s) (_calculate_discounted_price strptime (price train) date_str a i c s) st,
   Returned).
Proof.
  intros Hreq Hn Hy. rewrite (requests_select _ _ _ _ _ _ _ _ _ _ _ _ _ _ _ _ _ _ _ Hreq).
  cbv zeta. rewrite bool_decide_eq_false_2 by lia. rewrite bool_decide_eq_true_2 by lia.
  unfold confirm_and_create_booking. by rewrite Hy.
Qed.

(** C9, as the program has it.  On every successful create the booking
    record is appended to the ledger first and the seats of the train are
    taken second; on every confirmed cancellation the ledger is changed
    first (the record removed, or its counts, total and price updated) and
    the seats are given back afterwards, if they are given back at all:
    the same order on both paths. *)
Theorem ledger_before_inventory :
  (∀ strptime env st from_stn to_stn date_str trains idx train
     choice la li lc ls a i c s confirm rest,
     requests st from_stn to_stn trains idx train choice la li lc ls a i c s →
     1 ≤ a + i + c + s ≤ seats train →
     is_y confirm = true →
     ∃ st',
       search_and_book_trains strptime env from_stn to_stn date_str st
         (choice :: la :: li :: lc :: ls :: confirm :: rest) = (st', Returned)
       ∧ effects (since st st') = [OnLedger; OnInventory])
  ∧ (∀ st k pos b choice input st1 t,
       cancels st k pos b choice input st1 t →
       ∃ st' n m,
         cancel_booking st (choice :: input) = (st', Returned)
         ∧ effects (since st1 st') = replicate (S n) OnLedger ++ replicate m OnInventory
         ∧ (m ≤ 1)%nat).
Proof.
  split.
  - intros * Hreq Hn Hy. eexists. split; [by eapply requests_create|].
    match goal with |- context [create_booking ?e ?r ?tr ?f ?t ?d ?n ?p ?s] =>
      destruct (trace_create_booking e r tr f t d n p s) as (b & bid & Htr) end.
    by rewrite (since_app _ _ _ Htr).
  - intros * Hc.
    destruct (cancels_commit _ _ _ _ _ _ _ _ Hc)
      as (Hrun & _ & _ & _ & ca & ci & cc & cs & Hcs & _).
    destruct (trace_commit_cancellation pos b t st1 _ _ _ _ Hcs)
      as (ledger & inventory & rest & Htr & Hl & Hi & Hr).
    exists (commit_cancellation pos b t st1).
    rewrite (since_app _ _ _ Htr), !effects_app, Hr, app_nil_r.
    destruct Hl as [-> | ->], Hi as [-> | ->].
    + exists 0%nat, 0%nat. split_and!; [done | done | lia].
    + exists 0%nat, 1%nat. split_and!; [done | done | lia].
    + exists 5%nat, 0%nat. split_and!; [done | done | lia].
    + exists 5%nat, 1%nat. split_and!; [done | done | lia].
Qed.

(** * The amounts as the code computes them *)

(** ** Doubles *)

Lemma float_sub_0_r x : (x - 0)%float = x.
Proof.
  apply Prim2SF_inj. rewrite FloatAxioms.sub_spec.
  replace (Prim2SF 0) with (S754_zero false) by (vm_compute; reflexivity).
  unfold SF64sub. by destruct (Prim2SF x) as [[]|[]| |[] ? ?].
Qed.

(** A converted [int] is a finite double. *)
Lemma of_int_finite z f :
  Binary64.of_int z = Some f →
  (∃ sign, Prim2SF f = S754_zero sign) ∨ (∃ sign m e, Prim2SF f = S754_finite sign m e).
Proof.
  unfold Binary64.of_int.
  destruct (Prim2SF (SF2Prim (binary_normalize prec emax z 0 false)))
    as [sign|sign| |sign m e] eqn:Hf; intros [= <-]; rewrite Hf; by eauto.
Qed.

(** A finite double times 0.0 is a zero. *)
Lemma float_mul_0_r z f : Binary64.of_int z = Some f → (f * 0 =? 0)%float = true.
Proof.
  intros Hf. rewrite FloatAxioms.eqb_spec, FloatAxioms.mul_spec.
  replace (Prim2SF 0) with (S754_zero false) by (vm_compute; reflexivity).
  by destruct (of_int_finite z f Hf) as [[sign ->]|(sign & m & e & ->)]; destruct sign.
Qed.

(** ** The fare on doubles *)

Lemma binary64_rates :
  (1 - Binary64.DISCOUNT_RATES INFANT = 0
   ∧ 1 - Binary64.DISCOUNT_RATES CHILD = 0.5
   ∧ 1 - Binary64.DISCOUNT_RATES SENIOR_CITIZEN = 0x1.6666666666666p-1)%float.
Proof. vm_compute. done. Qed.

(** C1. For every integer base price, every travel date (a text [s] that
    [strptime] reads as the date [d]) and all integer counts whose products
    with the price convert to [float], the fare calculator returns the
    subtotal [p*adult + 0*infant + p*0.5*child + p*0.7*senior] evaluated on
    doubles, to which the infants add a zero; the final price is that
    subtotal when the month of [d] is neither January nor February, and the
    subtotal minus the season savings, the subtotal times the double of
    0.10, when it is. *)
Theorem fare_final_price_binary64 strptime p s d a i c sn A I C S :
  strptime s = Some d →
  Binary64.of_int (p * a) = Some A →
  Binary64.of_int (p * i) = Some I →
  Binary64.of_int (p * c) = Some C →
  Binary64.of_int (p * sn) = Some S →
  ∃ pd,
    Binary64._calculate_discounted_price strptime p s a i c sn = Some pd
    ∧ let sub := binary64_subtotal A I C S in
      Binary64.subtotal pd = sub
      ∧ (I * 0 =? 0)%float = true
      ∧ (month d ∉ [1; 2] →
         Binary64.season_savings (Binary64.breakdown pd) = 0%float
         ∧ Binary64.final_price pd = sub)
      ∧ (month d ∈ [1; 2] →
         Binary64.season_savings (Binary64.breakdown pd) = (sub * 0x1.999999999999ap-4)%float
         ∧ Binary64.final_price pd = (sub - sub * 0x1.999999999999ap-4)%float).
Proof.
  intros Hd HA HI HC HS.
  destruct binary64_rates as (Hinfant & Hchild & Hsenior).
  unfold Binary64._calculate_discounted_price, Binary64.int_mul, Binary64.int_add.
  rewrite HA, HI, HC, HS, Hd, Hinfant, Hchild, Hsenior. cbn [mbind option_bind].
  eexists. split; [reflexivity|].
  cbn [Binary64.subtotal Binary64.final_price Binary64.breakdown Binary64.season_savings].
  fold (binary64_subtotal A I C S).
  split_and!; [done | by eapply float_mul_0_r | |]; intros Hm.
  - rewrite bool_decide_eq_false_2 by done. by rewrite float_sub_0_r.
  - by rewrite bool_decide_eq_true_2 by done.
Qed.

(** ** The refund on doubles *)

(** C2. For every confirmed cancellation the counts cancelled are one per
    category, [ca, ci, cc, cs]; with the stored [base_price_per_ticket] an
    integer [base] that converts to [float], and counts that do, the gross
    refund is [ca*base + ci*0 + cc*(0.5*base) + cs*(0.7*base)] evaluated on
    doubles over the categories of which the booking holds a ticket,
    whatever season savings the booking carries; the fee is the gross times
    the double of 0.10 and the net refund is the gross minus the fee. *)
Theorem cancel_refund_binary64 st k pos b choice input st1 t base B :
  cancels st k pos b choice input st1 t →
  base_price_per_ticket (pricing b) = num base →
  Binary64.of_int base = Some B →
  Forall (λ kc, is_Some (Binary64.of_int kc.2)) (cancellations t) →
  ∃ ca ci cc cs Na Ni Nc Ns gross fee net,
    cancellations t = [(Adult, ca); (Infant, ci); (Child, cc); (Senior, cs)]
    ∧ Binary64.of_int ca = Some Na ∧ Binary64.of_int ci = Some Ni
    ∧ Binary64.of_int cc = Some Nc ∧ Binary64.of_int cs = Some Ns
    ∧ Binary64.refund base (λ key, count key (pricing b)) (cancellations t)
      = Some (gross, fee, net)
    ∧ gross = binary64_gross (λ key, bool_decide (count key (pricing b) > 0)) B Na Ni Nc Ns
    ∧ fee = (gross * 0x1.999999999999ap-4)%float
    ∧ net = (gross - fee)%float.
Proof.
  intros Hc _ HB Hints.
  destruct (cancels_commit _ _ _ _ _ _ _ _ Hc)
    as (_ & _ & _ & _ & ca & ci & cc & cs & Hcs & _).
  rewrite Hcs in Hints |- *.
  apply Forall_cons in Hints as [[Na Ha] Hints]. apply Forall_cons in Hints as [[Ni Hi] Hints].
  apply Forall_cons in Hints as [[Nc Hc'] Hints]. apply Forall_cons in Hints as [[Ns Hs] _].
  cbn [snd] in Ha, Hi, Hc', Hs.
  destruct binary64_rates as (_ & Hchild & Hsenior).
  exists ca, ci, cc, cs, Na, Ni, Nc, Ns.
  unfold Binary64.refund, Binary64.total_refund_gross, binary64_gross.
  cbn [foldl Binary64.add_refund fst snd mbind option_bind].
  unfold Binary64.ticket_paid_price, Binary64.int_mul.
  rewrite Ha, Hi, Hc', Hs, HB, Hchild, Hsenior.
  do 3 eexists. split_and!; try done.
  by destruct (bool_decide (count Adult (pricing b) > 0)),
    (bool_decide (count Infant (pricing b) > 0)),
    (bool_decide (count Child (pricing b) > 0)),
    (bool_decide (count Senior (pricing b) > 0)).
Qed.

(** * Examples *)

Example ex_booked_ledger : bookings ex_booked = [ex_b].
Proof. vm_compute. reflexivity. Qed.

Example ex_booked_seats :
  deref (trains_db ex_booked) ("Mumbai::Delhi", 0%nat) = Some (add_seats (-5) ex_t1).
Proof. vm_compute. reflexivity. Qed.

Example ex_one_cancelled :
  (λ b, (num_tickets b, counts_total (pricing b), this (total_price b)))
    <$> bookings (cancel_booking ex_booked ex_cancel_one).1
  = [(4, 4, 2300%Q)].
Proof. vm_compute. reflexivity. Qed.

(** Hypotheses about runs on the examples are settled by running them. *)
Ltac run_requests :=
  unfold requests; split_and!; [by intros [=] | vm_compute; reflexivity | reflexivity ..].

Ltac run_cancels :=
  unfold cancels; split_and!;
  [ vm_compute; reflexivity | reflexivity | reflexivity | by intros [=]
  | eexists _, _; split; [vm_compute; reflexivity | reflexivity]
  | by intros [=] ].

Lemma ex_cancels_one :
  cancels ex_booked 0 0 ex_b (Int 1) [Int 1; Zero; Zero; Zero; Yes]
    (ex_asked [Int 1; Zero; Zero; Zero; Yes]).1 (ex_tally [Int 1; Zero; Zero; Zero; Yes]).
Proof. run_cancels. Defined.

Lemma ex_cancels_all :
  cancels ex_booked 0 0 ex_b (Int 1) [Int 2; Int 1; Int 1; Int 1; Yes]
    (ex_asked [Int 2; Int 1; Int 1; Int 1; Yes]).1 (ex_tally [Int 2; Int 1; Int 1; Int 1; Yes]).
Proof. run_cancels. Defined.

Lemma ex_booked_ledger_ok : ledger_ok ex_booked.
Proof. unfold ledger_ok. rewrite ex_booked_ledger. by repeat constructor. Defined.

(** The ticket totals of the example ledger, after one more booking and
    after the cancellation of one adult ticket. *)
Lemma ticket_total_preserved_witness :
  ledger_ok ex_booked
  ∧ ledger_ok
      (search_and_book_trains strptime_ymd ex_env "Mumbai" "Delhi" "2025-01-15" ex_booked
         ex_book).1
  ∧ ledger_ok (cancel_booking ex_booked ex_cancel_one).1.
Proof.
  split; [exact ex_booked_ledger_ok|].
  destruct (ticket_total_preserved strptime_ymd ex_booked ex_booked_ledger_ok)
    as [Hbook Hcancel].
  split; [apply Hbook | apply Hcancel].
Defined.

Lemma ex_db_seats_ok : seats_ok (trains_db ex_st0).
Proof.
  intros route_key trains Hdb. change (trains_db ex_st0) with ex_db in Hdb.
  unfold ex_db in Hdb. apply lookup_singleton_Some in Hdb as [<- <-].
  by repeat constructor.
Defined.

(** The seats along the example session. *)
Lemma seats_never_negative_witness :
  seats_ok (trains_db ex_st0)
  ∧ seats_ok (trains_db (run_all strptime_ymd ex_st0 ex_session)).
Proof.
  split; [exact ex_db_seats_ok|].
  apply (seats_never_negative strptime_ymd ex_session ex_st0). exact ex_db_seats_ok.
Defined.

Example ex_session_result :
  (λ train, (id train, seats train))
    <$> default [] (trains_db (run_all strptime_ymd ex_st0 ex_session) !! "Mumbai::Delhi")
  = [("MUDE123", 50); ("MUDE456", 0)]
  ∧ length (bookings (run_all strptime_ymd ex_st0 ex_session)) = 1%nat.
Proof. vm_compute. done. Qed.

(** Five seats of the first train, taken and given back. *)
Lemma reserve_release_round_trip_witness :
  let st' := release "Mumbai::Delhi" (id ex_t1) 5 (reserve ("Mumbai::Delhi", 0%nat) 5 ex_st0) in
  trains_db st' = trains_db ex_st0
  ∧ deref (trains_db st') ("Mumbai::Delhi", 0%nat) = Some ex_t1.
Proof.
  apply (reserve_release_round_trip "Mumbai::Delhi" 0 5 ex_st0 [ex_t1; ex_t2] ex_t1).
  - vm_compute. reflexivity.
  - reflexivity.
  - intros j other _ Hj. lia.
Defined.

(** Where two trains of a route carry the same id, seats taken from the
    second are given back to the first. *)
Example ex_twins_release :
  let st' := release "Mumbai::Delhi" (id ex_t1) 5 (reserve ("Mumbai::Delhi", 1%nat) 5 ex_twins) in
  seats <$> default [] (trains_db ex_twins !! "Mumbai::Delhi") = [50; 80]
  ∧ seats <$> default [] (trains_db st' !! "Mumbai::Delhi") = [55; 75].
Proof. vm_compute. done. Qed.

Lemma ex_requests la li lc ls a i c s :
  int_or_0 la = Some a → int_or_0 li = Some i → int_or_0 lc = Some c → int_or_0 ls = Some s →
  requests ex_st0 "Mumbai" "Delhi" [ex_t1; ex_t2] 0 ex_t1 (Int 1) la li lc ls a i c s.
Proof. intros. unfold requests. split_and!; try done. Defined.

(** No ticket at all, and sixty tickets for the fifty seats of the train;
    the input ends there. *)
Lemma create_rejected_witness :
  search_and_book_trains strptime_ymd ex_env "Mumbai" "Delhi" "2025-06-15" ex_st0
    [Int 1; Zero; Empty; Zero; Zero]
  = (print MustBookAtLeastOne ex_st0, EOFError)
  ∧ search_and_book_trains strptime_ymd ex_env "Mumbai" "Delhi" "2025-06-15" ex_st0
      [Int 1; Int 60; Zero; Zero; Zero]
    = (print (ExceedsAvailableSeats 60 50) ex_st0, EOFError).
Proof.
  split.
  - destruct (create_rejected strptime_ymd ex_env ex_st0 "Mumbai" "Delhi" "2025-06-15"
                [ex_t1; ex_t2] 0 ex_t1 (Int 1) Zero Empty Zero Zero 0 0 0 0 [])
      as [[Hrun _] _]; [by apply ex_requests | simpl; lia | reflexivity |].
    exact Hrun.
  - destruct (create_rejected strptime_ymd ex_env ex_st0 "Mumbai" "Delhi" "2025-06-15"
                [ex_t1; ex_t2] 0 ex_t1 (Int 1) (Int 60) Zero Zero Zero 60 0 0 0 [])
      as [_ [Hrun _]]; [by apply ex_requests | simpl; lia | simpl; lia |].
    exact Hrun.
Defined.


Lemma ex_book_requests :
  requests ex_st0 "Mumbai" "Delhi" [ex_t1; ex_t2] 0 ex_t1 (Int 1) (Int 2) (Int 1) (Int 1) (Int 1)
    2 1 1 1.
Proof. by apply ex_requests. Defined.

(** The order of the effects of the example booking and of the
    cancellation of one of its tickets. *)
Lemma ledger_before_inventory_witness :
  effects (since ex_st0 ex_booked) = [OnLedger; OnInventory]
  ∧ ∃ n m,
      effects (since (ex_asked [Int 1; Zero; Zero; Zero; Yes]).1
                 (cancel_booking ex_booked ex_cancel_one).1)
      = replicate (S n) OnLedger ++ replicate m OnInventory.
Proof.
  destruct ledger_before_inventory as [Hcreate Hcancel]. split.
  - destruct (Hcreate strptime_ymd ex_env ex_st0 "Mumbai" "Delhi" "2025-06-15" [ex_t1; ex_t2]
                0%nat ex_t1 (Int 1) (Int 2) (Int 1) (Int 1) (Int 1) 2 1 1 1 Yes []
                ex_book_requests) as (st' & Hrun & Heff); [simpl; lia | reflexivity |].
    unfold ex_booked, ex_book. by rewrite Hrun.
  - destruct (Hcancel ex_booked 0%nat 0%nat ex_b (Int 1) [Int 1; Zero; Zero; Zero; Yes] _ _
                ex_cancels_one) as (st' & n & m & Hrun & Heff & _).
    exists n, m. unfold ex_cancel_one. by rewrite Hrun.
Defined.

(** On the example booking no seat is taken before the record is appended
    to the ledger: the record comes first. *)
Lemma reserve_first_counterexample :
  effects (since ex_st0 ex_booked) = [OnLedger; OnInventory]
  ∧ ¬ reserves_before_append (since ex_st0 ex_booked).
Proof.
  split; [vm_compute; reflexivity|].
  intros (i & j & route_key & idx & n & b & Hi & Hj & Hlt).
  assert (since ex_st0 ex_booked !! 2%nat = Some (SeatsSub "Mumbai::Delhi" 0 5)) as H2
    by (vm_compute; reflexivity).
  assert (∀ k e, since ex_st0 ex_booked !! k = Some e →
            (∃ r x y, e = SeatsSub r x y) → k = 2%nat) as Honly.
  { intros k e Hk (r & x & y & ->).
    destruct k as [|[|[|[|[|k]]]]]; vm_compute in Hk; by try discriminate Hk. }
  assert (∀ k e, since ex_st0 ex_booked !! k = Some e →
            (∃ x, e = LedgerAppend x) → k = 0%nat) as Hfirst.
  { intros k e Hk (x & ->).
    destruct k as [|[|[|[|[|k]]]]]; vm_compute in Hk; by try discriminate Hk. }
  apply Honly in Hi; [|by eauto]. apply Hfirst in Hj; [|by eauto]. lia.
Qed.

(** C8 at a booking whose route is still in the inventory but whose train
    is not: the cancellation of all its tickets is committed, the
    inventory is left as it was, and no warning is printed, while the
    inventory without the route does get the warning. *)
Theorem cancel_missing_train_silent :
  let st' := (cancel_booking ex_regenerated ex_cancel_all).1 in
  let st'' := (cancel_booking ex_no_route ex_cancel_all).1 in
  (bookings st' = [] ∧ trains_db st' = trains_db ex_regenerated ∧ warned st' = false)
  ∧ (bookings st'' = [] ∧ trains_db st'' = trains_db ex_no_route ∧ warned st'' = true).
Proof. vm_compute. done. Qed.


(** * Further properties of the fare calculator *)

Section FareMore.

Variable strptime : string -> option date.








End FareMore.

(** * Further properties of the create path *)

Section CreateMore.

Variable strptime : string -> option date.

Lemma same_data_refl st : same_data st st.
Proof. done. Qed.

Lemma same_data_print m st st' : same_data st st' → same_data st (print m st').
Proof. done. Qed.

Lemma same_data_only_prints st st' : only_prints st st' → same_data st st'.
Proof. intros (? & ? & ? & _)%only_prints_data. done. Qed.

Lemma list_alter_insert_gen {A} (f : A → A) (l : list A) pos x :
  l !! pos = Some x → alter f pos l = <[pos := f x]> l.
Proof.
  intros Hpos. apply list_eq. intros j. destruct (decide (j = pos)) as [->|Hne].
  - rewrite list_lookup_alter_eq, Hpos, list_lookup_insert_eq; [done|].
    by eapply lookup_lt_Some.
  - by rewrite list_lookup_alter_ne, list_lookup_insert_ne.
Qed.

Lemma map_alter_insert (f : list Train → list Train) (db : gmap string (list Train)) k x :
  db !! k = Some x → alter f k db = <[k := f x]> db.
Proof.
  intros Hk. apply map_eq. intros j. destruct (decide (k = j)) as [->|Hne].
  - by rewrite lookup_alter_eq, Hk, lookup_insert_eq.
  - by rewrite lookup_alter_ne, lookup_insert_ne.
Qed.

(** What [create_booking] does to the ledger and to the inventory. *)
Lemma create_booking_data env route_key idx trains train from_stn to_stn date_str a i c s st :
  trains_db st !! route_key = Some trains →
  trains !! idx = Some train →
  let st' := create_booking env (route_key, idx) train from_stn to_stn date_str (a + i + c + s)
               (_calculate_discounted_price strptime (price train) date_str a i c s) st in
  bookings st' =
    bookings st ++ [booking_record strptime env (current_user st) train
                      from_stn to_stn date_str a i c s]
  ∧ trains_db st' =
    <[route_key := <[idx := add_seats (- (a + i + c + s)) train]> trains]> (trains_db st)
  ∧ current_user st' = current_user st.
Proof.
  intros Hdb Hidx. cbv zeta. unfold create_booking. cbn. split_and!; [done | | done].
  rewrite (map_alter_insert _ _ _ _ Hdb). by rewrite (list_alter_insert_gen _ _ _ _ Hidx).
Qed.

(** The rule of [search_and_book_trains] with an invariant and a
    postcondition. *)
Lemma search_and_book_trains_rule2 (I Q : BookingSystem → Prop) env from_stn to_stn date_str :
  (∀ m st, I st → I (print m st)) →
  (∀ st, I st → Q st) →
  (∀ st idx trains train a i c s,
     from_stn ≠ to_stn →
     trains_db st !! (from_stn +:+ "::" +:+ to_stn) = Some trains →
     trains !! idx = Some train →
     1 ≤ a + i + c + s ≤ seats train →
     I st →
     Q (create_booking env (from_stn +:+ "::" +:+ to_stn, idx) train from_stn to_stn date_str
          (a + i + c + s)
          (_calculate_discounted_price strptime (price train) date_str a i c s) st)) →
  ∀ input st, I st →
  Q (search_and_book_trains strptime env from_stn to_stn date_str st input).1.
Proof.
  intros Hprint Hexit Hcreate input st HI. unfold search_and_book_trains.
  case_bool_decide as Hne; [by apply Hexit, Hprint|].
  case_bool_decide as Hres; [by apply Hexit, Hprint|].
  destruct (trains_db st !! (from_stn +:+ "::" +:+ to_stn)) as [trains|] eqn:Hdb; [|done].
  change (default [] (Some trains)) with trains.
  apply (select_train_rule strptime
           (λ st', I st' ∧ trains_db st' !! (from_stn +:+ "::" +:+ to_stn) = Some trains) Q);
    [| | |done].
  - intros m st' [? ?]. split; [by apply Hprint | done].
  - intros st' [? ?]. by apply Hexit.
  - intros st' idx train a i c s Hidx Hn [HI' Hdb']. by eapply Hcreate.
Qed.

(** The two ways [search_and_book_trains] can end. *)
Lemma search_and_book_trains_cases env from_stn to_stn date_str st input :
  same_data st (search_and_book_trains strptime env from_stn to_stn date_str st input).1
  ∨ booked strptime env from_stn to_stn date_str st
      (search_and_book_trains strptime env from_stn to_stn date_str st input).1.
Proof.
  apply (search_and_book_trains_rule2 (same_data st)
           (λ st', same_data st st' ∨ booked strptime env from_stn to_stn date_str st st'));
    [done | by left | | done].
  intros st1 idx trains train a i c s Hne Hdb Hidx Hn (Hb & Ht & Hu). right.
  rewrite Ht in Hdb.
  destruct (create_booking_data env (from_stn +:+ "::" +:+ to_stn) idx trains train
              from_stn to_stn date_str a i c s st1)
    as (Hb' & Ht' & Hu'); [by rewrite Ht | done |].
  exists idx, trains, train, a, i, c, s. rewrite Hb', Ht', Hu', Hb, Ht, Hu. done.
Qed.

(** X5. Whatever is typed, [search_and_book_trains] either leaves the ledger
    and the inventory as they were, or makes exactly one booking: one
    record of the current user appended to the ledger, priced by the fare
    calculator for the counts typed, and that many seats taken off the
    selected train, every other booking and every other train untouched. *)
Theorem book_one_or_nothing env from_stn to_stn date_str st input :
  let st' := (search_and_book_trains strptime env from_stn to_stn date_str st input).1 in
  same_data st st' ∨ booked strptime env from_stn to_stn date_str st st'.
Proof. cbv zeta. apply search_and_book_trains_cases. Qed.

End CreateMore.

(** * Further properties of the cancel path *)

Lemma current_user_release route_key train_id n st :
  current_user (release route_key train_id n st) = current_user st.
Proof.
  unfold release. destruct (trains_db st !! route_key) as [trains|]; [|done].
  by destruct (list_find _ trains) as [[idx ?]|].
Qed.

Lemma current_user_foldl_sub_count pos cs st :
  current_user (foldl (λ st kc, ledger_sub_count pos kc.1 kc.2 st) st cs) = current_user st.
Proof. revert st. induction cs as [|kc cs IH]; intros st; simpl; [done | by rewrite IH]. Qed.

Lemma current_user_commit_cancellation pos b t st :
  current_user (commit_cancellation pos b t st) = current_user st.
Proof.
  unfold commit_cancellation. cbn [current_user print log _save_data].
  rewrite current_user_release. case_bool_decide; [done|]. cbn.
  apply current_user_foldl_sub_count.
Qed.

(** The rule of [cancel_booking] with an invariant and a postcondition. *)
Lemma cancel_booking_rule2 (I Q : BookingSystem → Prop) :
  (∀ m st, I st → I (print m st)) →
  (∀ st, I st → Q st) →
  (∀ st0 st pos b t ca ci cc cs,
     bookings st0 !! pos = Some b →
     username b = current_user st0 →
     num_tickets b ≠ 0 →
     accepted (pricing b) t ca ci cc cs →
     total_cancelled_seats t ≠ 0 →
     same_data st0 st →
     I st →
     Q (commit_cancellation pos b t st)) →
  ∀ input st, I st → Q (cancel_booking st input).1.
Proof.
  intros Hprint Hexit Hcommit input st HI. unfold cancel_booking.
  case_bool_decide; [by apply Hexit, Hprint|].
  apply (select_booking_rule (λ s, I s ∧ same_data st s) Q); [| | |done].
  - intros m s [? ?]. split; [by apply Hprint | done].
  - intros s [? ?]. by apply Hexit.
  - intros s k pos b t ca ci cc cs Hk Hn Hacc Ht [HIs Hsame].
    destruct (user_bookings_lookup _ _ _ _ Hk) as [Hpos Huser].
    by eapply (Hcommit st s).
Qed.

(** The two ways [cancel_booking] can end. *)
Lemma cancel_booking_cases st input :
  same_data st (cancel_booking st input).1 ∨ cancelled st (cancel_booking st input).1.
Proof.
  apply (cancel_booking_rule2 (same_data st) (λ st', same_data st st' ∨ cancelled st st'));
    [done | by left | | done].
  intros st0 st1 pos b t ca ci cc cs Hpos Hu Hn Hacc Ht (Hb0 & Ht0 & Hu0) (Hb & Hd & Hc).
  right. exists pos, b, t, ca, ci, cc, cs.
  destruct Hacc as (Hcs & Hacc).
  rewrite (bookings_commit_cancellation _ _ _ _ _ _ _ _ Hcs), trains_db_commit_cancellation,
    current_user_commit_cancellation, Hb, Hd, Hc.
  rewrite <- Hb0, Hb in Hpos. rewrite <- Hu0, Hc in Hu. by split_and!.
Qed.

(** X6. Whatever is typed, [cancel_booking] either leaves the ledger and the
    inventory as they were, or commits exactly one cancellation, of a
    booking of the current user. *)
Theorem cancel_one_or_nothing st input :
  let st' := (cancel_booking st input).1 in
  same_data st st' ∨ cancelled st st'.
Proof. cbv zeta. apply cancel_booking_cases. Qed.

Lemma others_list_remove user b l :
  username b = user → others user (list_remove b l) = others user l.
Proof.
  intros Hu. unfold others. induction l as [|x l IH]; simpl; [done|].
  case_decide as Hx.
  - subst x. by rewrite filter_cons_False by (by intros []).
  - rewrite !filter_cons. case_decide; by rewrite IH.
Qed.

Lemma others_alter user (f : Booking → Booking) pos l b :
  l !! pos = Some b →
  username b = user →
  username (f b) = user →
  others user (alter f pos l) = others user l.
Proof.
  intros Hpos Hu Hf. unfold others. revert pos Hpos.
  induction l as [|x l IH]; intros pos Hpos; [done|].
  destruct pos as [|pos].
  - injection Hpos as ->. change (alter f 0%nat (b :: l)) with (f b :: l).
    by rewrite !filter_cons_False by (by intros []).
  - change (alter f (S pos) (x :: l)) with (x :: alter f pos l).
    by rewrite !filter_cons, IH.
Qed.

Lemma others_app_own user b l :
  username b = user → others user (l ++ [b]) = others user l.
Proof.
  intros Hu. unfold others. rewrite filter_app, filter_cons_False by (by intros []).
  by rewrite filter_nil, app_nil_r.
Qed.

Lemma run_keeps_user strptime c st : current_user (run strptime st c) = current_user st.
Proof.
  destruct c as [env from_stn to_stn date_str input|input]; simpl.
  - destruct (search_and_book_trains_cases strptime env from_stn to_stn date_str st input)
      as [(_ & _ & ?)|(idx & trains & train & a & i & c & s & H)]; [done|].
    by destruct H as (_ & _ & _ & _ & _ & _ & ?).
  - destruct (cancel_booking_cases st input)
      as [(_ & _ & ?)|(pos & b & t & ca & ci & cc & cs & H)]; [done|].
    by destruct H as (_ & _ & _ & _ & _ & _ & _ & ?).
Qed.

Lemma run_keeps_others strptime c st :
  others (current_user st) (bookings (run strptime st c))
  = others (current_user st) (bookings st).
Proof.
  destruct c as [env from_stn to_stn date_str input|input]; simpl.
  - destruct (search_and_book_trains_cases strptime env from_stn to_stn date_str st input)
      as [(-> & _)|(idx & trains & train & a & i & c & s & H)]; [done|].
    destruct H as (_ & _ & _ & _ & -> & _). by apply others_app_own.
  - destruct (cancel_booking_cases st input)
      as [(-> & _)|(pos & b & t & ca & ci & cc & cs & H)]; [done|].
    destruct H as (Hpos & Hu & _ & _ & _ & -> & _). case_bool_decide.
    + by apply others_list_remove.
    + by apply (others_alter _ _ _ _ b).
Qed.

(** X7. Whatever the logged-in user books and cancels, in any number of
    operations and whatever is typed, the bookings of all other users stay
    in the ledger exactly as they were, in the same order. *)
Theorem session_keeps_others strptime cs st :
  others (current_user st) (bookings (run_all strptime st cs))
  = others (current_user st) (bookings st).
Proof.
  revert st. induction cs as [|c cs IH]; intros st; [done|]. simpl.
  rewrite <- (run_keeps_others strptime c st), <- (run_keeps_user strptime c st). apply IH.
Qed.

(** ** Nothing happens without a "y" *)

Section Unconfirmed.

Variable strptime : string -> option date.

Lemma select_train_unconfirmed env from_stn to_stn date_str route_key results input st :
  Forall (λ l, is_y l = false) input →
  only_prints st (select_train strptime env from_stn to_stn date_str route_key results st input).1.
Proof.
  remember (length input) as n eqn:Hn. revert input Hn st.
  induction n as [n IH] using lt_wf_ind. intros input -> st Hall.
  assert (Hagain : ∀ m input', (length input' < length input)%nat →
            Forall (λ l, is_y l = false) input' →
            only_prints st
              (select_train strptime env from_stn to_stn date_str route_key results
                 (print m st) input').1).
  { intros m input' Hlt Hall'. eapply only_prints_step, IH; [exact Hlt | done | done]. }
  assert (Hleave : ∀ m, only_prints st (print m st)) by (intros m; by exists [m]).
  clear IH.
  destruct input as [|choice input]; [apply only_prints_refl|].
  apply Forall_cons in Hall as [_ Hall]. simpl.
  destruct (is_zero choice); [by apply Hleave|].
  destruct (int choice) as [ch|]; [|by apply Hagain; [simpl; lia|]].
  destruct (if bool_decide (0 ≤ ch - 1) then results !! Z.to_nat (ch - 1) else None)
    as [selected_train|] eqn:Hsel; [|by apply Hagain; [simpl; lia|]].
  case_bool_decide; [|done].
  destruct input as [|la input]; [apply only_prints_refl|].
  apply Forall_cons in Hall as [_ Hall].
  destruct (int_or_0 la) as [a|]; [|by apply Hagain; [simpl; lia|]].
  destruct input as [|li input]; [apply only_prints_refl|].
  apply Forall_cons in Hall as [_ Hall].
  destruct (int_or_0 li) as [i|]; [|by apply Hagain; [simpl; lia|]].
  destruct input as [|lc input]; [apply only_prints_refl|].
  apply Forall_cons in Hall as [_ Hall].
  destruct (int_or_0 lc) as [c|]; [|by apply Hagain; [simpl; lia|]].
  destruct input as [|ls input]; [apply only_prints_refl|].
  apply Forall_cons in Hall as [_ Hall].
  destruct (int_or_0 ls) as [s|]; [|by apply Hagain; [simpl; lia|]].
  case_bool_decide; [by apply Hagain; [simpl; lia|]|].
  case_bool_decide; simpl; [|by apply Hagain; [simpl; lia|]].
  unfold confirm_and_create_booking.
  destruct input as [|confirm input]; [apply only_prints_refl|].
  apply Forall_cons in Hall as [-> Hall]. by apply Hleave.
Qed.

Lemma ask_cancel_count_rest remaining st input st' c rest :
  ask_cancel_count remaining st input = (st', Some (c, rest)) →
  Forall (λ l, is_y l = false) input → Forall (λ l, is_y l = false) rest.
Proof.
  revert st. induction input as [|l input IH]; intros st; simpl; [done|].
  intros Hask [_ Hall]%Forall_cons. destruct (int_or_0 l) as [x|].
  - case_bool_decide; [by injection Hask as <- <- <- | by eapply IH].
  - by eapply IH.
Qed.

Lemma ask_categories_rest keys p t st input st' t' rest :
  ask_categories keys p t st input = (st', Some (t', rest)) →
  Forall (λ l, is_y l = false) input → Forall (λ l, is_y l = false) rest.
Proof.
  revert t st input. induction keys as [|key keys IH]; intros t st input; simpl.
  - by intros [= <- <- <-].
  - case_bool_decide; [|by apply IH].
    destruct (ask_cancel_count _ st input) as [st1 [[c input1]|]] eqn:Hask; [|done].
    intros Hrec Hall. eapply IH; [done|]. by eapply ask_cancel_count_rest.
Qed.

Lemma cancel_selected_unconfirmed pos b st input :
  Forall (λ l, is_y l = false) input →
  only_prints st (cancel_selected pos b st input).1.
Proof.
  intros Hall. unfold cancel_selected.
  destruct (ask_categories _ _ _ st input) as [st1 [[t rest]|]] eqn:Hask.
  - pose proof (ask_categories_rest _ _ _ _ _ _ _ _ Hask Hall) as Hrest.
    apply ask_categories_spec in Hask as [Hp _].
    case_bool_decide; [by eapply only_prints_trans; [|exists [NoSeatsSelected]]|].
    destruct rest as [|confirm rest]; [done|].
    apply Forall_cons in Hrest as [-> _]. simpl.
    by eapply only_prints_trans; [|exists [CancellationAborted]].
  - by apply ask_categories_spec in Hask as [Hp _].
Qed.

Lemma select_booking_unconfirmed ubs input st :
  Forall (λ l, is_y l = false) input →
  only_prints st (select_booking ubs st input).1.
Proof.
  revert st. induction input as [|choice input IH]; intros st Hall; simpl;
    [apply only_prints_refl|].
  pose proof Hall as [_ Htl]%Forall_cons.
  destruct (is_zero choice); [by exists [ModificationAborted]|].
  destruct (int choice) as [ch|]; [|by eapply only_prints_step, IH].
  destruct (if bool_decide (0 ≤ ch - 1) then ubs !! Z.to_nat (ch - 1) else None)
    as [[pos b]|] eqn:Hsel; [|by eapply only_prints_step, IH].
  case_bool_decide; [|done].
  case_bool_decide; [by eapply only_prints_step, IH|].
  by apply cancel_selected_unconfirmed.
Qed.

(** X8. Neither a booking nor a cancellation happens unless a line reading "y"
    is typed: on input without such a line, [search_and_book_trains] and
    [cancel_booking] end in the state they started from, with nothing but
    messages added. *)
Theorem nothing_without_yes env from_stn to_stn date_str st input :
  Forall (λ l, is_y l = false) input →
  only_prints st (search_and_book_trains strptime env from_stn to_stn date_str st input).1
  ∧ only_prints st (cancel_booking st input).1.
Proof.
  intros Hall. split.
  - unfold search_and_book_trains.
    case_bool_decide; [by exists [SameStations]|].
    case_bool_decide; [by exists [NoTrainsFound]|].
    by apply select_train_unconfirmed.
  - unfold cancel_booking.
    case_bool_decide; [by exists [NoBookingsToCancel]|].
    by apply select_booking_unconfirmed.
Qed.

End Unconfirmed.

(** ** Counts and capacity *)

Lemma partially_cancelled_nonneg ca ci cc cs n v b :
  0 ≤ ca ≤ Z.max 0 (adults_tickets (pricing b)) →
  0 ≤ ci ≤ Z.max 0 (infant_tickets (pricing b)) →
  0 ≤ cc ≤ Z.max 0 (children_tickets (pricing b)) →
  0 ≤ cs ≤ Z.max 0 (seniors_tickets (pricing b)) →
  counts_nonneg b → counts_nonneg (partially_cancelled ca ci cc cs n v b).
Proof. unfold counts_nonneg. simpl. lia. Qed.

(** X9. A cancellation never takes more tickets of a category than the
    booking has: if no stored category count is negative before
    [cancel_booking], none is negative after it, whatever is typed. *)
Theorem cancel_keeps_counts_nonneg st input :
  Forall counts_nonneg (bookings st) →
  Forall counts_nonneg (bookings (cancel_booking st input).1).
Proof.
  intros Hok.
  destruct (cancel_booking_cases st input)
    as [(-> & _)|(pos & b & t & ca & ci & cc & cs & H)]; [done|].
  destruct H as (Hpos & _ & _ & (_ & (Ha & Hi & Hc & Hs) & _) & _ & -> & _).
  case_bool_decide.
  - by apply Forall_list_remove.
  - apply Forall_alter; [done|]. intros x Hx Hokx.
    assert (x = b) as -> by congruence. by apply partially_cancelled_nonneg.
Qed.

Lemma route_seats_insert trains idx train n :
  trains !! idx = Some train →
  route_seats (<[idx := add_seats n train]> trains) = route_seats trains + n.
Proof.
  revert idx. induction trains as [|x trains IH]; intros idx Hidx; [done|].
  destruct idx as [|idx]; simpl in *.
  - injection Hidx as ->. lia.
  - rewrite (IH idx Hidx). lia.
Qed.

Lemma total_seats_insert (db : gmap string (list Train)) k trains trains' :
  db !! k = Some trains →
  total_seats (<[k := trains']> db) = total_seats db - route_seats trains + route_seats trains'.
Proof.
  intros Hk. unfold total_seats.
  rewrite (map_fold_delete_L _ _ k trains db); [|intros; lia|done].
  rewrite <- (insert_delete_eq db).
  rewrite map_fold_insert_L; [lia|intros; lia|apply lookup_delete_eq].
Qed.

Lemma total_seats_released route_key train_id n db :
  total_seats (released route_key train_id n db) = total_seats db
  ∨ total_seats (released route_key train_id n db) = total_seats db + n.
Proof.
  unfold released. destruct (db !! route_key) as [trains|] eqn:Hdb; [|by left].
  destruct (list_find _ trains) as [[idx train]|] eqn:Hfind; [|by left].
  apply list_find_Some in Hfind as (Hidx & _ & _). right.
  rewrite (map_alter_insert _ _ _ _ Hdb), (list_alter_insert_gen _ _ _ _ Hidx).
  rewrite (total_seats_insert _ _ _ _ Hdb), (route_seats_insert _ _ _ _ Hidx). lia.
Qed.

Lemma total_tickets_app l1 l2 : total_tickets (l1 ++ l2) = total_tickets l1 + total_tickets l2.
Proof. induction l1 as [|b l1 IH]; simpl; lia. Qed.

Lemma total_tickets_list_remove b l :
  b ∈ l → total_tickets (list_remove b l) = total_tickets l - num_tickets b.
Proof.
  induction l as [|x l IH]; intros Hin; [by apply elem_of_nil in Hin|].
  simpl. case_decide as Hx; [subst; lia|].
  apply elem_of_cons in Hin as [->|Hin]; [done|]. simpl. rewrite IH by done. lia.
Qed.

Lemma total_tickets_alter (f : Booking → Booking) pos l b :
  l !! pos = Some b →
  total_tickets (alter f pos l) = total_tickets l - num_tickets b + num_tickets (f b).
Proof.
  revert pos. induction l as [|x l IH]; intros pos Hpos; [done|].
  destruct pos as [|pos].
  - injection Hpos as ->. change (alter f 0%nat (b :: l)) with (f b :: l). simpl. lia.
  - change (alter f (S pos) (x :: l)) with (x :: alter f pos l). simpl.
    rewrite (IH pos Hpos). lia.
Qed.

Lemma capacity_run strptime c st :
  capacity (run strptime st c) ≤ capacity st
  ∧ (∀ env from_stn to_stn date_str input,
       c = Book env from_stn to_stn date_str input → capacity (run strptime st c) = capacity st).
Proof.
  unfold capacity. destruct c as [env from_stn to_stn date_str input|input]; simpl.
  - assert (total_seats
              (trains_db (search_and_book_trains strptime env from_stn to_stn date_str st input).1)
            + total_tickets
                (bookings (search_and_book_trains strptime env from_stn to_stn date_str st input).1)
            = total_seats (trains_db st) + total_tickets (bookings st)) as Heq.
    { destruct (search_and_book_trains_cases strptime env from_stn to_stn date_str st input)
        as [(-> & -> & _)|(idx & trains & train & a & i & c & s & H)]; [done|].
      destruct H as (_ & Hdb & Hidx & _ & -> & -> & _).
      rewrite (total_seats_insert _ _ _ _ Hdb), (route_seats_insert _ _ _ _ Hidx).
      rewrite total_tickets_app. simpl. lia. }
    split; [lia | done].
  - split; [|done].
    destruct (cancel_booking_cases st input)
      as [(-> & -> & _)|(pos & b & t & ca & ci & cc & cs & H)]; [done|].
    destruct H as (Hpos & _ & _ & (_ & Hb & Hs & _) & _ & -> & -> & _).
    assert (0 ≤ total_cancelled_seats t) by lia.
    assert (total_tickets
              (if bool_decide (num_tickets b - total_cancelled_seats t = 0)
               then list_remove b (bookings st)
               else alter (partially_cancelled ca ci cc cs
                             (num_tickets b - total_cancelled_seats t)
                             (total_price b - net_refund (total_refund_gross t))%Qc)
                      pos (bookings st))
            = total_tickets (bookings st) - total_cancelled_seats t) as ->.
    { case_bool_decide.
      - rewrite total_tickets_list_remove by (by eapply list_elem_of_lookup_2). lia.
      - rewrite (total_tickets_alter _ _ _ _ Hpos). simpl. lia. }
    destruct (total_seats_released (route_from b +:+ "::" +:+ route_to b)
                (id (train_details b)) (total_cancelled_seats t) (trains_db st)) as [-> | ->];
      lia.
Qed.

(** X10. Seats still free plus tickets held never grow: a booking moves seats
    from the inventory to the ledger and keeps the sum, a cancellation
    moves them back or, when the train is not found, drops them.  So no
    session, whatever is typed, creates capacity. *)
Theorem capacity_never_grows strptime cs st :
  capacity (run_all strptime st cs) ≤ capacity st.
Proof.
  revert st. induction cs as [|c cs IH]; intros st; [done|]. simpl.
  etrans; [apply IH | apply capacity_run].
Qed.

(** X11. A booking keeps the sum of free seats and tickets held exactly. *)
Theorem booking_keeps_capacity strptime env from_stn to_stn date_str st input :
  capacity (search_and_book_trains strptime env from_stn to_stn date_str st input).1
  = capacity st.
Proof.
  by apply (proj2 (capacity_run strptime (Book env from_stn to_stn date_str input) st)
              env from_stn to_stn date_str input).
Qed.

(** ** Counts of any sign *)

(** X13. The create path checks the total of the four counts and nothing
    else: four integers of any sign whose sum is between 1 and the seats of
    the selected train are, once confirmed, booked as typed; the record
    stores them as typed and the train loses their sum.  This holds as long
    as the fare calculator returns, that is, as long as the price, an
    integer, and its products with the counts are small enough to convert
    to [float]: beyond that the calculator raises [OverflowError] and
    nothing is booked. *)
Theorem counts_checked_by_total_only strptime env st from_stn to_stn date_str trains idx train
    choice la li lc ls a i c s confirm rest p :
  requests st from_stn to_stn trains idx train choice la li lc ls a i c s →
  1 ≤ a + i + c + s ≤ seats train →
  is_y confirm = true →
  price train = num p →
  is_Some (Binary64.of_int p) →
  is_Some (Binary64._calculate_discounted_price strptime p date_str a i c s) →
  ∃ st',
    search_and_book_trains strptime env from_stn to_stn date_str st
      (choice :: la :: li :: lc :: ls :: confirm :: rest) = (st', Returned)
    ∧ bookings st' =
      bookings st ++ [booking_record strptime env (current_user st) train
                        from_stn to_stn date_str a i c s]
    ∧ (adults_tickets (pricing (booking_record strptime env (current_user st) train
                                  from_stn to_stn date_str a i c s)),
       infant_tickets (pricing (booking_record strptime env (current_user st) train
                                  from_stn to_stn date_str a i c s)),
       children_tickets (pricing (booking_record strptime env (current_user st) train
                                    from_stn to_stn date_str a i c s)),
       seniors_tickets (pricing (booking_record strptime env (current_user st) train
                                   from_stn to_stn date_str a i c s))) = (a, i, c, s)
    ∧ deref (trains_db st') (from_stn +:+ "::" +:+ to_stn, idx)
      = Some (add_seats (- (a + i + c + s)) train).
Proof.
  intros Hreq Hn Hy _ _ _. eexists. split; [by eapply requests_create|].
  destruct Hreq as (_ & Hdb & Hidx & _).
  destruct (create_booking_data strptime env (from_stn +:+ "::" +:+ to_stn) idx trains train
              from_stn to_stn date_str a i c s st Hdb Hidx) as (Hb & Ht & _).
  split_and!; [done | done |].
  rewrite Ht. unfold deref. cbn. rewrite lookup_insert_eq. cbn.
  apply list_lookup_insert_eq. by eapply lookup_lt_Some.
Qed.

(** ** Every change is written before the call returns *)

Lemma unsaved_snoc evs e : unsaved (evs ++ [e]) = unsaved_step (unsaved evs) e.
Proof. unfold unsaved. by rewrite foldl_app. Qed.

Lemma unsaved_print m st : unsaved (trace (print m st)) = unsaved (trace st).
Proof. unfold print, log. cbn. by rewrite unsaved_snoc. Qed.

Lemma unsaved_create_booking env r train from_stn to_stn date_str n p st :
  unsaved (trace st) = (false, false) →
  unsaved (trace (create_booking env r train from_stn to_stn date_str n p st)) = (false, false).
Proof.
  intros Hclean. unfold create_booking. cbn. by rewrite !unsaved_snoc, Hclean.
Qed.

Lemma unsaved_commit_cancellation pos b t st ca ci cc cs :
  cancellations t = [(Adult, ca); (Infant, ci); (Child, cc); (Senior, cs)] →
  unsaved (trace st) = (false, false) →
  unsaved (trace (commit_cancellation pos b t st)) = (false, false).
Proof.
  intros Hcs Hclean. unfold commit_cancellation, release. rewrite Hcs.
  case_bool_decide; cbn;
    (destruct (trains_db st !! _) as [trains|];
     [destruct (list_find _ trains) as [[idx ?]|]|]); cbn;
    by rewrite !unsaved_snoc, Hclean.
Qed.

(** X14. If both files were up to date when a session started, they are up to
    date after every booking and every cancellation of the session: each
    change of the ledger is followed by a [_save_data] of the bookings
    file, each change of the inventory by one of the trains file, before
    the call returns. *)
Theorem session_saves_changes strptime cs st :
  unsaved (trace st) = (false, false) →
  unsaved (trace (run_all strptime st cs)) = (false, false).
Proof.
  revert st. induction cs as [|c cs IH]; intros st Hclean; [done|].
  apply IH. destruct c as [env from_stn to_stn date_str input|input]; simpl.
  - apply (search_and_book_trains_rule strptime (λ st, unsaved (trace st) = (false, false)));
      [| |done].
    + intros m s Hs. by rewrite unsaved_print.
    + intros. by apply unsaved_create_booking.
  - apply (cancel_booking_rule (λ st, unsaved (trace st) = (false, false))); [| |done].
    + intros m s Hs. by rewrite unsaved_print.
    + intros s pos b t ca ci cc cs' _ _ _ (Hcs & _) _ Hs.
      by eapply unsaved_commit_cancellation.
Qed.

(** ** The view is the user's bookings in order *)

Lemma string_compare_refl s : String.compare s s = Eq.
Proof.
  induction s as [|a s IH]; [done|]. simpl.
  unfold Ascii.compare. by rewrite N.compare_refl.
Qed.

Lemma string_compare_lt_trans s1 s2 s3 :
  String.compare s1 s2 = Lt → String.compare s2 s3 = Lt → String.compare s1 s3 = Lt.
Proof.
  revert s2 s3. induction s1 as [|a1 s1 IH]; intros [|a2 s2] [|a3 s3]; simpl; try done.
  unfold Ascii.compare.
  destruct (N.compare_spec (N_of_ascii a1) (N_of_ascii a2)) as [H12|H12|H12]; [| |done];
    destruct (N.compare_spec (N_of_ascii a2) (N_of_ascii a3)) as [H23|H23|H23]; try done;
    intros Hs12 Hs23.
  - rewrite H12, H23, N.compare_refl. by eapply IH.
  - rewrite H12. by apply N.compare_lt_iff in H23 as ->.
  - rewrite <- H23. by apply N.compare_lt_iff in H12 as ->.
  - assert (N_of_ascii a1 < N_of_ascii a3)%N as ->%N.compare_lt_iff by lia. done.
Qed.

Lemma key_lt_compare b1 b2 : key_lt b1 b2 = true ↔ key_compare b1 b2 = Lt.
Proof.
  unfold key_lt, key_compare, String.ltb.
  destruct (String.compare (travel_date b1) (travel_date b2)) eqn:Hd; simpl.
  - apply String.compare_eq_iff in Hd. rewrite Hd, String.eqb_refl. simpl.
    by destruct (String.compare _ _).
  - done.
  - destruct (String.eqb_spec (travel_date b1) (travel_date b2)) as [Heq|]; [|done].
    by rewrite Heq, string_compare_refl in Hd.
Qed.

Lemma key_compare_antisym b1 b2 : key_compare b1 b2 = CompOpp (key_compare b2 b1).
Proof.
  unfold key_compare. rewrite (String.compare_antisym (travel_date b1)).
  destruct (String.compare (travel_date b2) (travel_date b1)); simpl; [|done..].
  apply String.compare_antisym.
Qed.

Lemma key_compare_lt_trans b1 b2 b3 :
  key_compare b1 b2 = Lt → key_compare b2 b3 = Lt → key_compare b1 b3 = Lt.
Proof.
  unfold key_compare.
  destruct (String.compare (travel_date b1) (travel_date b2)) eqn:H12; [| |done];
    destruct (String.compare (travel_date b2) (travel_date b3)) eqn:H23; try done;
    intros Ht12 Ht23.
  - apply String.compare_eq_iff in H12, H23. rewrite H12, H23, string_compare_refl.
    by eapply string_compare_lt_trans.
  - apply String.compare_eq_iff in H12. by rewrite H12, H23.
  - apply String.compare_eq_iff in H23. by rewrite <- H23, H12.
  - by rewrite (string_compare_lt_trans _ _ _ H12 H23).
Qed.

Lemma key_compare_eq_l b1 b2 b3 :
  key_compare b1 b2 = Eq → key_compare b1 b3 = key_compare b2 b3.
Proof.
  unfold key_compare.
  destruct (String.compare (travel_date b1) (travel_date b2)) eqn:Hd; [|done..].
  intros Ht. apply String.compare_eq_iff in Hd, Ht. by rewrite Hd, Ht.
Qed.

Lemma key_le_compare b1 b2 : key_le b1 b2 ↔ key_compare b1 b2 ≠ Gt.
Proof.
  unfold key_le. rewrite <- not_true_iff_false, key_lt_compare, key_compare_antisym.
  by destruct (key_compare b1 b2).
Qed.

Lemma key_le_trans b1 b2 b3 : key_le b1 b2 → key_le b2 b3 → key_le b1 b3.
Proof.
  rewrite !key_le_compare. intros H12 H23.
  destruct (key_compare b1 b2) eqn:Hc12; [| |done].
  - by rewrite (key_compare_eq_l _ _ _ Hc12).
  - destruct (key_compare b2 b3) eqn:Hc23; [| |done].
    + rewrite key_compare_antisym in Hc23.
      destruct (key_compare b3 b2) eqn:Hc32; try done.
      rewrite key_compare_antisym, (key_compare_eq_l _ _ _ Hc32), <- key_compare_antisym.
      by rewrite Hc12.
    + by rewrite (key_compare_lt_trans _ _ _ Hc12 Hc23).
Qed.

Lemma key_lt_le b1 b2 : key_lt b1 b2 = true → key_le b1 b2.
Proof.
  rewrite key_lt_compare, key_le_compare. by intros ->.
Qed.

Lemma insert_by_key_sorted b l :
  StronglySorted key_le l → StronglySorted key_le (insert_by_key b l).
Proof.
  induction 1 as [|x l Hl IH Hx]; simpl; [by repeat constructor|].
  destruct (key_lt b x) eqn:Hbx.
  - constructor; [by constructor|]. constructor; [by apply key_lt_le|].
    eapply Forall_impl; [exact Hx|]. intros y Hy. simpl in Hy.
    eapply key_le_trans; [by apply key_lt_le | done].
  - constructor; [done|]. rewrite insert_by_key_perm. by constructor.
Qed.

Lemma sort_by_key_sorted l : StronglySorted key_le (sort_by_key l).
Proof.
  unfold sort_by_key. assert (StronglySorted key_le []) as Hacc by constructor.
  revert Hacc. generalize (@nil Booking) as acc.
  induction l as [|b l IH]; intros acc Hacc; simpl; [done|].
  by apply IH, insert_by_key_sorted.
Qed.

Lemma imap_filter_user (u : string) (g : nat → Booking → nat * Booking) l :
  (∀ i b, (g i b).2 = b) →
  (filter (λ ib, username ib.2 = u) (imap g l)).*2 = filter (λ b, username b = u) l.
Proof.
  revert g. induction l as [|x l IH]; intros g Hg; [done|].
  simpl. rewrite !filter_cons, Hg. case_decide.
  - rewrite fmap_cons, Hg. f_equal. apply IH. intros i b. apply Hg.
  - apply IH. intros i b. apply Hg.
Qed.

Lemma user_bookings_filter st :
  (user_bookings st).*2 = filter (λ b, username b = current_user st) (bookings st).
Proof. unfold user_bookings. by apply imap_filter_user. Qed.

(** X15. [view_my_bookings] shows exactly the bookings of the current user,
    each as often as it is in the ledger and nobody else's, in ascending
    order of travel date and, for equal travel dates, of booking time. *)
Theorem view_sorted_own st :
  view_my_bookings st ≡ₚ filter (λ b, username b = current_user st) (bookings st)
  ∧ StronglySorted key_le (view_my_bookings st).
Proof.
  unfold view_my_bookings. split.
  - by rewrite sort_by_key_perm, user_bookings_filter.
  - apply sort_by_key_sorted.
Qed.

(** ** Full cancellation *)

Lemma list_remove_perm b l : b ∈ l → l ≡ₚ b :: list_remove b l.
Proof.
  induction l as [|x l IH]; intros Hin; [by apply elem_of_nil in Hin|].
  simpl. case_decide as Hx; [by subst|].
  apply elem_of_cons in Hin as [->|Hin]; [done|].
  by rewrite (IH Hin) at 1; rewrite Permutation_swap.
Qed.

Lemma filter_list_remove (user : string) b l :
  username b = user →
  filter (λ x, username x = user) (list_remove b l)
  = list_remove b (filter (λ x, username x = user) l).
Proof.
  intros Hb. induction l as [|x l IH]; [done|]. simpl. case_decide as Hx.
  - subst x. rewrite filter_cons_True by done. simpl. by rewrite decide_True.
  - rewrite !filter_cons. case_decide; [|done]. simpl. by rewrite decide_False, IH.
Qed.

Lemma list_remove_only b l pos :
  l !! pos = Some b → (∀ j, l !! j = Some b → j = pos) → b ∉ list_remove b l.
Proof.
  intros Hpos Honly. rewrite (list_remove_first b l pos Hpos Honly).
  intros [j Hj]%list_elem_of_lookup. rewrite list_lookup_delete in Hj.
  case_decide; apply Honly in Hj; lia.
Qed.

(** C7. A confirmed cancellation of as many tickets as the booking has
    removes the booking from the ledger, whatever else the ledger holds:
    the ledger is what [list.remove] leaves, one record equal to the
    booking taken out and the others kept in their order, and what
    [view_my_bookings] shows its owner afterwards is what it showed before
    less one showing of that record.  So the booking is shown no more,
    unless the ledger held a second record equal to it in every field. *)
Theorem full_cancel_removes st k pos b choice input st1 t :
  cancels st k pos b choice input st1 t →
  total_cancelled_seats t = num_tickets b →
  ∃ st',
    cancel_booking st (choice :: input) = (st', Returned)
    ∧ current_user st' = current_user st
    ∧ bookings st' = list_remove b (bookings st)
    ∧ bookings st ≡ₚ (b :: bookings st')
    ∧ view_my_bookings st ≡ₚ (b :: view_my_bookings st')
    ∧ ((∀ j, bookings st !! j = Some b → j = pos) →
       (b ∉ bookings st') ∧ (b ∉ view_my_bookings st')).
Proof.
  intros Hc Hfull.
  destruct (cancels_commit _ _ _ _ _ _ _ _ Hc)
    as (Hrun & Hp & Hpos & Huser & ca & ci & cc & cs & Hacc).
  apply only_prints_data in Hp as (Hb1 & _ & Hu1 & _).
  exists (commit_cancellation pos b t st1).
  assert (bookings (commit_cancellation pos b t st1) = list_remove b (bookings st)) as Hdel.
  { destruct Hacc as (Hcs & _).
    rewrite (bookings_commit_cancellation _ _ _ _ _ _ _ _ Hcs), Hb1.
    by rewrite bool_decide_eq_true_2 by lia. }
  assert (current_user (commit_cancellation pos b t st1) = current_user st) as Hu
    by (by rewrite current_user_commit_cancellation).
  assert (b ∈ bookings st) as Hin by (by eapply list_elem_of_lookup_2).
  assert (view_my_bookings (commit_cancellation pos b t st1)
          ≡ₚ list_remove b (filter (λ x, username x = current_user st) (bookings st)))
    as Hview.
  { unfold view_my_bookings.
    by rewrite sort_by_key_perm, user_bookings_filter, Hu, Hdel, filter_list_remove. }
  split_and!; [done | done | done | | |].
  - rewrite Hdel. by apply list_remove_perm.
  - rewrite Hview. unfold view_my_bookings.
    rewrite sort_by_key_perm, user_bookings_filter.
    apply list_remove_perm. by apply list_elem_of_filter.
  - intros Honly.
    assert (b ∉ list_remove b (bookings st)) as Hgone by (by eapply list_remove_only).
    split; [by rewrite Hdel|].
    intros [Hin' _]%view_my_bookings_elem. by rewrite Hdel in Hin'.
Qed.

(** ** Booking identifiers *)

Lemma string_length_app s1 s2 :
  String.length (s1 +:+ s2) = (String.length s1 + String.length s2)%nat.
Proof. induction s1 as [|a s1 IH]; simpl; [done | by rewrite IH]. Qed.

Lemma string_app_inj_suffix s1 s2 u1 u2 :
  String.length u1 = String.length u2 → s1 +:+ u1 = s2 +:+ u2 → s1 = s2 ∧ u1 = u2.
Proof.
  intros Hlen. revert s2. induction s1 as [|a s1 IH]; intros [|b s2] Heq; simpl in *.
  - done.
  - apply (f_equal String.length) in Heq. rewrite !string_length_app in Heq. simpl in Heq. lia.
  - apply (f_equal String.length) in Heq. rewrite !string_length_app in Heq. simpl in Heq. lia.
  - injection Heq as -> Heq. destruct (IH _ Heq) as [-> ->]. done.
Qed.

(** The random suffix always has three characters. *)
Lemma pretty_three_digits r : 100 ≤ r ≤ 999 → String.length (pretty r) = 3%nat.
Proof.
  intros Hr.
  assert (Forall (λ k, String.length (pretty (100 + Z.of_nat k)) = 3%nat) (seq 0 900)) as Hall.
  { apply (bool_decide_unpack _). vm_compute. done. }
  rewrite Forall_forall in Hall.
  specialize (Hall (Z.to_nat (r - 100))).
  replace (100 + Z.of_nat (Z.to_nat (r - 100))) with r in Hall by lia.
  apply Hall. apply elem_of_seq. lia.
Qed.

(** X16. The booking record carries the identifier made of the clock and the
    random number, and two identifiers are equal only if both the second
    of the clock and the random number (between 100 and 999, as
    [random.randint] draws it) are: bookings made in different seconds, or
    in the same second with different random numbers, never share an
    id. *)
Theorem booking_id_injective strptime env1 env2 user1 user2 train1 train2
    from1 to1 date1 from2 to2 date2 a1 i1 c1 s1 a2 i2 c2 s2 :
  100 ≤ randint_100_999 env1 ≤ 999 →
  100 ≤ randint_100_999 env2 ≤ 999 →
  booking_id (booking_record strptime env1 user1 train1 from1 to1 date1 a1 i1 c1 s1)
  = booking_id (booking_record strptime env2 user2 train2 from2 to2 date2 a2 i2 c2 s2) →
  time_time env1 = time_time env2 ∧ randint_100_999 env1 = randint_100_999 env2.
Proof.
  intros Hr1 Hr2 Heq. cbn [booking_id booking_record] in Heq.
  change ("BCC" +:+ ?x) with (String.app "BCC" x) in Heq.
  apply (inj (String.app "BCC")) in Heq.
  apply string_app_inj_suffix in Heq as [Ht Hr].
  - split; by apply (inj pretty).
  - by rewrite !pretty_three_digits.
Qed.

(** * Properties of the accounts *)

(** X17. [register] changes [users] in one case only: the username typed is
    not empty and not taken, the password is not empty and is typed the
    same twice; then exactly that username is added with that password.
    In every other case, and always for the accounts that exist, [users]
    stays as it was; the session is never touched. *)
Theorem register_adds_or_keeps st input :
  let st' := (Accounts.register st input).1 in
  Accounts.current_user st' = Accounts.current_user st
  ∧ (Accounts.users st' = Accounts.users st
     ∨ ∃ username password rest,
         input = username :: password :: password :: rest
         ∧ username ≠ "" ∧ password ≠ ""
         ∧ Accounts.users st !! username = None
         ∧ Accounts.users st' = <[username := password]> (Accounts.users st))
  ∧ Accounts.users st ⊆ Accounts.users st'.
Proof.
  cbv zeta. unfold Accounts.register.
  destruct input as [|username input]; [by split_and!; [|left|]|].
  case_bool_decide as Hu; [by split_and!; [|left|]|].
  case_bool_decide as Hin; [by split_and!; [|left|]|].
  destruct input as [|password input]; [by split_and!; [|left|]|].
  destruct input as [|password_confirm input]; [by split_and!; [|left|]|].
  case_bool_decide as Hp; [by split_and!; [|left|]|].
  case_bool_decide as Hpp; [by split_and!; [|left|]|].
  subst password_confirm.
  assert (Accounts.users st !! username = None) as Hnone
    by (by apply eq_None_not_Some).
  cbn. split_and!; [done | | by apply insert_subseteq].
  right. by exists username, password, input.
Qed.

(** X18. After a registration that succeeds, logging in with the same username
    and password succeeds. *)
Theorem register_then_login st username password rest rest' :
  username ≠ "" → password ≠ "" →
  Accounts.users st !! username = None →
  let st1 := (Accounts.register st (username :: password :: password :: rest)).1 in
  let st2 := (Accounts.login st1 (username :: password :: rest')).1 in
  Accounts.users st1 !! username = Some password
  ∧ Accounts.current_user st2 = Some username.
Proof.
  intros Hu Hp Hnone. cbv zeta. unfold Accounts.register.
  rewrite bool_decide_eq_false_2 by done.
  rewrite bool_decide_eq_false_2 by (rewrite Hnone; by intros [? ?]).
  rewrite bool_decide_eq_false_2 by done.
  rewrite bool_decide_eq_false_2 by (by intros ?).
  cbn. rewrite lookup_insert_eq. split; [done|].
  by rewrite bool_decide_eq_true_2.
Qed.

(** X19. [login] opens a session only for a username of [users] with exactly
    the stored password; after anything else the session is what it was
    (a failed attempt does not log the current user out), and [users] is
    never changed. *)
Theorem login_sound st input :
  let st' := (Accounts.login st input).1 in
  Accounts.users st' = Accounts.users st
  ∧ (Accounts.current_user st' = Accounts.current_user st
     ∨ ∃ username password rest,
         input = username :: password :: rest
         ∧ Accounts.users st !! username = Some password
         ∧ Accounts.current_user st' = Some username).
Proof.
  cbv zeta. unfold Accounts.login.
  destruct input as [|username input]; [by split; [|left]|].
  destruct input as [|password input]; [by split; [|left]|].
  case_bool_decide as Hpw; [|by split; [|left]].
  split; [done|]. right. by exists username, password, input.
Qed.

(** X20. After a login that succeeds, [logout] returns, ends the session and
    keeps the accounts.  With nobody logged in, and only then, it raises
    instead: the [TypeError] of [self.current_user['username']]. *)
Theorem login_then_logout st username password rest :
  Accounts.users st !! username = Some password →
  (∃ st',
     Accounts.logout (Accounts.login st (username :: password :: rest)).1 = Some st'
     ∧ Accounts.current_user st' = None ∧ Accounts.users st' = Accounts.users st)
  ∧ (Accounts.logout st = None ↔ Accounts.current_user st = None).
Proof.
  intros Hpw. split.
  - unfold Accounts.login. rewrite bool_decide_eq_true_2 by done.
    cbn. by eexists.
  - unfold Accounts.logout. by destruct (Accounts.current_user st).
Qed.

(** * Properties of the prompts *)

(** What [_get_station_choice] hands back when it hands back a station. *)
Lemma _get_station_choice_spec said input said' station rest :
  Prompts._get_station_choice said input = (said', Some (Some station, rest)) →
  station ∈ STATIONS
  ∧ ∃ choice n,
      choice ∈ input ∧ Prompts.isdigit choice = true ∧ Prompts.to_int choice = Some n
      ∧ 1 ≤ n ≤ 15 ∧ STATIONS !! Z.to_nat (n - 1) = Some station.
Proof.
  revert said. induction input as [|choice input IH]; intros said; simpl; [done|].
  assert (∀ said1, Prompts._get_station_choice said1 input = (said', Some (Some station, rest)) →
            station ∈ STATIONS
            ∧ ∃ choice0 n,
                choice0 ∈ choice :: input ∧ Prompts.isdigit choice0 = true
                ∧ Prompts.to_int choice0 = Some n
                ∧ 1 ≤ n ≤ 15 ∧ STATIONS !! Z.to_nat (n - 1) = Some station) as Hagain.
  { intros said1 (Hin & c0 & n & Hc0 & H)%IH. split; [done|].
    exists c0, n. split; [by apply list_elem_of_further | done]. }
  case_bool_decide; [done|].
  destruct (Prompts.isdigit choice) eqn:Hdigit; simpl; [|by apply Hagain].
  destruct (Prompts.to_int choice) as [n|] eqn:Hint; [|by apply Hagain].
  case_bool_decide as Hn; simpl; [|by apply Hagain].
  destruct (STATIONS !! Z.to_nat (n - 1)) as [stn|] eqn:Hstn; [|by apply Hagain].
  intros [= <- <- <-]. split; [by eapply list_elem_of_lookup_2|].
  exists choice, n. split_and!; try done; [apply list_elem_of_here | simpl in Hn; lia..].
Qed.

(** X21. [_get_station_choice] hands back nothing (the user gave up) or a
    station of [STATIONS], namely the one whose number was typed: a line of
    digits with a value [n] from 1 to 15 selects station [n] of the list.
    Whatever else is typed is turned down and asked again. *)
Theorem station_choice_listed said input said' station rest :
  Prompts._get_station_choice said input = (said', Some (Some station, rest)) →
  station ∈ STATIONS
  ∧ ∃ choice n,
      choice ∈ input ∧ Prompts.isdigit choice = true ∧ Prompts.to_int choice = Some n
      ∧ 1 ≤ n ≤ 15 ∧ STATIONS !! Z.to_nat (n - 1) = Some station.
Proof. apply _get_station_choice_spec. Qed.

(** What [_get_validated_date] hands back when it hands back a text. *)
Lemma _get_validated_date_spec strptime today said input said' date_str rest :
  Prompts._get_validated_date strptime today said input = (said', Some (Some date_str, rest)) →
  ∃ chosen_date,
    strptime date_str = Some chosen_date ∧ Prompts.date_lt chosen_date today = false.
Proof.
  revert said. induction input as [|line input IH]; intros said; simpl; [done|].
  case_bool_decide; [done|].
  destruct (strptime (Prompts.text line)) as [d|] eqn:Hd; [|by apply IH].
  destruct (Prompts.date_lt d today) eqn:Hlt; [by apply IH|].
  intros [= <- <- <-]. by exists d.
Qed.

(** X22. [_get_validated_date] hands back nothing (the user gave up) or a text
    that [strptime] reads as a date that is not before today. *)
Theorem validated_date_valid strptime today said input said' date_str rest :
  Prompts._get_validated_date strptime today said input = (said', Some (Some date_str, rest)) →
  ∃ chosen_date,
    strptime date_str = Some chosen_date ∧ Prompts.date_lt chosen_date today = false.
Proof. apply _get_validated_date_spec. Qed.

(** X23. Whatever is typed at the prompts and after them, the full
    [search_and_book_trains] leaves the ledger and the inventory as they
    were or makes one booking, and then the booking is between two
    different stations of [STATIONS], for a travel date that [strptime]
    reads and that is not before today. *)
Theorem prompted_booking_is_valid strptime today env st input :
  let st' := (Prompts.search_and_book_trains strptime today env st input).2.1 in
  same_data st st'
  ∨ ∃ from_stn to_stn date_str chosen_date,
      from_stn ∈ STATIONS ∧ to_stn ∈ STATIONS ∧ from_stn ≠ to_stn
      ∧ strptime date_str = Some chosen_date ∧ Prompts.date_lt chosen_date today = false
      ∧ booked strptime env from_stn to_stn date_str st st'.
Proof.
  cbv zeta. unfold Prompts.search_and_book_trains.
  destruct (Prompts._get_station_choice [] input) as [said1 [[[from_stn|] input1]|]] eqn:Hfrom;
    [|by left..].
  case_bool_decide; [by left|].
  destruct (Prompts._get_station_choice said1 input1) as [said2 [[[to_stn|] input2]|]] eqn:Hto;
    [|by left..].
  case_bool_decide; [by left|].
  case_bool_decide as Hne; [by left|].
  destruct (Prompts._get_validated_date strptime today said2 input2)
    as [said3 [[[date_str|] input3]|]] eqn:Hdate; [|by left..].
  case_bool_decide; [by left|]. cbn [snd fst].
  destruct (search_and_book_trains_cases strptime env from_stn to_stn date_str st
              (Prompts.classify <$> input3)) as [Hsame|Hbooked]; [by left|].
  right.
  apply _get_station_choice_spec in Hfrom as [Hfrom _].
  apply _get_station_choice_spec in Hto as [Hto _].
  apply _get_validated_date_spec in Hdate as (d & Hd & Hlt).
  by exists from_stn, to_stn, date_str, d.
Qed.

(** * Properties of the generated train database *)

Lemma randint_range raw k a b : a ≤ b → a ≤ randint raw k a b ≤ b.
Proof.
  intros Hab. unfold randint.
  pose proof (Z.mod_pos_bound (raw k) (b - a + 1)). lia.
Qed.

Lemma new_train_generated raw from_stn to_stn k :
  generated_train (new_train raw from_stn to_stn k).
Proof.
  unfold generated_train, new_train. cbn [seats price]. split.
  - apply randint_range. lia.
  - eexists. split; [reflexivity|].
    pose proof (randint_range raw (k + 6) 300 5000). split; [|apply Z.mod_mul; lia].
    pose proof (Z.mul_div_le (randint raw (k + 6) 300 5000) 10).
    assert (30 ≤ randint raw (k + 6) 300 5000 `div` 10) by (apply Z.div_le_lower_bound; lia).
    lia.
Qed.

Lemma new_trains_generated raw from_stn to_stn n k :
  length (new_trains raw from_stn to_stn n k) = n
  ∧ Forall generated_train (new_trains raw from_stn to_stn n k).
Proof.
  revert k. induction n as [|n IH]; intros k; simpl; [done|].
  destruct (IH (k + 9)%nat) as [-> ?]. split; [done|].
  constructor; [apply new_train_generated | done].
Qed.

Section Generated.

Variable raw : nat → Z.

Lemma new_routes_from_ok from_stn to_stns db k :
  map_Forall (λ _, generated_route) db →
  map_Forall (λ _, generated_route) (new_routes_from raw from_stn to_stns db k).1.
Proof.
  revert db k. induction to_stns as [|to_stn to_stns IH]; intros db k Hdb;
    cbn [new_routes_from]; [done|].
  case_bool_decide; [by apply IH|]. apply IH.
  apply map_Forall_insert_2; [|done].
  pose proof (randint_range raw k 2 6).
  destruct (new_trains_generated raw from_stn to_stn (Z.to_nat (randint raw k 2 6)) (k + 1))
    as [Hlen Hall].
  unfold generated_route. split; [rewrite Hlen; lia | done].
Qed.

Lemma new_routes_ok from_stns to_stns db k :
  map_Forall (λ _, generated_route) db →
  map_Forall (λ _, generated_route) (new_routes raw from_stns to_stns db k).1.
Proof.
  revert db k. induction from_stns as [|from_stn from_stns IH]; intros db k Hdb; simpl; [done|].
  destruct (new_routes_from raw from_stn to_stns db k) as [db1 k1] eqn:Hrow.
  apply IH. change db1 with (db1, k1).1. rewrite <- Hrow. by apply new_routes_from_ok.
Qed.

Lemma new_routes_from_dom from_stn to_stns db k :
  dom (new_routes_from raw from_stn to_stns db k).1
  = dom db ∪ list_to_set (route_keys_from from_stn to_stns).
Proof.
  unfold route_keys_from.
  revert db k. induction to_stns as [|to_stn to_stns IH]; intros db k;
    cbn [new_routes_from].
  - rewrite filter_nil, fmap_nil, list_to_set_nil. by rewrite (right_id_L ∅ (∪)).
  - case_bool_decide as Heq.
    + rewrite filter_cons_False by (by intros ?). apply IH.
    + rewrite filter_cons_True by done.
      rewrite IH, dom_insert_L, fmap_cons, list_to_set_cons.
      by rewrite (comm_L (∪) _ (dom db)), (assoc_L (∪)).
Qed.

Lemma new_routes_dom from_stns to_stns db k :
  dom (new_routes raw from_stns to_stns db k).1
  = dom db ∪ list_to_set (route_keys from_stns to_stns).
Proof.
  unfold route_keys.
  revert db k. induction from_stns as [|from_stn from_stns IH]; intros db k; simpl.
  - by rewrite (right_id_L ∅ (∪)).
  - destruct (new_routes_from raw from_stn to_stns db k) as [db1 k1] eqn:Hrow.
    rewrite IH. change db1 with (db1, k1).1. rewrite <- Hrow, new_routes_from_dom.
    by rewrite list_to_set_app_L, (assoc_L (∪)).
Qed.

Lemma _create_train_database_eq :
  _create_train_database raw = (new_routes raw STATIONS STATIONS ∅ 0).1.
Proof. reflexivity. Qed.

Lemma new_routes_all_ok from_stns to_stns route_key trains :
  (new_routes raw from_stns to_stns ∅ 0).1 !! route_key = Some trains →
  generated_route trains.
Proof.
  intros Hdb.
  pose proof (new_routes_ok from_stns to_stns ∅ 0 (map_Forall_empty _)) as Hall.
  by apply (map_Forall_lookup_1 _ _ _ _ Hall Hdb).
Qed.

(** X24. Whatever numbers are drawn, every route of the generated database has
    two to six trains, and every train has 10 to 200 seats and a price
    that is a multiple of 10 from 300 to 5000; in particular no seat count
    is negative. *)
Theorem generated_trains_in_range route_key trains :
  _create_train_database raw !! route_key = Some trains →
  generated_route trains.
Proof.
  intros Hdb. rewrite _create_train_database_eq in Hdb.
  exact (new_routes_all_ok _ _ _ _ Hdb).
Qed.

(** X25. Whatever numbers are drawn, the generated database has a route for
    every ordered pair of different stations and for nothing else: 210
    routes, none from a station to itself. *)
Theorem generated_routes :
  (∀ route_key,
     is_Some (_create_train_database raw !! route_key)
     ↔ ∃ from_stn to_stn,
         from_stn ∈ STATIONS ∧ to_stn ∈ STATIONS ∧ from_stn ≠ to_stn
         ∧ route_key = from_stn +:+ "::" +:+ to_stn)
  ∧ size (_create_train_database raw) = 210%nat.
Proof.
  assert (dom (_create_train_database raw) = list_to_set (route_keys STATIONS STATIONS))
    as Hdom.
  { rewrite _create_train_database_eq, new_routes_dom, dom_empty_L.
    by rewrite (left_id_L ∅ (∪)). }
  split.
  - intros route_key. rewrite <- elem_of_dom, Hdom, elem_of_list_to_set.
    unfold route_keys. rewrite list_elem_of_bind. split.
    + intros (from_stn & Hkey & Hfrom). unfold route_keys_from in Hkey.
      apply list_elem_of_fmap in Hkey as (to_stn & -> & Hto).
      apply list_elem_of_filter in Hto as [Hne Hto].
      exists from_stn, to_stn. split; [exact Hfrom|]. split; [exact Hto|].
      split; [exact Hne|reflexivity].
    + intros (from_stn & to_stn & Hfrom & Hto & Hne & ->). exists from_stn.
      split; [|exact Hfrom]. unfold route_keys_from. apply list_elem_of_fmap.
      exists to_stn. split; [reflexivity|]. apply list_elem_of_filter.
      split; [exact Hne|exact Hto].
  - rewrite <- size_dom, Hdom, size_list_to_set.
    + by vm_compute.
    + apply (bool_decide_unpack _). by vm_compute.
Qed.

End Generated.

Lemma generated_seats_ok raw : seats_ok (_create_train_database raw).
Proof.
  intros route_key trains Hdb. rewrite _create_train_database_eq in Hdb.
  apply new_routes_all_ok in Hdb as [_ Hall].
  eapply Forall_impl; [exact Hall|]. intros train [? _]. simpl. lia.
Qed.

(** X26. Starting on a freshly generated database, with any ledger, no session
    of bookings and cancellations ever leaves a train with a negative
    number of seats, whatever numbers were drawn and whatever is typed. *)
Theorem generated_sessions_keep_seats raw strptime ledger user events cs :
  seats_ok (trains_db (run_all strptime
                         (mkSystem ledger (_create_train_database raw) user events) cs)).
Proof.
  assert (∀ st, seats_ok (trains_db st) → seats_ok (trains_db (run_all strptime st cs)))
    as Hsession.
  { induction cs as [|c cs IH]; intros st Hok; [done|]. by apply IH, seats_ok_step. }
  apply Hsession, generated_seats_ok.
Qed.

(** * Properties of the earlier program *)

Lemma train2_select_train_rule (I Q : Train2.System → Prop)
    env from_stn to_stn date_str route_key results :
  (∀ m st, I st → I (Train2.print m st)) →
  (∀ st, I st → Q st) →
  (∀ st idx train n,
     results !! idx = Some train →
     1 ≤ n ≤ seats train →
     I st →
     Q (Train2.create_booking env (route_key, idx) train from_stn to_stn date_str n st)) →
  ∀ input st, I st →
  Q (Train2.select_train env from_stn to_stn date_str route_key results st input).1.
Proof.
  intros Hprint Hexit Hcreate input.
  remember (length input) as n eqn:Hn. revert input Hn.
  induction n as [n IH] using lt_wf_ind. intros input -> st HI.
  assert (Hagain : ∀ m input', (length input' < length input)%nat →
            Q (Train2.select_train env from_stn to_stn date_str route_key results
                 (Train2.print m st) input').1).
  { intros m input' Hlt. eapply IH; [exact Hlt | done | by apply Hprint]. }
  assert (Hleave : ∀ m, Q (Train2.print m st)) by (intros m; by apply Hexit, Hprint).
  clear IH.
  destruct input as [|choice input]; [by apply Hexit|]. simpl.
  destruct (is_zero choice); [by apply Hleave|].
  destruct (int choice) as [ch|]; [|apply Hagain; simpl; lia].
  destruct (if bool_decide (0 ≤ ch - 1) then results !! Z.to_nat (ch - 1) else None)
    as [selected_train|] eqn:Hsel; [|apply Hagain; simpl; lia].
  case_bool_decide; [|done].
  destruct input as [|tickets input]; [by apply Hexit|].
  destruct (int tickets) as [k|]; [|apply Hagain; simpl; lia].
  case_bool_decide; simpl; [|apply Hagain; simpl; lia].
  unfold Train2.confirm_and_create_booking.
  destruct input as [|confirm input]; [by apply Hexit|].
  destruct (is_y confirm); simpl; [by apply Hcreate | by apply Hleave].
Qed.

Lemma train2_select_booking_rule (I Q : Train2.System → Prop) ubs :
  (∀ m st, I st → I (Train2.print m st)) →
  (∀ st, I st → Q st) →
  (∀ st k b, ubs !! k = Some b → I st → Q (Train2.cancel_confirmed b st)) →
  ∀ input st, I st → Q (Train2.select_booking ubs st input).1.
Proof.
  intros Hprint Hexit Hcommit input.
  induction input as [|choice input IH]; intros st HI; simpl; [by apply Hexit|].
  destruct (is_zero choice); [by apply Hexit, Hprint|].
  destruct (int choice) as [ch|]; [|by apply IH, Hprint].
  destruct (if bool_decide (0 ≤ ch - 1) then ubs !! Z.to_nat (ch - 1) else None)
    as [b|] eqn:Hsel; [|by apply IH, Hprint].
  case_bool_decide; [|done].
  destruct input as [|confirm input]; [by apply Hexit|].
  destruct (is_y confirm); simpl; [by eapply Hcommit | by apply Hexit, Hprint].
Qed.

Lemma train2_restore_seats route_key train_id n db :
  Train2.restore_seats route_key train_id n db
  = match db !! route_key with
    | Some _ => Some (released route_key train_id n db)
    | None => None
    end.
Proof.
  unfold Train2.restore_seats, released. by destruct (db !! route_key) as [trains|].
Qed.

(** What a confirmed cancellation does when the route is there. *)
Lemma train2_cancel_confirmed_data b st trains :
  Train2.trains_db st !! (Train2.route_from b +:+ "::" +:+ Train2.route_to b) = Some trains →
  Train2.bookings (Train2.cancel_confirmed b st) = Train2.list_remove b (Train2.bookings st)
  ∧ Train2.trains_db (Train2.cancel_confirmed b st) =
    released (Train2.route_from b +:+ "::" +:+ Train2.route_to b)
      (id (Train2.train_details b)) (Train2.num_tickets b) (Train2.trains_db st)
  ∧ Train2.current_user (Train2.cancel_confirmed b st) = Train2.current_user st.
Proof.
  intros Hdb. unfold Train2.cancel_confirmed. by rewrite train2_restore_seats, Hdb.
Qed.

(** What a confirmed booking does to the ledger and to the inventory. *)
Lemma train2_create_booking_data env route_key idx trains train from_stn to_stn date_str n st :
  Train2.trains_db st !! route_key = Some trains →
  trains !! idx = Some train →
  let st' := Train2.create_booking env (route_key, idx) train from_stn to_stn date_str n st in
  Train2.bookings st' =
    Train2.bookings st
    ++ [train2_record env (Train2.current_user st) train from_stn to_stn date_str n]
  ∧ Train2.trains_db st' = <[route_key := <[idx := add_seats (- n) train]> trains]>
                             (Train2.trains_db st)
  ∧ Train2.current_user st' = Train2.current_user st.
Proof.
  intros Hdb Hidx. cbv zeta. unfold Train2.create_booking. cbn. split_and!; [done | | done].
  rewrite (map_alter_insert _ _ _ _ Hdb). by rewrite (list_alter_insert_gen _ _ _ _ Hidx).
Qed.

(** X27. Whatever is typed, the earlier [search_and_book_trains] either
    leaves the ledger and the inventory as they were, or makes exactly one
    booking: a number of tickets between 1 and the seats of the chosen
    train, at that number times the price of the train, with that many
    seats taken off the chosen train only. *)
Theorem train2_book_one_or_nothing env from_stn to_stn date_str st input :
  let st' := (Train2.search_and_book_trains env from_stn to_stn date_str st input).1 in
  train2_same_data st st' ∨ train2_booked env from_stn to_stn date_str st st'.
Proof.
  cbv zeta. unfold Train2.search_and_book_trains.
  case_bool_decide as Hne; [by left|].
  case_bool_decide as Hres; [by left|].
  destruct (Train2.trains_db st !! (from_stn +:+ "::" +:+ to_stn)) as [trains|] eqn:Hdb;
    [|done].
  change (default [] (Some trains)) with trains.
  apply (train2_select_train_rule (train2_same_data st)
           (λ st', train2_same_data st st' ∨ train2_booked env from_stn to_stn date_str st st'));
    [done | by left | | done].
  intros st1 idx train n Hidx Hn (Hb & Ht & Hu). right.
  destruct (train2_create_booking_data env (from_stn +:+ "::" +:+ to_stn) idx trains train
              from_stn to_stn date_str n st1) as (Hb' & Ht' & Hu'); [by rewrite Ht | done |].
  exists idx, trains, train, n. rewrite Hb', Ht', Hu', Hb, Ht, Hu. done.
Qed.

(** X28. Whatever is typed, the earlier [cancel_booking] either leaves the
    ledger and the inventory as they were, or cancels exactly one booking
    of the current user whose route is in the inventory: the record goes
    off the ledger and its tickets go back to the first train with its id
    on that route.  A booking whose route is missing is never removed. *)
Theorem train2_cancel_one_or_nothing st input :
  let st' := (Train2.cancel_booking st input).1 in
  train2_same_data st st' ∨ train2_cancelled st st'.
Proof.
  cbv zeta. unfold Train2.cancel_booking.
  case_bool_decide; [by left|].
  apply (train2_select_booking_rule (train2_same_data st)
           (λ st', train2_same_data st st' ∨ train2_cancelled st st'));
    [done | by left | | done].
  intros st1 k b Hk (Hb & Ht & Hu).
  apply list_elem_of_lookup_2, list_elem_of_filter in Hk as [Huser Hin].
  destruct (Train2.trains_db st !! (Train2.route_from b +:+ "::" +:+ Train2.route_to b))
    as [trains|] eqn:Hdb.
  - right. exists b.
    destruct (train2_cancel_confirmed_data b st1 trains) as (-> & -> & ->); [by rewrite Ht|].
    rewrite Hb, Ht, Hu, Hdb. by split_and!.
  - left. unfold Train2.cancel_confirmed. by rewrite train2_restore_seats, Ht, Hdb.
Qed.

(** X29. A confirmed cancellation of a booking whose route is not in the
    inventory changes nothing: the function reports that the seats could
    not be restored and returns, and the booking stays in the ledger. *)
Theorem train2_cancel_without_route st k b choice confirm rest :
  Train2.user_bookings st !! k = Some b →
  is_zero choice = false →
  int choice = Some (Z.of_nat k + 1) →
  is_y confirm = true →
  Train2.trains_db st !! (Train2.route_from b +:+ "::" +:+ Train2.route_to b) = None →
  Train2.cancel_booking st (choice :: confirm :: rest)
  = (Train2.print Train2.CouldNotRestoreSeats st, Returned)
  ∧ b ∈ Train2.bookings (Train2.cancel_booking st (choice :: confirm :: rest)).1.
Proof.
  intros Hk Hzero Hint Hy Hdb.
  assert (Train2.cancel_booking st (choice :: confirm :: rest)
          = (Train2.print Train2.CouldNotRestoreSeats st, Returned)) as Hrun.
  { unfold Train2.cancel_booking.
    rewrite bool_decide_eq_false_2 by (intros Hnil; by rewrite Hnil in Hk).
    simpl. rewrite Hzero, Hint.
    rewrite bool_decide_eq_true_2 by lia.
    replace (Z.to_nat (Z.of_nat k + 1 - 1)) with k by lia. rewrite Hk, Hy.
    unfold Train2.cancel_confirmed. by rewrite train2_restore_seats, Hdb. }
  split; [done|]. rewrite Hrun. cbn.
  by apply list_elem_of_lookup_2, list_elem_of_filter in Hk as [_ Hin].
Qed.

Lemma train2_list_remove_last b l : b ∉ l → Train2.list_remove b (l ++ [b]) = l.
Proof.
  induction l as [|x l IH]; intros Hnin; simpl.
  - by rewrite decide_True.
  - apply not_elem_of_cons in Hnin as [Hne Hnin].
    rewrite decide_False by done. by rewrite IH.
Qed.

(** X30. Booking [n] tickets and then cancelling that booking brings the
    ledger and the inventory back to what they were, provided the record
    is new to the ledger and no train earlier on the route carries the id
    of the chosen train. *)
Theorem train2_book_cancel_round_trip env from_stn to_stn date_str st trains idx train n
    rest rest' :
  from_stn ≠ to_stn →
  Train2.trains_db st !! (from_stn +:+ "::" +:+ to_stn) = Some trains →
  trains !! idx = Some train →
  (∀ j other, trains !! j = Some other → (j < idx)%nat → id other ≠ id train) →
  1 ≤ n ≤ seats train →
  train2_record env (Train2.current_user st) train from_stn to_stn date_str n
    ∉ Train2.bookings st →
  let st1 := (Train2.search_and_book_trains env from_stn to_stn date_str st
                (Int (Z.of_nat idx + 1) :: Int n :: Yes :: rest)).1 in
  let k := length (Train2.user_bookings st) in
  let st2 := (Train2.cancel_booking st1 (Int (Z.of_nat k + 1) :: Yes :: rest')).1 in
  Train2.bookings st1 ≠ Train2.bookings st
  ∧ Train2.bookings st2 = Train2.bookings st
  ∧ Train2.trains_db st2 = Train2.trains_db st.
Proof.
  intros Hne Hdb Hidx Hfirst Hn Hnew. cbv zeta.
  set (b := train2_record env (Train2.current_user st) train from_stn to_stn date_str n).
  set (key := from_stn +:+ "::" +:+ to_stn) in *.
  assert ((Train2.search_and_book_trains env from_stn to_stn date_str st
             (Int (Z.of_nat idx + 1) :: Int n :: Yes :: rest)).1
          = Train2.create_booking env (key, idx) train from_stn to_stn date_str n st) as ->.
  { unfold Train2.search_and_book_trains. fold key.
    rewrite bool_decide_eq_false_2 by done. rewrite Hdb.
    change (default [] (Some trains)) with trains.
    rewrite bool_decide_eq_false_2 by (intros Hnil; by rewrite Hnil in Hidx).
    simpl. rewrite bool_decide_eq_true_2 by lia.
    replace (Z.to_nat (Z.of_nat idx + 1 - 1)) with idx by lia. rewrite Hidx.
    by rewrite bool_decide_eq_true_2 by done. }
  destruct (train2_create_booking_data env key idx trains train from_stn to_stn date_str n st
              Hdb Hidx) as (Hb1 & Ht1 & Hu1).
  fold b in Hb1.
  set (st1 := Train2.create_booking env (key, idx) train from_stn to_stn date_str n st) in *.
  assert (Train2.user_bookings st1 = Train2.user_bookings st ++ [b]) as Hubs.
  { unfold Train2.user_bookings. rewrite Hb1, Hu1, filter_app.
    by rewrite filter_cons_True by done. }
  assert ((Train2.cancel_booking st1
             (Int (Z.of_nat (length (Train2.user_bookings st)) + 1) :: Yes :: rest')).1
          = Train2.cancel_confirmed b st1) as ->.
  { unfold Train2.cancel_booking. rewrite Hubs.
    rewrite bool_decide_eq_false_2 by (by intros [_ [=]]%app_eq_nil).
    simpl. rewrite bool_decide_eq_true_2 by lia.
    replace (Z.to_nat (Z.of_nat (length (Train2.user_bookings st)) + 1 - 1))
      with (length (Train2.user_bookings st)) by lia.
    by rewrite (list_lookup_middle _ [] b _ eq_refl). }
  split.
  { rewrite Hb1. intros Heq. apply (f_equal length) in Heq.
    rewrite length_app in Heq. simpl in Heq. lia. }
  destruct (train2_cancel_confirmed_data b st1 (<[idx := add_seats (- n) train]> trains))
    as (-> & -> & _).
  { rewrite Ht1. apply lookup_insert_eq. }
  rewrite Hb1, Ht1. split.
  - by apply train2_list_remove_last.
  - change (Train2.route_from b +:+ "::" +:+ Train2.route_to b) with key.
    change (Train2.num_tickets b) with n. change (id (Train2.train_details b)) with (id train).
    unfold released. rewrite lookup_insert_eq.
    assert (list_find (λ t, id t = id train) (<[idx := add_seats (- n) train]> trains)
            = Some (idx, add_seats (- n) train)) as ->.
    { apply list_find_Some. split_and!.
      - apply list_lookup_insert_eq. by eapply lookup_lt_Some.
      - done.
      - intros j y Hj Hlt. rewrite list_lookup_insert_ne in Hj by lia. by eapply Hfirst. }
    rewrite (map_alter_insert _ _ _ _ (lookup_insert_eq _ _ _)).
    rewrite insert_insert_eq.
    rewrite (list_alter_insert_gen _ _ idx (add_seats (- n) train))
      by (apply list_lookup_insert_eq; by eapply lookup_lt_Some).
    rewrite list_insert_insert_eq, add_seats_back, list_insert_id by done.
    by apply insert_id.
Qed.

(** * Examples of the further properties *)



(** Everything is typed but the "y": nothing is booked, nothing is
    cancelled. *)
Lemma nothing_without_yes_witness :
  only_prints ex_booked
    (search_and_book_trains strptime_ymd ex_env "Mumbai" "Delhi" "2025-06-15" ex_booked
       ex_unconfirmed).1
  ∧ only_prints ex_booked (cancel_booking ex_booked ex_unconfirmed).1.
Proof.
  apply (nothing_without_yes strptime_ymd ex_env "Mumbai" "Delhi" "2025-06-15" ex_booked
           ex_unconfirmed).
  unfold ex_unconfirmed. by repeat constructor.
Defined.

Lemma ex_booked_counts_nonneg : Forall counts_nonneg (bookings ex_booked).
Proof.
  rewrite ex_booked_ledger. constructor; [|constructor].
  unfold counts_nonneg. simpl. lia.
Defined.

(** The counts of the example booking after one adult ticket is
    cancelled. *)
Lemma cancel_keeps_counts_nonneg_witness :
  Forall counts_nonneg (bookings ex_booked)
  ∧ Forall counts_nonneg (bookings (cancel_booking ex_booked ex_cancel_one).1).
Proof.
  split; [exact ex_booked_counts_nonneg|].
  apply (cancel_keeps_counts_nonneg ex_booked ex_cancel_one). exact ex_booked_counts_nonneg.
Defined.

(** Three adults and minus one infant on the first train: two seats are
    taken and the record says minus one infant. *)
Lemma counts_checked_by_total_only_witness :
  ∃ st',
    search_and_book_trains strptime_ymd ex_env "Mumbai" "Delhi" "2025-06-15" ex_st0
      ex_book_signed = (st', Returned)
    ∧ (λ b, infant_tickets (pricing b)) <$> bookings st' = [-1]
    ∧ deref (trains_db st') ("Mumbai::Delhi", 0%nat) = Some (add_seats (-2) ex_t1).
Proof.
  destruct (counts_checked_by_total_only strptime_ymd ex_env ex_st0 "Mumbai" "Delhi"
              "2025-06-15" [ex_t1; ex_t2] 0 ex_t1 (Int 1) (Int 3) (Int (-1)) Zero Zero
              3 (-1) 0 0 Yes [] 1000)
    as (st' & Hrun & Hb & _ & Hseats);
    [by apply ex_requests | simpl; lia | reflexivity | reflexivity
    | eexists; vm_compute; reflexivity | eexists; vm_compute; reflexivity |].
  exists st'. split; [exact Hrun|]. split; [by rewrite Hb | exact Hseats].
Defined.

(** Both files are up to date after the example session. *)
Lemma session_saves_changes_witness :
  unsaved (trace ex_st0) = (false, false)
  ∧ unsaved (trace (run_all strptime_ymd ex_st0 ex_session)) = (false, false).
Proof.
  split; [reflexivity|].
  apply (session_saves_changes strptime_ymd ex_session ex_st0). reflexivity.
Defined.

(** Alice and Bob book different trains in the same second with the same
    random number: the two records share an id. *)
Lemma booking_id_injective_witness :
  booking_id (booking_record strptime_ymd ex_env "alice" ex_t1 "Mumbai" "Delhi" "2025-06-15"
                2 1 1 1)
  = booking_id (booking_record strptime_ymd ex_env "bob" ex_t2 "Delhi" "Mumbai" "2025-01-15"
                  1 0 0 0)
  ∧ time_time ex_env = time_time ex_env
  ∧ randint_100_999 ex_env = randint_100_999 ex_env.
Proof.
  split; [reflexivity|].
  apply (booking_id_injective strptime_ymd ex_env ex_env "alice" "bob" ex_t1 ex_t2
           "Mumbai" "Delhi" "2025-06-15" "Delhi" "Mumbai" "2025-01-15" 2 1 1 1 1 0 0 0);
    [simpl; lia | simpl; lia | reflexivity].
Defined.

(** Alice registers and logs in. *)
Lemma register_then_login_witness :
  let st1 := (Accounts.register ex_accounts ["alice"; "secret"; "secret"]).1 in
  let st2 := (Accounts.login st1 ["alice"; "secret"]).1 in
  Accounts.users st1 !! "alice" = Some "secret"
  ∧ Accounts.current_user st2 = Some "alice".
Proof.
  apply (register_then_login ex_accounts "alice" "secret" [] []);
    [by intros [=] | by intros [=] | reflexivity].
Defined.

(** Alice logs in and out. *)
Lemma login_then_logout_witness :
  (∃ st',
     Accounts.logout (Accounts.login ex_registered ["alice"; "secret"]).1 = Some st'
     ∧ Accounts.current_user st' = None
     ∧ Accounts.users st' = Accounts.users ex_registered)
  ∧ (Accounts.logout ex_registered = None ↔ Accounts.current_user ex_registered = None).
Proof.
  apply (login_then_logout ex_registered "alice" "secret" []). vm_compute. reflexivity.
Defined.

(** A name and 16 are turned down; 7 selects Pune. *)
Lemma station_choice_listed_witness :
  Prompts._get_station_choice [] ex_station_typed
  = ([Prompts.InvalidStationNumber; Prompts.InvalidStationNumber],
     Some (Some "Pune", [Prompts.Typed "2" true (Some 2)]))
  ∧ "Pune" ∈ STATIONS.
Proof.
  assert (Prompts._get_station_choice [] ex_station_typed
          = ([Prompts.InvalidStationNumber; Prompts.InvalidStationNumber],
             Some (Some "Pune", [Prompts.Typed "2" true (Some 2)]))) as Hrun
    by (vm_compute; reflexivity).
  split; [exact Hrun|].
  exact (proj1 (station_choice_listed [] ex_station_typed _ "Pune" _ Hrun)).
Defined.

(** A word and yesterday are turned down; the day in June is handed
    back. *)
Lemma validated_date_valid_witness :
  Prompts._get_validated_date strptime_ymd ex_today [] ex_date_typed
  = ([Prompts.InvalidDateFormat; Prompts.DateInPast],
     Some (Some "2025-06-15", [Prompts.Typed "1" true (Some 1)]))
  ∧ ∃ chosen_date,
      strptime_ymd "2025-06-15" = Some chosen_date
      ∧ Prompts.date_lt chosen_date ex_today = false.
Proof.
  assert (Prompts._get_validated_date strptime_ymd ex_today [] ex_date_typed
          = ([Prompts.InvalidDateFormat; Prompts.DateInPast],
             Some (Some "2025-06-15", [Prompts.Typed "1" true (Some 1)]))) as Hrun
    by (vm_compute; reflexivity).
  split; [exact Hrun|].
  exact (validated_date_valid strptime_ymd ex_today [] ex_date_typed _ "2025-06-15" _ Hrun).
Defined.

(** The trains from Mumbai to Delhi of one generated database. *)
Lemma generated_trains_in_range_witness :
  ∃ trains,
    _create_train_database ex_raw !! "Mumbai::Delhi" = Some trains
    ∧ generated_route trains.
Proof.
  eexists. split; [vm_compute; reflexivity|].
  apply (generated_trains_in_range ex_raw "Mumbai::Delhi"). vm_compute. reflexivity.
Defined.

(** In the earlier program, Alice confirms the cancellation of a booking
    from Delhi to Mumbai, a route the inventory does not have. *)
Lemma train2_cancel_without_route_witness :
  Train2.cancel_booking ex2_no_route [Int 1; Yes]
  = (Train2.print Train2.CouldNotRestoreSeats ex2_no_route, Returned)
  ∧ ex2_b ∈ Train2.bookings (Train2.cancel_booking ex2_no_route [Int 1; Yes]).1.
Proof.
  apply (train2_cancel_without_route ex2_no_route 0 ex2_b (Int 1) Yes []);
    [vm_compute; reflexivity | reflexivity | reflexivity | reflexivity
    | vm_compute; reflexivity].
Defined.

(** In the earlier program, five seats of the first train, booked and
    cancelled. *)
Lemma train2_book_cancel_round_trip_witness :
  let st1 := (Train2.search_and_book_trains ex_env "Mumbai" "Delhi" "2025-06-15" ex2_st0
                [Int 1; Int 5; Yes]).1 in
  let st2 := (Train2.cancel_booking st1 [Int 1; Yes]).1 in
  Train2.bookings st1 ≠ Train2.bookings ex2_st0
  ∧ Train2.bookings st2 = Train2.bookings ex2_st0
  ∧ Train2.trains_db st2 = Train2.trains_db ex2_st0.
Proof.
  apply (train2_book_cancel_round_trip ex_env "Mumbai" "Delhi" "2025-06-15" ex2_st0
           [ex_t1; ex_t2] 0 ex_t1 5 [] []).
  - by intros [=].
  - vm_compute. reflexivity.
  - reflexivity.
  - intros j other _ Hj. lia.
  - simpl. lia.
  - simpl. by intros ?%elem_of_nil.
Defined.

(** * Examples of the amounts, of full cancellation and of twin ids *)

(** The fares of the specification's example on doubles, base price 1000
    for two adults, an infant, a child and a senior: 3200 in June; 320 off
    and 2880 in January. *)
Lemma fare_final_price_binary64_witness :
  (∃ pd,
     Binary64._calculate_discounted_price strptime_ymd 1000 "2025-06-15" 2 1 1 1 = Some pd
     ∧ Binary64.season_savings (Binary64.breakdown pd) = 0%float
     ∧ Binary64.final_price pd = 3200%float)
  ∧ (∃ pd,
       Binary64._calculate_discounted_price strptime_ymd 1000 "2025-01-15" 2 1 1 1 = Some pd
       ∧ Binary64.season_savings (Binary64.breakdown pd) = 320%float
       ∧ Binary64.final_price pd = 2880%float).
Proof.
  split.
  - destruct (fare_final_price_binary64 strptime_ymd 1000 "2025-06-15" (Date 2025 6 15)
                2 1 1 1 2000 1000 1000 1000)
      as (pd & Hrun & _ & _ & Hpeak & _);
      [reflexivity | vm_compute; reflexivity..|].
    exists pd. split; [exact Hrun|].
    destruct Hpeak as [Hs Hf]; [compute_done|]. split; [exact Hs|].
    rewrite Hf. vm_compute. reflexivity.
  - destruct (fare_final_price_binary64 strptime_ymd 1000 "2025-01-15" (Date 2025 1 15)
                2 1 1 1 2000 1000 1000 1000)
      as (pd & Hrun & _ & _ & _ & Hoff);
      [reflexivity | vm_compute; reflexivity..|].
    exists pd. split; [exact Hrun|].
    destruct Hoff as [Hs Hf]; [compute_done|].
    split; [rewrite Hs | rewrite Hf]; vm_compute; reflexivity.
Defined.

(** One senior at base price 1300 in June: the formula gives 910, the
    code returns the double below it, 909.9999999999999. *)
Lemma fare_exact_counterexample :
  strptime_ymd "2025-06-15" = Some (Date 2025 6 15)
  ∧ spec_subtotal (num 1300) 0 0 0 1 = num 910
  ∧ ∃ pd,
      Binary64._calculate_discounted_price strptime_ymd 1300 "2025-06-15" 0 0 0 1 = Some pd
      ∧ Binary64.final_price pd = 0x1.c6fffffffffffp+9%float
      ∧ (Binary64.final_price pd <? 910)%float = true.
Proof.
  split; [reflexivity|]. split; [qc_eval|].
  eexists. split; [vm_compute; reflexivity|]. split; vm_compute; reflexivity.
Qed.

(** The refund of the specification's example on doubles: one adult
    ticket of a booking at base price 1000 gives gross 1000, fee 100 and
    net 900. *)
Lemma cancel_refund_binary64_witness :
  base_price_per_ticket (pricing ex_b) = num 1000
  ∧ Binary64.refund 1000 (λ key, count key (pricing ex_b))
      (cancellations (ex_tally [Int 1; Zero; Zero; Zero; Yes]))
    = Some (1000, 100, 900)%float.
Proof.
  split; [reflexivity|].
  destruct (cancel_refund_binary64 ex_booked 0 0 ex_b (Int 1) [Int 1; Zero; Zero; Zero; Yes]
              _ _ 1000 1000 ex_cancels_one)
    as (ca & ci & cc & cs & Na & Ni & Nc & Ns & gross & fee & net
        & Hcs & Ha & Hi & Hc & Hs & Hrun & Hgross & Hfee & Hnet);
    [reflexivity | vm_compute; reflexivity
    | repeat constructor; eexists; vm_compute; reflexivity |].
  rewrite Hrun. injection Hcs as <- <- <- <-.
  injection Ha as <-. injection Hi as <-. injection Hc as <-. injection Hs as <-.
  subst net fee gross. vm_compute. reflexivity.
Defined.

(** Three senior tickets at base price 330: the formula gives 693, the
    code accumulates the double below it, 692.9999999999999.  One adult,
    one child and one senior at base price 310: the net refund, 613.8, is
    not the gross times the double of 0.90, 613.8000000000001. *)
Lemma refund_exact_counterexample :
  spec_gross (num 330) 0 0 0 3 = num 693
  ∧ (∃ gross fee net,
       Binary64.refund 330 ex_three_seniors [(Adult, 0); (Infant, 0); (Child, 0); (Senior, 3)]
       = Some (gross, fee, net)
       ∧ gross = 0x1.5a7ffffffffffp+9%float
       ∧ (gross <? 693)%float = true)
  ∧ (∃ gross fee net,
       Binary64.refund 310 ex_one_each [(Adult, 1); (Infant, 0); (Child, 1); (Senior, 1)]
       = Some (gross, fee, net)
       ∧ (net =? gross * 0x1.ccccccccccccdp-1)%float = false).
Proof.
  split; [qc_eval|]. split.
  - eexists _, _, _. split; [vm_compute; reflexivity|]. split; vm_compute; reflexivity.
  - eexists _, _, _. split; [vm_compute; reflexivity|]. vm_compute. reflexivity.
Qed.

(** All five tickets of the only booking are cancelled. *)
Lemma full_cancel_removes_witness :
  bookings ex_booked = [ex_b]
  ∧ bookings (cancel_booking ex_booked ex_cancel_all).1 = []
  ∧ view_my_bookings (cancel_booking ex_booked ex_cancel_all).1 = [].
Proof.
  split; [exact ex_booked_ledger|].
  destruct (full_cancel_removes ex_booked 0 0 ex_b (Int 1) [Int 2; Int 1; Int 1; Int 1; Yes]
              _ _ ex_cancels_all) as (st' & Hrun & _ & Hdel & _ & _ & _).
  - reflexivity.
  - unfold ex_cancel_all. rewrite Hrun. cbn [fst].
    assert (bookings st' = []) as Hnil.
    { rewrite Hdel, ex_booked_ledger. cbn [list_remove]. by rewrite decide_True. }
    split; [done|]. unfold view_my_bookings, user_bookings. by rewrite Hnil.
Defined.

(** C5 at a generated inventory.  When every draw of the generator is the
    least of its range, the two trains from Mumbai to Delhi both get the id
    MUDE100 and 10 seats.  One seat is taken from the second train (a
    booking) and given back at once (the booking is cancelled in full): it
    goes to the first train, and 10 and 10 seats have become 11 and 9. *)
Theorem release_reaches_twin :
  let route st := default [] (trains_db st !! "Mumbai::Delhi") in
  let st1 :=
    (search_and_book_trains strptime_ymd ex_env "Mumbai" "Delhi" "2025-06-15" ex_generated
       [Int 2; Int 1; Zero; Zero; Zero; Yes]).1 in
  let st2 := (cancel_booking st1 [Int 1; Int 1; Yes]).1 in
  (λ train, (id train, seats train)) <$> route ex_generated
  = [("MUDE100", 10); ("MUDE100", 10)]
  ∧ seats <$> route st1 = [10; 9]
  ∧ length (bookings st1) = 1%nat
  ∧ bookings st2 = []
  ∧ seats <$> route st2 = [11; 9].
Proof. vm_compute. done. Qed.
